(** * PreschoolReviewApp: the query pipeline of the preschool services

    A shallow embedding of the search, recommendation, featured and nearby
    flows of [PreschoolService.js], [RecommendationService.js] and the data
    module ([getAllPreschools], [getPreschoolsNearLocation],
    [calculateDistance]), of the lookups [getPreschoolDetails],
    [getFavoritePreschools] and [getPreschoolsByCounty], followed by the
    properties proved about them.

    Conventions of the embedding.
    - A JavaScript Number that holds a measure (rating, review count,
      coordinate, distance) is a binary64 [float]; [+], [-], [*], [/],
      comparisons and [Math.sqrt] are the IEEE operations of [PrimFloat].
      [Math.sin], [Math.cos], [Math.atan2] and [Math.log] are
      implementation-approximated in ECMAScript, so they are the fields of a
      record [Math.t] that the numeric functions take as an argument.
    - A Number that holds a count or an index ([page], [limit], an array
      length) is an integer of [Z]; its arithmetic is exact below 2^53.
    - A String is a [string] of 8-bit characters; [toLowerCase] folds the
      letters A-Z.
    - A property that may be missing on an object is an [option]; reading a
      member of [undefined] throws a [TypeError].
    - An [async] function is modelled by its completion: the value its
      promise resolves to, or the error it rejects with.  Timers and logging
      have no effect on either and are left out. *)

From Stdlib Require Import ZArith List String Ascii Bool Lia.
From Stdlib Require Import Floats.
From Stdlib Require Import Sorting.Permutation Sorting.Sorted.
Import ListNotations.

(** Decimal literals such as [4.7] denote the nearest binary64 number, as
    they do in JavaScript. *)
#[local] Set Warnings "-inexact-float".

Local Open Scope Z_scope.
Local Open Scope string_scope.

(* ================================================================== *)
(** * Part I: the embedding *)
(* ================================================================== *)

(** ** Completions: a value, or a thrown error *)

Inductive error : Type :=
| TypeError (msg : string)
| Error (msg : string).

Inductive completion (A : Type) : Type :=
| Normal (a : A)
| Throw (e : error).

Arguments Normal {A} a.
Arguments Throw {A} e.

Definition bind {A B : Type} (c : completion A) (k : A -> completion B)
  : completion B :=
  match c with
  | Normal a => k a
  | Throw e => Throw e
  end.

Notation "x <- c ;; k" := (bind c (fun x => k))
  (at level 61, c at next level, right associativity).

Definition throws {A : Type} (c : completion A) : bool :=
  match c with
  | Normal _ => false
  | Throw _ => true
  end.

(** [arr.filter(f)] where the callback may throw: the first throw aborts
    the traversal, elements being visited in index order. *)
Fixpoint filterM {A : Type} (f : A -> completion bool) (l : list A)
  : completion (list A) :=
  match l with
  | [] => Normal []
  | x :: l' =>
      b <- f x ;;
      r <- filterM f l' ;;
      Normal (if b then x :: r else r)
  end.

(** [a || b] on completions of booleans: [b] is evaluated only when [a]
    completed normally with a falsy value. *)
Definition orM (a b : completion bool) : completion bool :=
  x <- a ;; if x then Normal true else b.

(** ** Strings *)

Module JsString.

Definition lowerChar (c : ascii) : ascii :=
  let n := nat_of_ascii c in
  if (Nat.leb 65 n && Nat.leb n 90)%bool then ascii_of_nat (n + 32) else c.

Fixpoint toLowerCase (s : string) : string :=
  match s with
  | EmptyString => EmptyString
  | String c s' => String (lowerChar c) (toLowerCase s')
  end.

(** [s.startsWith(p)] *)
Fixpoint startsWith (s p : string) : bool :=
  match p, s with
  | EmptyString, _ => true
  | String _ _, EmptyString => false
  | String a p', String b s' => (Ascii.eqb a b && startsWith s' p')%bool
  end.

(** [s.includes(sub)] *)
Fixpoint includes (s sub : string) : bool :=
  (startsWith s sub
   || match s with
      | EmptyString => false
      | String _ s' => includes s' sub
      end)%bool.

(** Truthiness of a string value: every string but the empty one. *)
Definition truthy (s : string) : bool :=
  match s with
  | EmptyString => false
  | String _ _ => true
  end.

(** Truthiness of a property that may be [undefined]. *)
Definition truthyOpt (o : option string) : bool :=
  match o with
  | Some s => truthy s
  | None => false
  end.

(** [o && o.includes(sub)] read as a condition. *)
Definition optIncludes (o : option string) (sub : string) : bool :=
  match o with
  | Some s => (truthy s && includes s sub)%bool
  | None => false
  end.

(** [o && o.toLowerCase().includes(sub)] read as a condition. *)
Definition optLowerIncludes (o : option string) (sub : string) : bool :=
  match o with
  | Some s => (truthy s && includes (toLowerCase s) sub)%bool
  | None => false
  end.

(** [o.toLowerCase()] where [o] may be [undefined]. *)
Definition toLowerCaseOf (field : string) (o : option string)
  : completion string :=
  match o with
  | Some s => Normal (toLowerCase s)
  | None =>
      Throw (TypeError ("Cannot read properties of undefined (reading 'toLowerCase'): " ++ field))
  end.

(** [o.includes(sub)] where [o] may be [undefined]. *)
Definition includesOf (field : string) (o : option string) (sub : string)
  : completion bool :=
  match o with
  | Some s => Normal (includes s sub)
  | None =>
      Throw (TypeError ("Cannot read properties of undefined (reading 'includes'): " ++ field))
  end.

End JsString.

(** ** Numbers *)

Module JsNumber.

Local Open Scope float_scope.

(** Truthiness of a Number: neither a zero nor NaN. *)
Definition truthy (x : float) : bool :=
  negb (PrimFloat.is_zero x || PrimFloat.is_nan x).

Definition truthyOpt (o : option float) : bool :=
  match o with
  | Some x => truthy x
  | None => false
  end.

(** [Math.PI], the binary64 number nearest to pi. *)
Definition PI : float := 0x1.921fb54442d18p+1.

(** [parseFloat(x)] of a Number [x]: the Number is printed and read back,
    which returns it unchanged except that the sign of a zero is lost. *)
Definition parseFloat (x : float) : float :=
  if PrimFloat.is_zero x then 0 else x.

(** The integer [n] nearest to [10 * m * 2^e], the larger one on a tie:
    the digits [x.toFixed(1)] prints for a positive [x = m * 2^e]. *)
Definition tenths (m : positive) (e : Z) : Z :=
  match e with
  | Zneg k => (2 * (10 * Zpos m) + 2 ^ Zpos k) / (2 * 2 ^ Zpos k)
  | _ => 10 * Zpos m * 2 ^ e
  end%Z.

(** [parseFloat(x.toFixed(1))]: [x] rounded to one decimal.  At or above
    10^21 [toFixed] prints the Number itself; below, it prints the sign
    and the decimal expansion of [tenths / 10], which is read back as the
    nearest binary64 number. *)
Definition roundToOneDecimal (x : float) : float :=
  match Prim2SF x with
  | S754_finite s m e =>
      if PrimFloat.abs x <? 1e21 then
        match tenths m e with
        | Zpos n =>
            SF2Prim (SF64div (S754_finite s n 0) (S754_finite false 10 0))
        | _ => if s then -0 else 0
        end
      else x
  | S754_zero _ => 0
  | _ => x
  end.

End JsNumber.

(** The members of [Math] that ECMAScript leaves to the implementation. *)
Module Math.

Record t : Type := {
  sin : float -> float;
  cos : float -> float;
  atan2 : float -> float -> float;
  log : float -> float
}.

(** The first-order approximations [sin x = x], [cos x = 1],
    [atan2(y, x) = y / x] and [log x = x - 1]: an implementation on which
    the flows can be run.  It returns the results ECMAScript prescribes at
    the arguments where it prescribes one ([sin 0 = 0], [cos 0 = 1],
    [atan2(0, 1) = 0], [log 1 = 0]). *)
Definition firstOrder : t :=
  {| sin := fun x => x;
     cos := fun _ => 1%float;
     atan2 := fun y x => (y / x)%float;
     log := fun x => (x - 1)%float |}.

(** What the distance properties assume of an implementation: the sine is
    an odd function and is zero at zero, the cosine of a finite number is
    at most one in magnitude, and [atan2(0, 1)] is zero. *)
Record Laws (M : t) : Prop := {
  sin_odd : forall x, sin M (- x)%float = (- sin M x)%float;
  sin_zero : sin M 0%float = 0%float;
  cos_le_one :
    forall x, PrimFloat.is_finite x = true ->
      (PrimFloat.abs (cos M x) <=? 1)%float = true;
  atan2_zero_one : atan2 M 0%float 1%float = 0%float
}.

End Math.

(** ** Arrays *)

Module JsArray.

Local Open Scope float_scope.

(** The index a relative argument of [slice] denotes in an array of
    length [len]: a negative one counts from the end. *)
Definition relativeIndex (len k : Z) : Z :=
  if (k <? 0)%Z then Z.max (len + k) 0 else Z.min k len.

(** [arr.slice(start, end)] *)
Definition slice {A : Type} (arr : list A) (start end_ : Z) : list A :=
  let len := Z.of_nat (List.length arr) in
  let k := relativeIndex len start in
  let final := relativeIndex len end_ in
  firstn (Z.to_nat (final - k)) (skipn (Z.to_nat k) arr).

(** [arr.sort(cmp)] is a stable sort: [a] is placed before [b] when
    [cmp(a, b) < 0], a [NaN] result counts as [+0], and elements that
    compare as equal keep their order.  [insert cmp x l] puts [x], which
    stood before every element of the sorted [l], at its place. *)
Fixpoint insert {A : Type} (cmp : A -> A -> float) (x : A) (l : list A)
  : list A :=
  match l with
  | [] => [x]
  | y :: l' => if cmp y x <? 0 then y :: insert cmp x l' else x :: y :: l'
  end.

Definition sort {A : Type} (cmp : A -> A -> float) (arr : list A) : list A :=
  fold_right (insert cmp) [] arr.

(** [arr.push(x)] *)
Definition push {A : Type} (arr : list A) (x : A) : list A := arr ++ [x].

(** The comparator [cmp] orders the elements of [l] as the integers [key]
    gives them are ordered: [cmp(a, b) < 0] exactly when [key a < key b]. *)
Definition keyed {A : Type} (cmp : A -> A -> float) (key : A -> Z)
  (l : list A) : Prop :=
  forall a b, In a l -> In b l ->
    (cmp a b <? 0) = (key a <? key b)%Z.

End JsArray.

(** ** The data model *)

Module Review.

Record t : Type := {
  id : string;
  userId : string;
  userName : string;
  rating : float;
  title : string;
  content : string
}.

End Review.

(** A preschool object.  [distance] and [matchReasons] are the two
    properties the nearby and recommendation flows add to the copies they
    return. *)
Module Preschool.

Record t : Type := {
  id : string;
  name : string;
  description : string;
  address : string;
  city : option string;
  zip_code : option string;
  county : option string;
  latitude : option float;
  longitude : option float;
  phone : option string;
  website : option string;
  rating : float;
  reviewCount : float;
  tuition : option string;
  hours : option string;
  ageRange : option string;
  curriculum : option string;
  program_type : option string;
  images : list string;
  features : option (list string);
  reviews : list Review.t;
  distance : option float;
  matchReasons : option (list string)
}.

(** [{ ...p, distance: d }] *)
Definition withDistance (p : t) (d : float) : t :=
  {| id := id p; name := name p; description := description p;
     address := address p; city := city p; zip_code := zip_code p;
     county := county p; latitude := latitude p; longitude := longitude p;
     phone := phone p; website := website p; rating := rating p;
     reviewCount := reviewCount p; tuition := tuition p; hours := hours p;
     ageRange := ageRange p; curriculum := curriculum p;
     program_type := program_type p; images := images p;
     features := features p; reviews := reviews p;
     distance := Some d; matchReasons := matchReasons p |}.

(** [{ ...p, matchReasons: r }] *)
Definition withMatchReasons (p : t) (r : list string) : t :=
  {| id := id p; name := name p; description := description p;
     address := address p; city := city p; zip_code := zip_code p;
     county := county p; latitude := latitude p; longitude := longitude p;
     phone := phone p; website := website p; rating := rating p;
     reviewCount := reviewCount p; tuition := tuition p; hours := hours p;
     ageRange := ageRange p; curriculum := curriculum p;
     program_type := program_type p; images := images p;
     features := features p; reviews := reviews p;
     distance := distance p; matchReasons := Some r |}.

(** The Number a property that may be [undefined] converts to. *)
Definition toNumber (o : option float) : float :=
  match o with
  | Some x => x
  | None => nan
  end.

(** An object with the four properties every record has and none of the
    others, and the same object with a coordinate pair: the records of the
    examples are built from them. *)
Definition minimal (id address : string) (rating reviewCount : float) : t :=
  {| id := id; name := id; description := ""; address := address;
     city := None; zip_code := None; county := None; latitude := None;
     longitude := None; phone := None; website := None; rating := rating;
     reviewCount := reviewCount; tuition := None; hours := None;
     ageRange := None; curriculum := None; program_type := None;
     images := []; features := None; reviews := []; distance := None;
     matchReasons := None |}.

Definition located (p : t) (lat lon : float) : t :=
  {| id := id p; name := name p; description := description p;
     address := address p; city := city p; zip_code := zip_code p;
     county := county p; latitude := Some lat; longitude := Some lon;
     phone := phone p; website := website p; rating := rating p;
     reviewCount := reviewCount p; tuition := tuition p; hours := hours p;
     ageRange := ageRange p; curriculum := curriculum p;
     program_type := program_type p; images := images p;
     features := features p; reviews := reviews p;
     distance := distance p; matchReasons := matchReasons p |}.

End Preschool.

(** The criteria of a search request. *)
Module Filters.

Record t : Type := {
  minRating : option float;
  ageRange : option string;
  curriculum : option string;
  priceRange : option string
}.

Definition empty : t :=
  {| minRating := None; ageRange := None; curriculum := None;
     priceRange := None |}.

End Filters.

(** The preferences of a recommendation request. *)
Module Preferences.

Record t : Type := {
  location : option string;
  minRating : option float;
  curriculum : option string
}.

Definition empty : t :=
  {| location := None; minRating := None; curriculum := None |}.

End Preferences.

(** The Number [totalPages] holds: the quotient of two integers, rounded
    up.  A zero divisor gives an infinity or [NaN]; [Finite 0] stands for
    either zero, which no caller tells apart. *)
Module PageCount.

Inductive t : Type :=
| Finite (n : Z)
| PlusInfinity
| MinusInfinity
| NotANumber.

(** [Math.ceil(n / d)] for integers [n] and [d]. *)
Definition ceilDiv (n d : Z) : t :=
  if (d =? 0)%Z then
    if (n =? 0)%Z then NotANumber
    else if (0 <? n)%Z then PlusInfinity else MinusInfinity
  else Finite (- ((- n) / d))%Z.

End PageCount.

Module SearchResult.

Record t : Type := {
  results : list Preschool.t;
  totalCount : Z;
  page : Z;
  totalPages : PageCount.t
}.

End SearchResult.

(** ** The data module: the warehouse and the distance computation *)

Module Data.

Local Open Scope float_scope.

(** [getAllPreschools]: the [preschools] member of the imported JSON
    document [californiaPreschools], or the empty array when the document
    has none. *)
Definition getAllPreschools (californiaPreschools : option (list Preschool.t))
  : list Preschool.t :=
  match californiaPreschools with
  | Some preschools => preschools
  | None => []
  end.

Definition toRadians (degrees : float) : float :=
  degrees * JsNumber.PI / 180.

(** The Haversine formula, in miles. *)
Definition calculateDistance (M : Math.t) (lat1 lon1 lat2 lon2 : float)
  : float :=
  let R := 3958.8 in
  let dLat := toRadians (lat2 - lat1) in
  let dLon := toRadians (lon2 - lon1) in
  let a :=
    Math.sin M (dLat / 2) * Math.sin M (dLat / 2) +
    Math.cos M (toRadians lat1) * Math.cos M (toRadians lat2) *
    Math.sin M (dLon / 2) * Math.sin M (dLon / 2) in
  let c := 2 * Math.atan2 M (PrimFloat.sqrt a) (PrimFloat.sqrt (1 - a)) in
  R * c.

(** The object the [map] callback of [getPreschoolsNearLocation] returns
    for [p]. *)
Definition attachDistance (M : Math.t) (latitude longitude : float)
  (p : Preschool.t) : Preschool.t :=
  let distance :=
    calculateDistance M latitude longitude
      (JsNumber.parseFloat (Preschool.toNumber (Preschool.latitude p)))
      (JsNumber.parseFloat (Preschool.toNumber (Preschool.longitude p))) in
  Preschool.withDistance p (JsNumber.roundToOneDecimal distance).

Definition hasCoordinates (p : Preschool.t) : bool :=
  JsNumber.truthyOpt (Preschool.latitude p)
  && JsNumber.truthyOpt (Preschool.longitude p).

Definition withinDistance (maxDistance : float) (p : Preschool.t) : bool :=
  Preschool.toNumber (Preschool.distance p) <=? maxDistance.

Definition byDistance (a b : Preschool.t) : float :=
  Preschool.toNumber (Preschool.distance a)
  - Preschool.toNumber (Preschool.distance b).

(** No step of the chain throws, so the [catch] branch, which would
    return the empty array, is never taken. *)
Definition getPreschoolsNearLocation (M : Math.t)
  (californiaPreschools : option (list Preschool.t))
  (latitude longitude maxDistance : float) : list Preschool.t :=
  let preschools := getAllPreschools californiaPreschools in
  JsArray.sort byDistance
    (filter (withinDistance maxDistance)
       (map (attachDistance M latitude longitude)
          (filter hasCoordinates preschools))).

(** The callback of the filter of [getPreschoolsByCounty].  The county
    asked for may be [undefined]: its [toLowerCase] is reached, and throws,
    at the first record whose own county is truthy. *)
Definition inCounty (county : option string) (p : Preschool.t)
  : completion bool :=
  match Preschool.county p with
  | Some c =>
      if JsString.truthy c then
        lower <- JsString.toLowerCaseOf "county" county ;;
        Normal (String.eqb (JsString.toLowerCase c) lower)
      else Normal false
  | None => Normal false
  end.

(** The [catch] clause logs the error and returns the empty array. *)
Definition getPreschoolsByCounty
  (californiaPreschools : option (list Preschool.t)) (county : option string)
  : list Preschool.t :=
  let preschools := getAllPreschools californiaPreschools in
  match filterM (inCounty county) preschools with
  | Normal found => found
  | Throw _ => []
  end.

End Data.

(** ** RecommendationService *)

Module RecommendationService.

Local Open Scope float_scope.

(** An instance of the class; its one field is the flag [USE_MOCK_DATA],
    which the constructor sets to [true] and nothing changes. *)
Variant t : Type := Instance.

Definition mock_p1 : Preschool.t :=
  {| Preschool.id := "p1";
     Preschool.name := "Sunshine Preschool";
     Preschool.description := "A nurturing environment where children learn through play and discovery. Our curriculum focuses on social-emotional development, early literacy, and STEM exploration.";
     Preschool.address := "123 Main St, Palo Alto, CA 94301";
     Preschool.city := None;
     Preschool.zip_code := None;
     Preschool.county := None;
     Preschool.latitude := None;
     Preschool.longitude := None;
     Preschool.phone := Some "(650) 555-1234";
     Preschool.website := Some "https://sunshinepreschool.example.com";
     Preschool.rating := 4.7%float;
     Preschool.reviewCount := 128%float;
     Preschool.tuition := Some "$1,500-$1,800/month";
     Preschool.hours := Some "Monday-Friday: 7:30am-6:00pm";
     Preschool.ageRange := Some "2-5 years";
     Preschool.curriculum := Some "Play-based, Montessori-inspired";
     Preschool.program_type := None;
     Preschool.images :=
       [ "https://example.com/images/sunshine1.jpg";
         "https://example.com/images/sunshine2.jpg";
         "https://example.com/images/sunshine3.jpg" ];
     Preschool.features :=
       Some [ "Outdoor playground";
              "Organic meals included";
              "Multilingual staff";
              "Music and art programs" ];
     Preschool.reviews :=
       [ {| Review.id := "r1";
         Review.userId := "u1";
         Review.userName := "Jennifer K.";
         Review.rating := 5%float;
         Review.title := "Excellent preschool with caring teachers";
         Review.content := "My daughter has been attending Sunshine for a year now and she loves it. The teachers are warm and attentive, and the facilities are clean and well-maintained." |} ];
     Preschool.distance := None;
     Preschool.matchReasons := None |}.

Definition mock_p2 : Preschool.t :=
  {| Preschool.id := "p2";
     Preschool.name := "Little Explorers Academy";
     Preschool.description := "An innovative preschool focused on project-based learning and outdoor education. We encourage children to explore, question, and discover through hands-on activities.";
     Preschool.address := "456 Oak Ave, Menlo Park, CA 94025";
     Preschool.city := None;
     Preschool.zip_code := None;
     Preschool.county := None;
     Preschool.latitude := None;
     Preschool.longitude := None;
     Preschool.phone := Some "(650) 555-5678";
     Preschool.website := Some "https://littleexplorers.example.com";
     Preschool.rating := 4.5%float;
     Preschool.reviewCount := 85%float;
     Preschool.tuition := Some "$1,700-$2,000/month";
     Preschool.hours := Some "Monday-Friday: 8:00am-5:30pm";
     Preschool.ageRange := Some "18 months-5 years";
     Preschool.curriculum := Some "Reggio Emilia, Project-based";
     Preschool.program_type := None;
     Preschool.images :=
       [ "https://example.com/images/explorers1.jpg";
         "https://example.com/images/explorers2.jpg";
         "https://example.com/images/explorers3.jpg" ];
     Preschool.features :=
       Some [ "Nature-based learning";
              "Large outdoor space";
              "STEM curriculum";
              "Field trips" ];
     Preschool.reviews :=
       [ {| Review.id := "r2";
         Review.userId := "u2";
         Review.userName := "Michael T.";
         Review.rating := 4%float;
         Review.title := "Great curriculum and outdoor activities";
         Review.content := "The project-based learning approach is fantastic. My son is always excited to tell me about what he did at school. The only downside is the limited parking during pickup times." |} ];
     Preschool.distance := None;
     Preschool.matchReasons := None |}.

Definition mock_p3 : Preschool.t :=
  {| Preschool.id := "p3";
     Preschool.name := "Montessori Garden";
     Preschool.description := "A true Montessori experience with certified teachers and a carefully prepared environment. Children progress at their own pace through individualized learning plans.";
     Preschool.address := "789 Pine Ln, Palo Alto, CA 94303";
     Preschool.city := None;
     Preschool.zip_code := None;
     Preschool.county := None;
     Preschool.latitude := None;
     Preschool.longitude := None;
     Preschool.phone := Some "(650) 555-9012";
     Preschool.website := Some "https://montessorigarden.example.com";
     Preschool.rating := 4.8%float;
     Preschool.reviewCount := 156%float;
     Preschool.tuition := Some "$1,900-$2,200/month";
     Preschool.hours := Some "Monday-Friday: 7:00am-6:30pm";
     Preschool.ageRange := Some "18 months-6 years";
     Preschool.curriculum := Some "Authentic Montessori";
     Preschool.program_type := None;
     Preschool.images :=
       [ "https://example.com/images/montessori1.jpg";
         "https://example.com/images/montessori2.jpg";
         "https://example.com/images/montessori3.jpg" ];
     Preschool.features :=
       Some [ "AMI-certified teachers";
              "Montessori materials";
              "Mixed-age classrooms";
              "Foreign language instruction" ];
     Preschool.reviews :=
       [ {| Review.id := "r3";
         Review.userId := "u3";
         Review.userName := "Sarah L.";
         Review.rating := 5%float;
         Review.title := "Outstanding Montessori program";
         Review.content := "The authentic Montessori approach has been wonderful for my child's development. Teachers are knowledgeable and caring. My only wish is that they had an elementary program as well!" |} ];
     Preschool.distance := None;
     Preschool.matchReasons := None |}.

Definition mock_p4 : Preschool.t :=
  {| Preschool.id := "p4";
     Preschool.name := "Bright Horizons";
     Preschool.description := "A national chain with a strong local presence, offering balanced education for children with a focus on social development and kindergarten readiness.";
     Preschool.address := "321 Maple Dr, Menlo Park, CA 94025";
     Preschool.city := None;
     Preschool.zip_code := None;
     Preschool.county := None;
     Preschool.latitude := None;
     Preschool.longitude := None;
     Preschool.phone := Some "(650) 555-3456";
     Preschool.website := Some "https://brighthorizons.example.com";
     Preschool.rating := 4.3%float;
     Preschool.reviewCount := 210%float;
     Preschool.tuition := Some "$1,600-$1,900/month";
     Preschool.hours := Some "Monday-Friday: 6:30am-7:00pm";
     Preschool.ageRange := Some "6 weeks-5 years";
     Preschool.curriculum := Some "Balanced learning approach";
     Preschool.program_type := None;
     Preschool.images :=
       [ "https://example.com/images/horizons1.jpg";
         "https://example.com/images/horizons2.jpg";
         "https://example.com/images/horizons3.jpg" ];
     Preschool.features :=
       Some [ "Extended hours";
              "Infant care available";
              "Summer programs";
              "Corporate partnerships" ];
     Preschool.reviews :=
       [ {| Review.id := "r4";
         Review.userId := "u4";
         Review.userName := "David R.";
         Review.rating := 4%float;
         Review.title := "Reliable and convenient";
         Review.content := "As working parents, we appreciate the flexible hours and reliable care. The curriculum is solid and our daughter has made good progress with her letters and numbers." |} ];
     Preschool.distance := None;
     Preschool.matchReasons := None |}.

Definition mock_p5 : Preschool.t :=
  {| Preschool.id := "p5";
     Preschool.name := "Creative Kids Cooperative";
     Preschool.description := "A parent-participation preschool where families are actively involved in the classroom. Emphasizes creativity, community, and parent education.";
     Preschool.address := "567 Willow Way, Palo Alto, CA 94306";
     Preschool.city := None;
     Preschool.zip_code := None;
     Preschool.county := None;
     Preschool.latitude := None;
     Preschool.longitude := None;
     Preschool.phone := Some "(650) 555-7890";
     Preschool.website := Some "https://creativekidscoop.example.com";
     Preschool.rating := 4.6%float;
     Preschool.reviewCount := 72%float;
     Preschool.tuition := Some "$900-$1,200/month";
     Preschool.hours := Some "Monday-Friday: 9:00am-1:00pm, Extended care until 3:00pm";
     Preschool.ageRange := Some "2-5 years";
     Preschool.curriculum := Some "Play-based, Cooperative";
     Preschool.program_type := None;
     Preschool.images :=
       [ "https://example.com/images/creative1.jpg";
         "https://example.com/images/creative2.jpg";
         "https://example.com/images/creative3.jpg" ];
     Preschool.features :=
       Some [ "Parent participation";
              "Lower tuition";
              "Strong community";
              "Art-focused curriculum" ];
     Preschool.reviews :=
       [ {| Review.id := "r5";
         Review.userId := "u5";
         Review.userName := "Emily W.";
         Review.rating := 5%float;
         Review.title := "Wonderful community experience";
         Review.content := "The co-op model has been perfect for our family. I love being involved in the classroom and my son has thrived in this loving environment. The parent education nights are an added bonus." |} ];
     Preschool.distance := None;
     Preschool.matchReasons := None |}.

Definition mock_p6 : Preschool.t :=
  {| Preschool.id := "p6";
     Preschool.name := "Little Scholars Preparatory";
     Preschool.description := "An academically-focused preschool that prepares children for success in elementary school through structured learning activities and assessments.";
     Preschool.address := "890 Cedar St, Menlo Park, CA 94025";
     Preschool.city := None;
     Preschool.zip_code := None;
     Preschool.county := None;
     Preschool.latitude := None;
     Preschool.longitude := None;
     Preschool.phone := Some "(650) 555-2345";
     Preschool.website := Some "https://littlescholars.example.com";
     Preschool.rating := 4.2%float;
     Preschool.reviewCount := 95%float;
     Preschool.tuition := Some "$2,000-$2,300/month";
     Preschool.hours := Some "Monday-Friday: 8:30am-5:00pm";
     Preschool.ageRange := Some "3-5 years";
     Preschool.curriculum := Some "Academic, Structured";
     Preschool.program_type := None;
     Preschool.images :=
       [ "https://example.com/images/scholars1.jpg";
         "https://example.com/images/scholars2.jpg";
         "https://example.com/images/scholars3.jpg" ];
     Preschool.features :=
       Some [ "Academic readiness focus";
              "Regular assessments";
              "Reading and math programs";
              "Computer lab" ];
     Preschool.reviews :=
       [ {| Review.id := "r6";
         Review.userId := "u6";
         Review.userName := "Robert M.";
         Review.rating := 4%float;
         Review.title := "Strong academic foundation";
         Review.content := "If you're looking for a preschool that will prepare your child academically, this is it. Our son was reading basic words before kindergarten. The environment is more structured than other preschools, which worked well for our child." |} ];
     Preschool.distance := None;
     Preschool.matchReasons := None |}.

Definition fallbackPreschools : list Preschool.t :=
  [ mock_p1; mock_p2; mock_p3; mock_p4; mock_p5; mock_p6 ].

(** [getMockPreschools]: the warehouse when it holds records, the
    built-in records otherwise. *)
Definition getMockPreschools
  (californiaPreschools : option (list Preschool.t)) : list Preschool.t :=
  let warehouseData := Data.getAllPreschools californiaPreschools in
  if (0 <? Z.of_nat (List.length warehouseData))%Z then warehouseData
  else fallbackPreschools.

Definition generateMatchReasons (preschool : Preschool.t)
  (preferences : Preferences.t) : list string :=
  let reasons : list string := [] in
  let reasons :=
    if 4.5 <=? Preschool.rating preschool then
      JsArray.push reasons "Top-rated preschool"
    else if 4.0 <=? Preschool.rating preschool then
      JsArray.push reasons "Highly rated by parents"
    else reasons in
  let reasons :=
    match Preferences.curriculum preferences,
          Preschool.curriculum preschool with
    | Some wanted, Some offered =>
        if JsString.truthy wanted && JsString.truthy offered
           && JsString.includes (JsString.toLowerCase offered)
                (JsString.toLowerCase wanted)
        then JsArray.push reasons ("Offers " ++ offered ++ " curriculum")
        else reasons
    | _, _ => reasons
    end in
  let reasons :=
    if 50 <? Preschool.reviewCount preschool then
      JsArray.push reasons "Popular with many positive reviews"
    else reasons in
  let reasons :=
    if match Preschool.program_type preschool with
       | Some tag => String.eqb tag "CSPP"
       | None => false
       end
       || JsString.startsWith (Preschool.id preschool) "CSPP_"
    then JsArray.push reasons "California State Preschool Program"
    else reasons in
  let reasons :=
    match Preschool.features preschool with
    | Some (feature :: _) => JsArray.push reasons ("Offers " ++ feature)
    | _ => reasons
    end in
  let reasons :=
    match reasons with
    | [] => JsArray.push reasons "Matches your preferences"
    | _ :: _ => reasons
    end in
  reasons.

(** The callback of the location filter.  [||] evaluates its operands
    from the left and stops at the first truthy one. *)
Definition matchesLocation (location : string) (p : Preschool.t)
  : completion bool :=
  orM (orM
         (Normal (JsString.includes
                    (JsString.toLowerCase (Preschool.address p))
                    (JsString.toLowerCase location)))
         (city <- JsString.toLowerCaseOf "city" (Preschool.city p) ;;
          Normal (JsString.includes city (JsString.toLowerCase location))))
      (JsString.includesOf "zip_code" (Preschool.zip_code p) location).

Definition byRatingDesc (a b : Preschool.t) : float :=
  Preschool.rating b - Preschool.rating a.

(** The callbacks of the two other filters, and of the final [map]. *)
Definition ratingAtLeast (minRating : float) (p : Preschool.t) : bool :=
  minRating <=? Preschool.rating p.

Definition curriculumIncludes (curriculum : string) (p : Preschool.t) : bool :=
  JsString.optLowerIncludes (Preschool.curriculum p)
    (JsString.toLowerCase curriculum).

Definition attachReasons (preferences : Preferences.t)
  (preschool : Preschool.t) : Preschool.t :=
  Preschool.withMatchReasons preschool
    (generateMatchReasons preschool preferences).

(** The [catch] clause logs the error and throws it again. *)
Definition getRecommendations
  (californiaPreschools : option (list Preschool.t))
  (userId : string) (preferences : Preferences.t) (limit : Z)
  : completion (list Preschool.t) :=
  let preschools := getMockPreschools californiaPreschools in
  let filtered := preschools in
  filtered <-
    match Preferences.location preferences with
    | Some location =>
        if JsString.truthy location
        then filterM (matchesLocation location) filtered
        else Normal filtered
    | None => Normal filtered
    end ;;
  let filtered :=
    match Preferences.minRating preferences with
    | Some minRating =>
        if JsNumber.truthy minRating
        then filter (ratingAtLeast minRating) filtered
        else filtered
    | None => filtered
    end in
  let filtered :=
    match Preferences.curriculum preferences with
    | Some curriculum =>
        if JsString.truthy curriculum
        then filter (curriculumIncludes curriculum) filtered
        else filtered
    | None => filtered
    end in
  let filtered := JsArray.sort byRatingDesc filtered in
  let recommendations :=
    map (attachReasons preferences) (JsArray.slice filtered 0 limit) in
  Normal recommendations.

Definition popularity (M : Math.t) (p : Preschool.t) : float :=
  Preschool.rating p * Math.log M (Preschool.reviewCount p + 1).

Definition byPopularityDesc (M : Math.t) (a b : Preschool.t) : float :=
  let aScore := popularity M a in
  let bScore := popularity M b in
  bScore - aScore.

Definition getFeaturedPreschools (M : Math.t)
  (californiaPreschools : option (list Preschool.t)) (limit : Z)
  : completion (list Preschool.t) :=
  let preschools := getMockPreschools californiaPreschools in
  let featured := JsArray.sort (byPopularityDesc M) preschools in
  Normal (JsArray.slice featured 0 limit).

Definition getNearbyPreschools (M : Math.t)
  (californiaPreschools : option (list Preschool.t))
  (latitude longitude radius : float) (limit : Z)
  : completion (list Preschool.t) :=
  let preschools :=
    Data.getPreschoolsNearLocation M californiaPreschools
      latitude longitude radius in
  Normal (JsArray.slice preschools 0 limit).

End RecommendationService.

(** ** PreschoolService *)

Module PreschoolService.

Local Open Scope float_scope.

(** An instance of the class: the injected recommendation service, [None]
    until [setRecommendationService] is called.  [USE_MOCK_DATA] is the
    constant [true]. *)
Record t : Type := {
  recommendationService : option RecommendationService.t
}.

Definition setRecommendationService (this : t)
  (service : RecommendationService.t) : t :=
  {| recommendationService := Some service |}.

(** The callbacks of the five filters of [searchPreschools]. *)
Definition queryMatches (lowerQuery : string) (p : Preschool.t) : bool :=
  JsString.includes (JsString.toLowerCase (Preschool.name p)) lowerQuery
  || JsString.includes (JsString.toLowerCase (Preschool.description p))
       lowerQuery
  || JsString.includes (JsString.toLowerCase (Preschool.address p)) lowerQuery
  || JsString.optLowerIncludes (Preschool.curriculum p) lowerQuery.

Definition ratingAtLeast (minRating : float) (p : Preschool.t) : bool :=
  minRating <=? Preschool.rating p.

Definition ageRangeIncludes (ageRange : string) (p : Preschool.t) : bool :=
  JsString.optIncludes (Preschool.ageRange p) ageRange.

Definition curriculumIncludes (curriculum : string) (p : Preschool.t) : bool :=
  JsString.optLowerIncludes (Preschool.curriculum p)
    (JsString.toLowerCase curriculum).

Definition tuitionIncludes (priceRange : string) (p : Preschool.t) : bool :=
  JsString.optIncludes (Preschool.tuition p) priceRange.

(** Lines 66-99 of [searchPreschools]: the query and the four filters. *)
Definition applyFilters (allPreschools : list Preschool.t)
  (query : option string) (filters : Filters.t) : list Preschool.t :=
  let filtered := allPreschools in
  let filtered :=
    match query with
    | Some query =>
        if JsString.truthy query then
          let lowerQuery := JsString.toLowerCase query in
          filter (queryMatches lowerQuery) filtered
        else filtered
    | None => filtered
    end in
  let filtered :=
    match Filters.minRating filters with
    | Some minRating =>
        if JsNumber.truthy minRating
        then filter (ratingAtLeast minRating) filtered
        else filtered
    | None => filtered
    end in
  let filtered :=
    match Filters.ageRange filters with
    | Some ageRange =>
        if JsString.truthy ageRange
        then filter (ageRangeIncludes ageRange) filtered
        else filtered
    | None => filtered
    end in
  let filtered :=
    match Filters.curriculum filters with
    | Some curriculum =>
        if JsString.truthy curriculum
        then filter (curriculumIncludes curriculum) filtered
        else filtered
    | None => filtered
    end in
  let filtered :=
    match Filters.priceRange filters with
    | Some priceRange =>
        if JsString.truthy priceRange
        then filter (tuitionIncludes priceRange) filtered
        else filtered
    | None => filtered
    end in
  filtered.

(** Lines 101-111 of [searchPreschools]: the page and the counts. *)
Definition paginate (filtered : list Preschool.t) (page limit : Z)
  : SearchResult.t :=
  let startIndex := ((page - 1) * limit)%Z in
  let endIndex := (page * limit)%Z in
  let paginatedResults := JsArray.slice filtered startIndex endIndex in
  {| SearchResult.results := paginatedResults;
     SearchResult.totalCount := Z.of_nat (List.length filtered);
     SearchResult.page := page;
     SearchResult.totalPages :=
       PageCount.ceilDiv (Z.of_nat (List.length filtered)) limit |}.

(** The [catch] clause logs the error and throws it again. *)
Definition searchPreschools (this : t)
  (californiaPreschools : option (list Preschool.t))
  (query : option string) (filters : Filters.t) (page limit : Z)
  : completion SearchResult.t :=
  match recommendationService this with
  | None =>
      Throw (Error "RecommendationService not set. Call setRecommendationService first.")
  | Some _ =>
      let allPreschools :=
        RecommendationService.getMockPreschools californiaPreschools in
      let filtered := applyFilters allPreschools query filters in
      Normal (paginate filtered page limit)
  end.

(** [getPreschoolDetails]: the first record with the identifier.  The
    [catch] clause logs the error and throws it again. *)
Definition getPreschoolDetails (this : t)
  (californiaPreschools : option (list Preschool.t)) (preschoolId : string)
  : completion Preschool.t :=
  match recommendationService this with
  | None =>
      Throw (Error "RecommendationService not set. Call setRecommendationService first.")
  | Some _ =>
      let allPreschools :=
        RecommendationService.getMockPreschools californiaPreschools in
      let preschool :=
        find (fun p => String.eqb (Preschool.id p) preschoolId) allPreschools in
      match preschool with
      | None =>
          Throw (Error ("Preschool with ID " ++ preschoolId ++ " not found"))
      | Some preschool => Normal preschool
      end
  end.

(** [getFavoritePreschools]: the first three records.  The method does not
    test the injected service before it calls it, so without one the call
    is a [TypeError], which the [catch] clause throws again. *)
Definition getFavoritePreschools (this : t)
  (californiaPreschools : option (list Preschool.t))
  : completion (list Preschool.t) :=
  match recommendationService this with
  | None =>
      Throw (TypeError "Cannot read properties of null (reading 'getMockPreschools')")
  | Some _ =>
      let preschools :=
        RecommendationService.getMockPreschools californiaPreschools in
      Normal (JsArray.slice preschools 0 3)
  end.

End PreschoolService.

(** ** The rules of the match-reason generator, as the specification words
    them

    Five rules, each contributing at most one reason, in a fixed order; the
    fallback when none contributed. *)

Module MatchReasonRules.

Local Open Scope float_scope.

Definition ratingRule (record : Preschool.t) : list string :=
  if 4.5 <=? Preschool.rating record then ["Top-rated preschool"]
  else if 4.0 <=? Preschool.rating record then ["Highly rated by parents"]
  else [].

(** The preferences name a curriculum and the record's curriculum
    contains it, letter case apart. *)
Definition curriculumMatches (record : Preschool.t)
  (preferences : Preferences.t) : bool :=
  match Preferences.curriculum preferences with
  | Some wanted =>
      JsString.truthy wanted
      && match Preschool.curriculum record with
         | Some offered =>
             JsString.includes (JsString.toLowerCase offered)
               (JsString.toLowerCase wanted)
         | None => false
         end
  | None => false
  end.

Definition curriculumRule (record : Preschool.t)
  (preferences : Preferences.t) : list string :=
  if curriculumMatches record preferences then
    match Preschool.curriculum record with
    | Some offered => ["Offers " ++ offered ++ " curriculum"]
    | None => []
    end
  else [].

Definition reviewRule (record : Preschool.t) : list string :=
  if 50 <? Preschool.reviewCount record
  then ["Popular with many positive reviews"] else [].

Definition isStateProgram (record : Preschool.t) : bool :=
  match Preschool.program_type record with
  | Some tag => String.eqb tag "CSPP"
  | None => false
  end
  || JsString.startsWith (Preschool.id record) "CSPP_".

Definition programRule (record : Preschool.t) : list string :=
  if isStateProgram record
  then ["California State Preschool Program"] else [].

Definition featureRule (record : Preschool.t) : list string :=
  match Preschool.features record with
  | Some (first :: _) => ["Offers " ++ first]
  | _ => []
  end.

Definition fired (record : Preschool.t) (preferences : Preferences.t)
  : list string :=
  ratingRule record ++ curriculumRule record preferences
  ++ reviewRule record ++ programRule record ++ featureRule record.

Definition reasons (record : Preschool.t) (preferences : Preferences.t)
  : list string :=
  match fired record preferences with
  | [] => ["Matches your preferences"]
  | _ :: _ => fired record preferences
  end.

(** The record of the specification's fifth scenario: rating 4.9, sixty
    reviews, one feature. *)
Definition scenario : Preschool.t :=
  {| Preschool.id := "s5"; Preschool.name := "Scenario";
     Preschool.description := ""; Preschool.address := "";
     Preschool.city := None; Preschool.zip_code := None;
     Preschool.county := None; Preschool.latitude := None;
     Preschool.longitude := None; Preschool.phone := None;
     Preschool.website := None; Preschool.rating := 4.9;
     Preschool.reviewCount := 60; Preschool.tuition := None;
     Preschool.hours := None; Preschool.ageRange := None;
     Preschool.curriculum := None; Preschool.program_type := None;
     Preschool.images := []; Preschool.features := Some ["Organic meals"];
     Preschool.reviews := []; Preschool.distance := None;
     Preschool.matchReasons := None |}.

End MatchReasonRules.

(** ** Binary64 numbers as integers

    Every finite binary64 number is an integer multiple of [2^-1074].
    [SFord] is that multiple, an infinity lying beyond every finite one:
    the proofs compare Numbers through it. *)

Module Binary64.

Definition cond_opp (s : bool) (z : Z) : Z := if s then - z else z.

Definition SFord (x : spec_float) : Z :=
  match x with
  | S754_zero _ => 0
  | S754_nan => 0
  | S754_infinity s => cond_opp s (2 ^ 2100)
  | S754_finite s m e => cond_opp s (Zpos m * 2 ^ (e + 1074))
  end.

Definition ford (x : float) : Z := SFord (Prim2SF x).

(** Not [NaN]. *)
Definition SFnum (x : spec_float) : bool :=
  match x with
  | S754_nan => false
  | _ => true
  end.

(** A zero or a finite number. *)
Definition SFfinite (x : spec_float) : bool :=
  match x with
  | S754_zero _ | S754_finite _ _ _ => true
  | _ => false
  end.

Definition finite (x : float) : bool := SFfinite (Prim2SF x).

(** A finite number that is not a zero, or an infinity, of sign [s]. *)
Definition SFsigned (s : bool) (x : spec_float) : Prop :=
  match x with
  | S754_finite s' _ _ => s' = s
  | S754_infinity s' => s' = s
  | _ => False
  end.

(** The exponent of a finite number is at most [E]; a zero passes. *)
Definition below (E : Z) (x : spec_float) : Prop :=
  match x with
  | S754_zero _ => True
  | S754_finite _ _ e => e <= E
  | _ => False
  end.

End Binary64.
(** ** The nearby listing, as the specification words its criterion

    A record qualifies when both coordinates are set and its distance from
    the origin is at most the radius. *)

Module NearbyCriterion.

Local Open Scope float_scope.

Definition coordinatesSet (p : Preschool.t) : bool :=
  match Preschool.latitude p, Preschool.longitude p with
  | Some _, Some _ => true
  | _, _ => false
  end.

Definition distanceFrom (M : Math.t) (latitude longitude : float)
  (p : Preschool.t) : float :=
  Data.calculateDistance M latitude longitude
    (Preschool.toNumber (Preschool.latitude p))
    (Preschool.toNumber (Preschool.longitude p)).

Definition qualifies (M : Math.t) (latitude longitude radius : float)
  (p : Preschool.t) : bool :=
  coordinatesSet p && (distanceFrom M latitude longitude p <=? radius).

(** A record on the equator, and a record 0.073 degrees north of the
    point (37, -122). *)
Definition onEquator : Preschool.t :=
  Preschool.located (Preschool.minimal "equator" "" 4.5 10) 0 (-122).

Definition fiveMilesNorth : Preschool.t :=
  Preschool.located (Preschool.minimal "north" "" 4.5 10) 37.073 (-122).

(** Whether a flow's result lists the record [p]. *)
Definition listed (result : completion (list Preschool.t)) (p : Preschool.t)
  : bool :=
  match result with
  | Normal l => existsb (fun q => String.eqb (Preschool.id q) (Preschool.id p)) l
  | Throw _ => false
  end.

(** The criterion decides, for every record of the warehouse, whether the
    nearby listing lists it. *)
Definition decidesListing (M : Math.t)
  (californiaPreschools : option (list Preschool.t))
  (latitude longitude radius : float) (limit : Z) : bool :=
  forallb
    (fun p =>
       Bool.eqb
         (listed
            (RecommendationService.getNearbyPreschools M californiaPreschools
               latitude longitude radius limit) p)
         (qualifies M latitude longitude radius p))
    (Data.getAllPreschools californiaPreschools).

End NearbyCriterion.

(** ** Coordinates in range *)

Module Coordinates.

Local Open Scope float_scope.

Definition validLatitude (latitude : float) : bool :=
  (-90 <=? latitude) && (latitude <=? 90).

Definition validLongitude (longitude : float) : bool :=
  (-180 <=? longitude) && (longitude <=? 180).

Definition valid (latitude longitude : float) : bool :=
  validLatitude latitude && validLongitude longitude.

End Coordinates.


(** ** The criteria of the search filter, one by one

    A criterion is active when its value is truthy: a string that is not
    empty, a Number that is neither zero nor [NaN].  A record satisfies a
    filter specification when it satisfies every active criterion. *)

Module SearchCriteria.

Local Open Scope float_scope.

Definition whenText (value : option string) (test : string -> bool) : bool :=
  match value with
  | Some v => if JsString.truthy v then test v else true
  | None => true
  end.

Definition whenNumber (value : option float) (test : float -> bool) : bool :=
  match value with
  | Some v => if JsNumber.truthy v then test v else true
  | None => true
  end.

Definition containsFolded (text : option string) (value : string) : bool :=
  match text with
  | Some t =>
      JsString.includes (JsString.toLowerCase t) (JsString.toLowerCase value)
  | None => false
  end.

Definition contains (text : option string) (value : string) : bool :=
  match text with
  | Some t => JsString.includes t value
  | None => false
  end.

(** The text query: found, letter case apart, in the name, the
    description, the address or the curriculum. *)
Definition matchesQuery (query : string) (r : Preschool.t) : bool :=
  containsFolded (Some (Preschool.name r)) query
  || containsFolded (Some (Preschool.description r)) query
  || containsFolded (Some (Preschool.address r)) query
  || containsFolded (Preschool.curriculum r) query.

Definition meetsMinRating (threshold : float) (r : Preschool.t) : bool :=
  threshold <=? Preschool.rating r.

(** The age range as the code tests it: the filter value occurs in the
    record's age-range text as it is written. *)
Definition inAgeRange (value : string) (r : Preschool.t) : bool :=
  contains (Preschool.ageRange r) value.

(** The age range as the specification words it: letter case apart. *)
Definition inAgeRangeFolded (value : string) (r : Preschool.t) : bool :=
  containsFolded (Preschool.ageRange r) value.

Definition offersCurriculum (value : string) (r : Preschool.t) : bool :=
  containsFolded (Preschool.curriculum r) value.

Definition inPriceRange (value : string) (r : Preschool.t) : bool :=
  contains (Preschool.tuition r) value.

Definition satisfies (query : option string) (filters : Filters.t)
  (r : Preschool.t) : bool :=
  whenText query (fun q => matchesQuery q r)
  && whenNumber (Filters.minRating filters) (fun t => meetsMinRating t r)
  && whenText (Filters.ageRange filters) (fun v => inAgeRange v r)
  && whenText (Filters.curriculum filters) (fun v => offersCurriculum v r)
  && whenText (Filters.priceRange filters) (fun v => inPriceRange v r).

Definition satisfiesFolded (query : option string) (filters : Filters.t)
  (r : Preschool.t) : bool :=
  whenText query (fun q => matchesQuery q r)
  && whenNumber (Filters.minRating filters) (fun t => meetsMinRating t r)
  && whenText (Filters.ageRange filters) (fun v => inAgeRangeFolded v r)
  && whenText (Filters.curriculum filters) (fun v => offersCurriculum v r)
  && whenText (Filters.priceRange filters) (fun v => inPriceRange v r).

(** A filter specification with the age range [Years] alone. *)
Definition capitalYears : Filters.t :=
  {| Filters.minRating := None; Filters.ageRange := Some "Years";
     Filters.curriculum := None; Filters.priceRange := None |}.

(** The five ratings of the specification's second scenario. *)
Definition fiveRatings : list Preschool.t :=
  [ Preschool.minimal "a" "" 4.7 0; Preschool.minimal "b" "" 4.5 0;
    Preschool.minimal "c" "" 4.8 0; Preschool.minimal "d" "" 4.3 0;
    Preschool.minimal "e" "" 4.6 0 ].

Definition atLeast (threshold : float) : Filters.t :=
  {| Filters.minRating := Some threshold; Filters.ageRange := None;
     Filters.curriculum := None; Filters.priceRange := None |}.

End SearchCriteria.

(** ** The pages of a sequence, one after the other *)

Module Pages.

(** The items of the pages 1 to [pages], concatenated. *)
Definition upTo (sequence : list Preschool.t) (limit : Z) (pages : nat)
  : list Preschool.t :=
  List.concat
    (map (fun k =>
            SearchResult.results
              (PreschoolService.paginate sequence (Z.of_nat k) limit))
       (seq 1 pages)).

(** The five records of the specification's fourth scenario. *)
Definition five : list Preschool.t :=
  [ Preschool.minimal "r1" "" 4 0; Preschool.minimal "r2" "" 4 0;
    Preschool.minimal "r3" "" 4 0; Preschool.minimal "r4" "" 4 0;
    Preschool.minimal "r5" "" 4 0 ].

Definition service : PreschoolService.t :=
  {| PreschoolService.recommendationService :=
       Some RecommendationService.Instance |}.

End Pages.

(** ** The popularity score, as the specification words it

    The key of the featured ranking: the rating times the natural
    logarithm of the review count plus one. *)

Module PopularityScore.

Local Open Scope float_scope.

Definition score (M : Math.t) (record : Preschool.t) : float :=
  Preschool.rating record * Math.log M (Preschool.reviewCount record + 1).

(** No record of the set has a score that is [NaN]. *)
Definition scored (M : Math.t) (records : list Preschool.t) : bool :=
  forallb (fun record => negb (PrimFloat.is_nan (score M record))) records.

(** The two records of the specification's third scenario: rating 4.7
    with 128 reviews, and rating 4.8 with 20 reviews. *)
Definition manyReviews : Preschool.t := Preschool.minimal "many" "" 4.7 128.

Definition fewReviews : Preschool.t := Preschool.minimal "few" "" 4.8 20.

End PopularityScore.

(** ** The location filter of the recommendation flow *)

Module LocationFilter.

(** The first operand of the filter's callback: the location occurs in
    the address, letter case apart. *)
Definition addressMatches (location : string) (p : Preschool.t) : bool :=
  JsString.includes (JsString.toLowerCase (Preschool.address p))
    (JsString.toLowerCase location).

(** The callback when no property is missing. *)
Definition matches (location : string) (p : Preschool.t) : bool :=
  addressMatches location p
  || SearchCriteria.containsFolded (Preschool.city p) location
  || SearchCriteria.contains (Preschool.zip_code p) location.

Definition hasCityAndZip (p : Preschool.t) : bool :=
  match Preschool.city p, Preschool.zip_code p with
  | Some _, Some _ => true
  | _, _ => false
  end.

Definition near (location : string) : Preferences.t :=
  {| Preferences.location := Some location; Preferences.minRating := None;
     Preferences.curriculum := None |}.

Definition cityError : error :=
  TypeError "Cannot read properties of undefined (reading 'toLowerCase'): city".

End LocationFilter.
(** ** The flows over a store

    Arrays and objects are cells of a store and are named by their
    locations, as references name them: [[...arr]], [filter], [slice] and
    [map] allocate a new array, an object literal allocates a new object,
    and [sort] rearranges the array it is called on, in place.  The flows
    of this section are the flows above with every such allocation and
    update written out; the canonical record set is the array at the
    location [warehouse], whose elements are the locations of the
    canonical records. *)

Module Store.

Definition loc : Type := nat.

Inductive cell : Type :=
| Obj (o : Preschool.t)
| Arr (elems : list loc).

(** A store: the cell at location [l] is its [l]-th element. *)
Definition t : Type := list cell.

Definition object (h : t) (l : loc) : option Preschool.t :=
  match nth_error h l with
  | Some (Obj o) => Some o
  | _ => None
  end.

Definition array (h : t) (l : loc) : option (list loc) :=
  match nth_error h l with
  | Some (Arr elems) => Some elems
  | _ => None
  end.

(** The store with the cell at [l] replaced. *)
Fixpoint put (h : t) (l : loc) (c : cell) : t :=
  match h, l with
  | [], _ => []
  | _ :: h', O => c :: h'
  | x :: h', S l' => x :: put h' l' c
  end.

(** A computation: from a store, a completion and the store it leaves. *)
Definition comp (A : Type) : Type := t -> completion A * t.

Definition ret {A : Type} (a : A) : comp A := fun h => (Normal a, h).

Definition lift {A : Type} (c : completion A) : comp A := fun h => (c, h).

Definition andThen {A B : Type} (c : comp A) (k : A -> comp B) : comp B :=
  fun h =>
    match c h with
    | (Normal a, h') => k a h'
    | (Throw e, h') => (Throw e, h')
    end.

(** [try { c } catch (error) { handler }] *)
Definition tryCatch {A : Type} (c : comp A) (handler : error -> comp A)
  : comp A :=
  fun h =>
    match c h with
    | (Normal a, h') => (Normal a, h')
    | (Throw e, h') => handler e h'
    end.

Declare Scope store_scope.
Delimit Scope store_scope with store.
Notation "x <~ c ;; k" := (andThen c (fun x => k))
  (at level 61, c at next level, right associativity) : store_scope.
Local Open Scope store_scope.

(** Allocation: the new cell takes the first free location. *)
Definition new (c : cell) : comp loc :=
  fun h => (Normal (List.length h), (h ++ [c])%list).

Definition readArray (a : loc) : comp (list loc) :=
  fun h =>
    match array h a with
    | Some elems => (Normal elems, h)
    | None => (Throw (TypeError "not an array"), h)
    end.

Definition readObject (l : loc) : comp Preschool.t :=
  fun h =>
    match object h l with
    | Some o => (Normal o, h)
    | None => (Throw (TypeError "not an object"), h)
    end.

Definition write (a : loc) (c : cell) : comp unit :=
  fun h => (Normal tt, put h a c).

Fixpoint forEach {A B : Type} (f : A -> comp B) (l : list A) : comp (list B) :=
  match l with
  | [] => ret []
  | x :: l' => y <~ f x ;; ys <~ forEach f l' ;; ret (y :: ys)
  end.

(** The elements of the array at [a], each with the object it refers to. *)
Definition elements (a : loc) : comp (list (loc * Preschool.t)) :=
  elems <~ readArray a ;;
  objects <~ forEach readObject elems ;;
  ret (combine elems objects).

(** [[...arr]] *)
Definition spread (a : loc) : comp loc :=
  elems <~ readArray a ;; new (Arr elems).

(** [arr.filter(f)]: a new array of the references whose object passes. *)
Definition filterArray (f : Preschool.t -> completion bool) (a : loc)
  : comp loc :=
  es <~ elements a ;;
  kept <~ lift (filterM (fun e => f (snd e)) es) ;;
  new (Arr (map fst kept)).

Definition filterArrayBy (f : Preschool.t -> bool) (a : loc) : comp loc :=
  filterArray (fun p => Normal (f p)) a.

(** [arr.sort(cmp)]: the references of the array at [a] are rearranged in
    that array, which is returned. *)
Definition sortArray (cmp : Preschool.t -> Preschool.t -> float) (a : loc)
  : comp loc :=
  es <~ elements a ;;
  _ <~ write a (Arr (map fst (JsArray.sort (fun x y => cmp (snd x) (snd y)) es))) ;;
  ret a.

(** [arr.slice(start, end)] *)
Definition sliceArray (a : loc) (start end_ : Z) : comp loc :=
  elems <~ readArray a ;; new (Arr (JsArray.slice elems start end_)).

(** [arr.map(p => ({ ...p, ... }))]: a new object for every element, and a
    new array of their references. *)
Definition mapArray (f : Preschool.t -> Preschool.t) (a : loc) : comp loc :=
  es <~ elements a ;;
  copies <~ forEach (fun e => new (Obj (f (snd e)))) es ;;
  new (Arr copies).

(** An array literal of object literals. *)
Definition literal (objects : list Preschool.t) : comp loc :=
  elems <~ forEach (fun o => new (Obj o)) objects ;;
  new (Arr elems).

(** *** The data module *)

Definition getAllPreschools (warehouse : option loc) : comp loc :=
  match warehouse with
  | Some preschools => ret preschools
  | None => new (Arr [])
  end.

Definition getPreschoolsNearLocation (M : Math.t) (warehouse : option loc)
  (latitude longitude maxDistance : float) : comp loc :=
  tryCatch
    (preschools <~ getAllPreschools warehouse ;;
     located <~ filterArrayBy Data.hasCoordinates preschools ;;
     measured <~ mapArray (Data.attachDistance M latitude longitude) located ;;
     near <~ filterArrayBy (Data.withinDistance maxDistance) measured ;;
     sortArray Data.byDistance near)
    (fun _ => new (Arr [])).

(** *** RecommendationService *)

Definition getMockPreschools (warehouse : option loc) : comp loc :=
  warehouseData <~ getAllPreschools warehouse ;;
  elems <~ readArray warehouseData ;;
  if (0 <? Z.of_nat (List.length elems))%Z then ret warehouseData
  else literal RecommendationService.fallbackPreschools.

Definition getRecommendations (warehouse : option loc) (userId : string)
  (preferences : Preferences.t) (limit : Z) : comp loc :=
  preschools <~ getMockPreschools warehouse ;;
  filtered <~ spread preschools ;;
  filtered <~
    match Preferences.location preferences with
    | Some location =>
        if JsString.truthy location
        then filterArray (RecommendationService.matchesLocation location)
               filtered
        else ret filtered
    | None => ret filtered
    end ;;
  filtered <~
    match Preferences.minRating preferences with
    | Some minRating =>
        if JsNumber.truthy minRating
        then filterArrayBy (RecommendationService.ratingAtLeast minRating)
               filtered
        else ret filtered
    | None => ret filtered
    end ;;
  filtered <~
    match Preferences.curriculum preferences with
    | Some curriculum =>
        if JsString.truthy curriculum
        then filterArrayBy
               (RecommendationService.curriculumIncludes curriculum) filtered
        else ret filtered
    | None => ret filtered
    end ;;
  _ <~ sortArray RecommendationService.byRatingDesc filtered ;;
  best <~ sliceArray filtered 0 limit ;;
  mapArray (RecommendationService.attachReasons preferences) best.

Definition getFeaturedPreschools (M : Math.t) (warehouse : option loc)
  (limit : Z) : comp loc :=
  preschools <~ getMockPreschools warehouse ;;
  copy <~ spread preschools ;;
  featured <~ sortArray (RecommendationService.byPopularityDesc M) copy ;;
  sliceArray featured 0 limit.

Definition getNearbyPreschools (M : Math.t) (warehouse : option loc)
  (latitude longitude radius : float) (limit : Z) : comp loc :=
  preschools <~
    getPreschoolsNearLocation M warehouse latitude longitude radius ;;
  sliceArray preschools 0 limit.

(** *** PreschoolService *)

(** The object [searchPreschools] returns: [results] is a reference. *)
Record page : Type := {
  results : loc;
  totalCount : Z;
  pageNumber : Z;
  totalPages : PageCount.t
}.

Definition searchPreschools (this : PreschoolService.t)
  (warehouse : option loc) (query : option string) (filters : Filters.t)
  (page limit : Z) : comp Store.page :=
  match PreschoolService.recommendationService this with
  | None =>
      lift (Throw (Error "RecommendationService not set. Call setRecommendationService first."))
  | Some _ =>
      allPreschools <~ getMockPreschools warehouse ;;
      filtered <~ spread allPreschools ;;
      filtered <~
        match query with
        | Some query =>
            if JsString.truthy query
            then filterArrayBy
                   (PreschoolService.queryMatches (JsString.toLowerCase query))
                   filtered
            else ret filtered
        | None => ret filtered
        end ;;
      filtered <~
        match Filters.minRating filters with
        | Some minRating =>
            if JsNumber.truthy minRating
            then filterArrayBy (PreschoolService.ratingAtLeast minRating)
                   filtered
            else ret filtered
        | None => ret filtered
        end ;;
      filtered <~
        match Filters.ageRange filters with
        | Some ageRange =>
            if JsString.truthy ageRange
            then filterArrayBy (PreschoolService.ageRangeIncludes ageRange)
                   filtered
            else ret filtered
        | None => ret filtered
        end ;;
      filtered <~
        match Filters.curriculum filters with
        | Some curriculum =>
            if JsString.truthy curriculum
            then filterArrayBy (PreschoolService.curriculumIncludes curriculum)
                   filtered
            else ret filtered
        | None => ret filtered
        end ;;
      filtered <~
        match Filters.priceRange filters with
        | Some priceRange =>
            if JsString.truthy priceRange
            then filterArrayBy (PreschoolService.tuitionIncludes priceRange)
                   filtered
            else ret filtered
        | None => ret filtered
        end ;;
      elems <~ readArray filtered ;;
      paginatedResults <~
        sliceArray filtered ((page - 1) * limit) (page * limit) ;;
      ret {| results := paginatedResults;
             totalCount := Z.of_nat (List.length elems);
             pageNumber := page;
             totalPages :=
               PageCount.ceilDiv (Z.of_nat (List.length elems)) limit |}
  end.

(** *** Reading a store *)

Fixpoint objects (h : t) (elems : list loc) : option (list Preschool.t) :=
  match elems with
  | [] => Some []
  | l :: elems' =>
      match object h l, objects h elems' with
      | Some o, Some os => Some (o :: os)
      | _, _ => None
      end
  end.

(** The records the array at [a] refers to, in its order. *)
Definition view (h : t) (a : loc) : option (list Preschool.t) :=
  match array h a with
  | Some elems => objects h elems
  | None => None
  end.

(** The store [h] holds the record set [californiaPreschools] at
    [warehouse]. *)
Definition holds (h : t) (warehouse : option loc)
  (californiaPreschools : option (list Preschool.t)) : Prop :=
  match warehouse, californiaPreschools with
  | Some a, Some records => view h a = Some records
  | None, None => True
  | _, _ => False
  end.

(** No cell of [h0] differs in [h]. *)
Definition unchanged (h0 h : t) : Prop :=
  firstn (List.length h0) h = h0.

(** The locations allocated after [h0]. *)
Definition fresh (h0 : t) (l : loc) : Prop := (List.length h0 <= l)%nat.

(** What holds after [c], run from a store that satisfies [P]: [Q] of its
    value when it completes normally, [E] of its error when it throws. *)
Definition triple {A : Type} (P : t -> Prop) (c : comp A)
  (Q : A -> t -> Prop) (E : error -> t -> Prop) : Prop :=
  forall h, P h ->
    match c h with
    | (Normal a, h') => Q a h'
    | (Throw e, h') => E e h'
    end.

(** Every pair of [es] is a location with the object the store holds
    there. *)
Definition paired (h : t) (es : list (loc * Preschool.t)) : Prop :=
  Forall (fun e => object h (fst e) = Some (snd e)) es.

(** The array at [a] has elements, all of them allocated after [h0]. *)
Definition ofCopies (h0 : t) (a : loc) (h : t) : Prop :=
  exists elems, array h a = Some elems /\ Forall (fresh h0) elems.

(** The error condition of a computation that does not throw. *)
Definition never : error -> t -> Prop := fun _ _ => False.

(** The array at [a] refers to the records [rs]. *)
Definition sees (h0 : t) (rs : list Preschool.t) (a : loc) (h : t) : Prop :=
  unchanged h0 h /\ view h a = Some rs.

(** The array at [a] is new, and refers to the records [rs]. *)
Definition refers (h0 : t) (rs : list Preschool.t) (a : loc) (h : t) : Prop :=
  unchanged h0 h /\ fresh h0 a /\ view h a = Some rs.

(** The flow left the store it started from as it was, and its result is
    the result [pure] of the flow on values: the same error, or an array
    that refers to the same records. *)
Definition agrees (h0 : t) (pure : completion (list Preschool.t))
  (run : completion loc * t) : Prop :=
  unchanged h0 (snd run)
  /\ match fst run, pure with
     | Normal a, Normal rs => view (snd run) a = Some rs
     | Throw e, Throw e' => e = e'
     | _, _ => False
     end.

(** The same for the search flow, whose result is a page. *)
Definition agreesOnPage (h0 : t) (pure : completion SearchResult.t)
  (run : completion page * t) : Prop :=
  unchanged h0 (snd run)
  /\ match fst run, pure with
     | Normal pg, Normal r =>
         view (snd run) (results pg) = Some (SearchResult.results r)
         /\ totalCount pg = SearchResult.totalCount r
         /\ pageNumber pg = SearchResult.page r
         /\ totalPages pg = SearchResult.totalPages r
     | Throw e, Throw e' => e = e'
     | _, _ => False
     end.

(** Every element of the array at [a] is an object allocated after
    [h0]. *)
Definition copies (h0 : t) (run : completion loc * t) : Prop :=
  match fst run with
  | Normal a =>
      match array (snd run) a with
      | Some elems => Forall (fresh h0) elems
      | None => False
      end
  | Throw _ => True
  end.

(** *** The other listings of PreschoolService *)

Definition getFavoritePreschools (this : PreschoolService.t)
  (warehouse : option loc) : comp loc :=
  match PreschoolService.recommendationService this with
  | None =>
      lift (Throw (TypeError "Cannot read properties of null (reading 'getMockPreschools')"))
  | Some _ =>
      preschools <~ getMockPreschools warehouse ;;
      sliceArray preschools 0 3
  end.

(** [allPreschools.find(p => p.id === preschoolId)] returns the element
    itself: a reference. *)
Definition getPreschoolDetails (this : PreschoolService.t)
  (warehouse : option loc) (preschoolId : string) : comp loc :=
  match PreschoolService.recommendationService this with
  | None =>
      lift (Throw (Error "RecommendationService not set. Call setRecommendationService first."))
  | Some _ =>
      allPreschools <~ getMockPreschools warehouse ;;
      es <~ elements allPreschools ;;
      match find (fun e => String.eqb (Preschool.id (snd e)) preschoolId) es with
      | None =>
          lift (Throw (Error ("Preschool with ID " ++ preschoolId ++ " not found")))
      | Some e => ret (fst e)
      end
  end.

(** Every element of the array at [a] is one of the references
    [canonical]. *)
Definition within (canonical : list loc) (a : loc) (h : t) : Prop :=
  exists elems, array h a = Some elems /\ incl elems canonical.

(** A store with two records and the array of them. *)
Definition example : t :=
  [ Obj NearbyCriterion.fiveMilesNorth; Obj NearbyCriterion.onEquator;
    Arr [0%nat; 1%nat] ].

End Store.
(** ** The county a record names *)

Module CountyCriterion.

(** The record names a county, and it is the county asked for, letter
    case apart. *)
Definition sameCounty (county : string) (p : Preschool.t) : bool :=
  match Preschool.county p with
  | Some c =>
      JsString.truthy c
      && String.eqb (JsString.toLowerCase c) (JsString.toLowerCase county)
  | None => false
  end.

(** A record of a county. *)
Definition inCounty (id county : string) : Preschool.t :=
  {| Preschool.id := id; Preschool.name := id; Preschool.description := "";
     Preschool.address := ""; Preschool.city := None;
     Preschool.zip_code := None; Preschool.county := Some county;
     Preschool.latitude := None; Preschool.longitude := None;
     Preschool.phone := None; Preschool.website := None;
     Preschool.rating := 4; Preschool.reviewCount := 0;
     Preschool.tuition := None; Preschool.hours := None;
     Preschool.ageRange := None; Preschool.curriculum := None;
     Preschool.program_type := None; Preschool.images := [];
     Preschool.features := None; Preschool.reviews := [];
     Preschool.distance := None; Preschool.matchReasons := None |}.

Definition threeCounties : option (list Preschool.t) :=
  Some [ inCounty "a" "Alameda"; inCounty "b" "Santa Clara";
         inCounty "c" "ALAMEDA" ].

End CountyCriterion.
(** ** The criteria of the recommendation flow *)

Module RecommendationCriteria.

Local Open Scope float_scope.

(** The location filter can read every record: no location is asked for,
    or every record has a city and a postal code. *)
Definition locationReadable (preferences : Preferences.t)
  (records : list Preschool.t) : bool :=
  match Preferences.location preferences with
  | Some v =>
      negb (JsString.truthy v)
      || forallb LocationFilter.hasCityAndZip records
  | None => true
  end.

(** The record meets every preference that is active. *)
Definition satisfies (preferences : Preferences.t) (r : Preschool.t) : bool :=
  SearchCriteria.whenText (Preferences.location preferences)
    (fun v => LocationFilter.matches v r)
  && SearchCriteria.whenNumber (Preferences.minRating preferences)
       (fun t => t <=? Preschool.rating r)
  && SearchCriteria.whenText (Preferences.curriculum preferences)
       (fun v => SearchCriteria.offersCurriculum v r).

Definition rated (records : list Preschool.t) : bool :=
  forallb (fun p => negb (PrimFloat.is_nan (Preschool.rating p))) records.

(** Ratings of at least a threshold, no other preference. *)
Definition atLeast (threshold : float) : Preferences.t :=
  {| Preferences.location := None; Preferences.minRating := Some threshold;
     Preferences.curriculum := None |}.

(** A Montessori curriculum, no other preference. *)
Definition montessori : Preferences.t :=
  {| Preferences.location := None; Preferences.minRating := None;
     Preferences.curriculum := Some "MONTESSORI" |}.

End RecommendationCriteria.

(** ** Two records east of an origin *)

Module RadiusExample.

(** On the equator, one and two degrees of longitude east of the prime
    meridian. *)
Definition warehouse : option (list Preschool.t) :=
  Some [ Preschool.located (Preschool.minimal "far" "" 4 0) 1e-9 2;
         Preschool.located (Preschool.minimal "near" "" 4 0) 1e-9 1 ].

End RadiusExample.
(* ================================================================== *)
(** * Part II: properties *)
(* ================================================================== *)

Local Open Scope Z_scope.

(** ** Binary64 arithmetic

    Facts about the IEEE operations, proved from their specification in
    [SpecFloat]: the order of the numbers, the sign of a difference,
    opposites, and products that cannot overflow. *)

Module Binary64Facts.

Import Binary64.

Local Open Scope Z_scope.

Ltac zfold :=
  change IntDef.Z.max with Z.max in *;
  change IntDef.Z.min with Z.min in *;
  change IntDef.Z.add with Z.add in *;
  change IntDef.Z.sub with Z.sub in *;
  change IntDef.Z.mul with Z.mul in *;
  change IntDef.Z.opp with Z.opp in *;
  change IntDef.Z.eqb with Z.eqb in *;
  change IntDef.Z.leb with Z.leb in *;
  change IntDef.Z.ltb with Z.ltb in *;
  change IntDef.Z.compare with Z.compare in *;
  change IntDef.Z.even with Z.even in *;
  change PosDef.Pos.mul with Pos.mul in *;
  change PosDef.Pos.succ with Pos.succ in *.

Lemma digits2_pos_bounds (m : positive) :
  2 ^ (Zpos (digits2_pos m) - 1) <= Zpos m < 2 ^ Zpos (digits2_pos m).
Proof.
  induction m as [m IH|m IH|]; cbn [digits2_pos].
  - rewrite Pos2Z.inj_succ.
    replace (Z.succ (Zpos (digits2_pos m)) - 1) with (Z.succ (Zpos (digits2_pos m) - 1)) by lia.
    rewrite !Z.pow_succ_r by lia. lia.
  - rewrite Pos2Z.inj_succ.
    replace (Z.succ (Zpos (digits2_pos m)) - 1) with (Z.succ (Zpos (digits2_pos m) - 1)) by lia.
    rewrite !Z.pow_succ_r by lia. lia.
  - simpl. lia.
Qed.

Lemma valid_finite_inv (s : bool) (m : positive) (e : Z) :
  valid_binary (S754_finite s m e) = true ->
  -1074 <= e <= 971
  /\ Zpos (digits2_pos m) <= 53
  /\ (-1074 < e -> Zpos (digits2_pos m) = 53).
Proof.
  unfold SpecFloat.valid_binary, bounded, canonical_mantissa, fexp, SpecFloat.emin, prec, emax.
  intros H. zfold. apply andb_true_iff in H. destruct H as [H1 H2].
  apply Z.eqb_eq in H1. apply Z.leb_le in H2. lia.
Qed.

Lemma valid_finite_range (s : bool) (m : positive) (e : Z) :
  valid_binary (S754_finite s m e) = true ->
  0 < Zpos m * 2 ^ (e + 1074) < 2 ^ 2100.
Proof.
  intros H. destruct (valid_finite_inv _ _ _ H) as [He [Hd _]].
  pose proof (digits2_pos_bounds m) as [_ Hm].
  assert (Zpos m < 2 ^ 53).
  { eapply Z.lt_le_trans; [exact Hm|]. apply Z.pow_le_mono_r; lia. }
  assert (0 < 2 ^ (e + 1074)) by (apply Z.pow_pos_nonneg; lia).
  assert (2 ^ (e + 1074) <= 2 ^ 2045) by (apply Z.pow_le_mono_r; lia).
  split; [lia|].
  replace 2100 with (53 + 2047) by lia. rewrite (Z.pow_add_r 2 53 2047) by lia.
  assert (2 ^ 2045 < 2 ^ 2047) by (apply Z.pow_lt_mono_r; lia).
  nia.
Qed.

Lemma finite_compare_ord (m1 m2 : positive) (e1 e2 : Z) :
  valid_binary (S754_finite false m1 e1) = true ->
  valid_binary (S754_finite false m2 e2) = true ->
  match e1 ?= e2 with
  | Lt => Lt
  | Gt => Gt
  | Eq => Pos.compare_cont Eq m1 m2
  end = (Zpos m1 * 2 ^ (e1 + 1074) ?= Zpos m2 * 2 ^ (e2 + 1074)).
Proof.
  intros H1 H2.
  destruct (valid_finite_inv _ _ _ H1) as [He1 [Hd1 Hn1]].
  destruct (valid_finite_inv _ _ _ H2) as [He2 [Hd2 Hn2]].
  pose proof (digits2_pos_bounds m1) as [Hl1 Hu1].
  pose proof (digits2_pos_bounds m2) as [Hl2 Hu2].
  assert (Hlt : forall ma mb ea eb,
             -1074 <= ea -> ea < eb ->
             Zpos ma < 2 ^ 53 -> 2 ^ 52 <= Zpos mb ->
             Zpos ma * 2 ^ (ea + 1074) < Zpos mb * 2 ^ (eb + 1074)).
  { intros ma mb ea eb Hea Hab Ha Hb.
    replace (eb + 1074) with ((eb - ea - 1) + (1 + (ea + 1074))) by lia.
    rewrite (Z.pow_add_r 2 (eb - ea - 1)) by lia.
    rewrite (Z.pow_add_r 2 1) by lia.
    assert (0 < 2 ^ (ea + 1074)) by (apply Z.pow_pos_nonneg; lia).
    assert (1 <= 2 ^ (eb - ea - 1)).
    { change 1 with (2 ^ 0) at 1. apply Z.pow_le_mono_r; lia. }
    change (2 ^ 1) with 2. change (2 ^ 53) with (2 * 2 ^ 52) in Ha.
    remember (2 ^ 52) as C eqn:HC. remember (2 ^ (ea + 1074)) as P eqn:HP.
    remember (2 ^ (eb - ea - 1)) as K eqn:HK.
    assert (Z.pos ma * P < 2 * C * P) by (apply Z.mul_lt_mono_pos_r; lia).
    assert (2 * C * P <= 2 * Z.pos mb * P) by (apply Z.mul_le_mono_nonneg_r; lia).
    assert (1 * (2 * Z.pos mb * P) <= K * (2 * Z.pos mb * P))
      by (apply Z.mul_le_mono_nonneg_r; lia).
    lia. }
  assert (Hs : forall m, Zpos (digits2_pos m) <= 53 -> Zpos m < 2 ^ 53).
  { intros m Hd. pose proof (digits2_pos_bounds m) as [_ Hm].
    eapply Z.lt_le_trans; [exact Hm|]. apply Z.pow_le_mono_r; lia. }
  assert (Hb : forall m, Zpos (digits2_pos m) = 53 -> 2 ^ 52 <= Zpos m).
  { intros m Hd. pose proof (digits2_pos_bounds m) as [Hm _].
    rewrite Hd in Hm. exact Hm. }
  destruct (Z.compare_spec e1 e2) as [Heq|Hlt12|Hgt12].
  - subst e2. change (Pos.compare_cont Eq m1 m2) with (Pos.compare m1 m2).
    assert (0 < 2 ^ (e1 + 1074)) by (apply Z.pow_pos_nonneg; lia).
    symmetry. destruct (Pos.compare_spec m1 m2) as [Hm|Hm|Hm].
    + subst m2. apply Z.compare_refl.
    + apply Z.compare_lt_iff. apply Z.mul_lt_mono_pos_r; lia.
    + apply Z.compare_gt_iff. apply Z.mul_lt_mono_pos_r; lia.
  - symmetry. apply Z.compare_lt_iff. apply Hlt; auto; try lia. apply Hb, Hn2; lia.
  - symmetry. apply Z.compare_gt_iff. apply Hlt; auto; try lia. apply Hb, Hn1; lia.
Qed.

Lemma SFcompare_ord (x y : spec_float) :
  valid_binary x = true -> valid_binary y = true ->
  SFnum x = true -> SFnum y = true ->
  SFcompare x y = Some (SFord x ?= SFord y).
Proof.
  intros Vx Vy Nx Ny.
  destruct x as [sx|sx| |sx mx ex], y as [sy|sy| |sy my ey];
    try discriminate; cbn [SFcompare SFord];
    try (pose proof (valid_finite_range _ _ _ Vx));
    try (pose proof (valid_finite_range _ _ _ Vy));
    try pose proof (Z.pow_pos_nonneg 2 2100 ltac:(lia) ltac:(lia)).
  all: try (destruct sx; try destruct sy; cbn [cond_opp]; f_equal; symmetry;
            first [ apply Z.compare_eq_iff; lia
                  | apply Z.compare_lt_iff; lia
                  | apply Z.compare_gt_iff; lia ]; fail).
  all: try (destruct sy; cbn [cond_opp]; f_equal; symmetry;
            first [ apply Z.compare_eq_iff; lia
                  | apply Z.compare_lt_iff; lia
                  | apply Z.compare_gt_iff; lia ]; fail).
  destruct sx, sy; cbn [cond_opp]; f_equal.
  - rewrite Z.compare_opp. rewrite <- (finite_compare_ord my mx ey ex) by assumption.
    rewrite (Z.compare_antisym ex ey).
    destruct (ex ?= ey); cbn [CompOpp]; try reflexivity.
    rewrite Pos.compare_cont_antisym. reflexivity.
  - symmetry. apply Z.compare_lt_iff. lia.
  - symmetry. apply Z.compare_gt_iff. lia.
  - apply finite_compare_ord; assumption.
Qed.

(** ** Rounding keeps the sign *)

Lemma shr_1_m (mrs : shr_record) :
  0 <= shr_m mrs -> shr_m (shr_1 mrs) = shr_m mrs / 2.
Proof.
  destruct mrs as [m r s]. cbn [shr_m]. intros Hm.
  destruct m as [|p|p]; [reflexivity| |lia].
  destruct p as [p|p|]; cbn [shr_1 shr_m].
  - rewrite (Pos2Z.inj_xI p). apply Z.div_unique with (r := 1); lia.
  - rewrite (Pos2Z.inj_xO p). apply Z.div_unique with (r := 0); lia.
  - reflexivity.
Qed.

Lemma iter_shr_1_m (p : positive) :
  forall mrs, 0 <= shr_m mrs ->
    shr_m (iter_pos shr_1 p mrs) = shr_m mrs / 2 ^ Zpos p.
Proof.
  assert (Hnn : forall q mrs, 0 <= shr_m mrs ->
                  (forall mrs', 0 <= shr_m mrs' ->
                     shr_m (iter_pos shr_1 q mrs') = shr_m mrs' / 2 ^ Zpos q) ->
                  0 <= shr_m (iter_pos shr_1 q mrs)).
  { intros q mrs Hm IH. rewrite IH by assumption.
    apply Z.div_pos; [assumption | apply Z.pow_pos_nonneg; lia]. }
  induction p as [p IH|p IH|]; intros mrs Hm; cbn [iter_pos];
    try assert (HP : 0 < 2 ^ Zpos p) by (apply Z.pow_pos_nonneg; lia).
  - assert (H1 : 0 <= shr_m (shr_1 mrs)).
    { rewrite shr_1_m by assumption. apply Z.div_pos; lia. }
    rewrite IH by (apply Hnn; assumption).
    rewrite IH by assumption. rewrite shr_1_m by assumption.
    rewrite !Z.div_div by lia.
    f_equal. rewrite (Pos2Z.inj_xI p).
    replace (2 * Zpos p + 1) with (1 + Zpos p + Zpos p) by lia.
    do 2 (rewrite Z.pow_add_r by lia). change (2 ^ 1) with 2. ring.
  - rewrite IH by (apply Hnn; assumption).
    rewrite IH by assumption.
    rewrite Z.div_div by lia.
    f_equal. rewrite (Pos2Z.inj_xO p).
    replace (2 * Zpos p) with (Zpos p + Zpos p) by lia.
    rewrite Z.pow_add_r by lia. reflexivity.
  - rewrite shr_1_m by assumption. reflexivity.
Qed.

Lemma shr_record_of_loc_m (m : Z) (l : location) :
  shr_m (shr_record_of_loc m l) = m.
Proof. destruct l as [|[]]; reflexivity. Qed.

Lemma Zdigits2_bounds (m : Z) :
  0 < m -> 2 ^ (Zdigits2 m - 1) <= m < 2 ^ Zdigits2 m.
Proof.
  destruct m as [|p|p]; try lia. intros _. apply digits2_pos_bounds.
Qed.

(** One rounding shift of a positive mantissa whose exponent is at least
    [emin] leaves a positive mantissa, and an exponent at least [emin]. *)
Lemma shr_fexp_pos (m e : Z) (l : location) :
  0 < m -> -1074 <= e ->
  0 < shr_m (fst (shr_fexp prec emax m e l))
  /\ -1074 <= snd (shr_fexp prec emax m e l).
Proof.
  intros Hm He. unfold shr_fexp, shr, fexp, SpecFloat.emin, prec, emax. zfold.
  pose proof (Zdigits2_bounds m Hm) as [Hlo Hhi].
  destruct (Z.max (Zdigits2 m + e - 53) (3 - 1024 - 53) - e) as [|p|p] eqn:Hn;
    cbn [fst snd]; rewrite ?shr_record_of_loc_m; try (split; lia).
  split; [|lia].
  rewrite iter_shr_1_m by (rewrite shr_record_of_loc_m; lia).
  rewrite shr_record_of_loc_m.
  assert (Hp : Zpos p = Zdigits2 m - 53) by lia.
  apply Z.div_str_pos. split; [apply Z.pow_pos_nonneg; lia|].
  eapply Z.le_trans; [|exact Hlo].
  apply Z.pow_le_mono_r; lia.
Qed.

Lemma round_nearest_even_pos (m : Z) (l : location) :
  0 < m -> 0 < round_nearest_even m l.
Proof.
  intros Hm. destruct l as [|[]]; cbn [round_nearest_even]; zfold;
    try destruct (Z.even m); lia.
Qed.

Lemma binary_round_aux_signed (s : bool) (m e : Z) (l : location) :
  0 < m -> -1074 <= e -> SFsigned s (binary_round_aux prec emax s m e l).
Proof.
  intros Hm He. unfold binary_round_aux.
  pose proof (shr_fexp_pos m e l Hm He) as [H1 H2].
  destruct (shr_fexp prec emax m e l) as [mrs' e']. cbn [fst snd] in H1, H2.
  pose proof (shr_fexp_pos _ e' loc_Exact
                (round_nearest_even_pos _ (loc_of_shr_record mrs') H1) H2)
    as [H3 H4].
  destruct (shr_fexp prec emax _ e' loc_Exact) as [mrs'' e''].
  cbn [fst snd] in H3, H4.
  destruct (shr_m mrs'') as [|q|q]; try lia.
  destruct (IntDef.Z.leb e'' (IntDef.Z.sub emax prec)); reflexivity.
Qed.

Lemma iter_xO (d m : positive) :
  Zpos (Pos.iter xO m d) = Zpos m * 2 ^ Zpos d.
Proof.
  induction d as [|d IH] using Pos.peano_ind.
  - cbn [Pos.iter]. rewrite Pos2Z.inj_xO. change (2 ^ 1) with 2. lia.
  - rewrite Pos.iter_succ, Pos2Z.inj_xO, IH, Pos2Z.inj_succ, Z.pow_succ_r by lia.
    ring.
Qed.

Lemma shl_align_spec (m : positive) (e e' : Z) :
  e' <= e ->
  Zpos (fst (shl_align m e e')) = Zpos m * 2 ^ (e - e')
  /\ snd (shl_align m e e') = e'.
Proof.
  intros He. unfold shl_align. zfold.
  destruct (e' - e) as [|p|p] eqn:Hd; cbn [fst snd]; try lia.
  - replace (e - e') with 0 by lia. split; lia.
  - rewrite iter_xO. replace (e - e') with (Zpos p) by lia. split; reflexivity.
Qed.

Lemma binary_round_signed (s : bool) (m : positive) (e : Z) :
  -1074 <= e -> SFsigned s (binary_round prec emax s m e).
Proof.
  intros He. unfold binary_round.
  destruct (shl_align m e (fexp prec emax (Z.pos (digits2_pos m) + e)))
    as [mz ez] eqn:Hal.
  apply binary_round_aux_signed; [lia|].
  unfold shl_align in Hal. zfold.
  destruct (fexp prec emax (Z.pos (digits2_pos m) + e) - e) eqn:Hd;
    inversion Hal; subst; try lia.
  unfold fexp, SpecFloat.emin, prec, emax. zfold. lia.
Qed.

Lemma SFltb_signed_zero (s : bool) (x : spec_float) (z : bool) :
  SFsigned s x -> SFltb x (S754_zero z) = s.
Proof.
  destruct x as [| s' | | s' m e]; cbn [SFsigned]; intros H; try contradiction;
    subst s'; destruct s; reflexivity.
Qed.

Lemma finite_ord_aligned (s : bool) (m : positive) (e ez : Z) :
  -1074 <= ez -> ez <= e ->
  SFord (S754_finite s m e)
  = cond_opp s (Zpos (fst (shl_align m e ez))) * 2 ^ (ez + 1074).
Proof.
  intros H1 H2. destruct (shl_align_spec m e ez H2) as [Hm _]. rewrite Hm.
  cbn [SFord]. replace (e + 1074) with ((e - ez) + (ez + 1074)) by lia.
  rewrite (Z.pow_add_r 2 (e - ez)) by lia.
  destruct s; cbn [cond_opp]; ring.
Qed.

(** The sign of a difference is the order of its operands. *)
Lemma SFsub_ltb_zero (x y : spec_float) :
  valid_binary x = true -> valid_binary y = true ->
  SFnum x = true -> SFnum y = true ->
  SFltb (SF64sub x y) (S754_zero false) = (SFord x <? SFord y).
Proof.
  intros Vx Vy Nx Ny.
  destruct x as [sx|sx| |sx mx ex], y as [sy|sy| |sy my ey]; try discriminate;
    try pose proof (valid_finite_range _ _ _ Vx);
    try pose proof (valid_finite_range _ _ _ Vy);
    try pose proof (Z.pow_pos_nonneg 2 2100 ltac:(lia) ltac:(lia)).
  all: try (destruct sx; try destruct sy; cbn [SF64sub SFsub SFltb SFcompare SFord cond_opp negb];
            symmetry; first [ apply Z.ltb_lt; lia | apply Z.ltb_ge; lia ]; fail).
  all: try (destruct sy; cbn [SF64sub SFsub SFltb SFcompare SFord cond_opp negb];
            symmetry; first [ apply Z.ltb_lt; lia | apply Z.ltb_ge; lia ]; fail).
  destruct (valid_finite_inv _ _ _ Vx) as [Hex _].
  destruct (valid_finite_inv _ _ _ Vy) as [Hey _].
  cbn [SF64sub SFsub]. zfold.
  set (ez := Z.min ex ey).
  rewrite (finite_ord_aligned sx mx ex ez) by (unfold ez; lia).
  rewrite (finite_ord_aligned sy my ey ez) by (unfold ez; lia).
  change (SpecFloat.cond_Zopp) with cond_opp.
  set (a := cond_opp sx (Zpos (fst (shl_align mx ex ez)))).
  set (b := cond_opp sy (Zpos (fst (shl_align my ey ez)))).
  assert (HP : 0 < 2 ^ (ez + 1074)) by (apply Z.pow_pos_nonneg; unfold ez; lia).
  assert (Hez : -1074 <= ez) by (unfold ez; lia).
  destruct (a - b) as [|p|p] eqn:Hd; cbn [binary_normalize].
  - symmetry. apply Z.ltb_ge. assert (a = b) by lia. subst. lia.
  - rewrite (SFltb_signed_zero false) by (apply binary_round_signed; assumption).
    symmetry. apply Z.ltb_ge. apply Z.mul_le_mono_nonneg_r; lia.
  - rewrite (SFltb_signed_zero true) by (apply binary_round_signed; assumption).
    symmetry. apply Z.ltb_lt. apply Z.mul_lt_mono_pos_r; lia.
Qed.

(** ** The primitive operations *)

Lemma Prim2SF_num (x : float) :
  PrimFloat.is_nan x = false -> SFnum (Prim2SF x) = true.
Proof.
  intros H. unfold Prim2SF. rewrite H.
  destruct (is_zero x); [reflexivity|].
  destruct (is_infinity x); [reflexivity|].
  destruct (Z.frexp x) as [r ex].
  destruct (shr_fexp _ _ _ _ _) as [sh e'].
  destruct (shr_m sh); reflexivity.
Qed.

Lemma Prim2SF_nan (x : float) :
  PrimFloat.is_nan x = true -> Prim2SF x = S754_nan.
Proof. intros H. unfold Prim2SF. rewrite H. reflexivity. Qed.

Lemma ltb_ford (x y : float) :
  PrimFloat.is_nan x = false -> PrimFloat.is_nan y = false ->
  PrimFloat.ltb x y = (ford x <? ford y).
Proof.
  intros Hx Hy. rewrite ltb_spec. unfold SFltb, ford.
  rewrite SFcompare_ord by auto using Prim2SF_valid, Prim2SF_num.
  destruct (Z.compare_spec (SFord (Prim2SF x)) (SFord (Prim2SF y)));
    symmetry; first [apply Z.ltb_lt; lia | apply Z.ltb_ge; lia].
Qed.

Lemma leb_ford (x y : float) :
  PrimFloat.is_nan x = false -> PrimFloat.is_nan y = false ->
  PrimFloat.leb x y = (ford x <=? ford y).
Proof.
  intros Hx Hy. rewrite leb_spec. unfold SFleb, ford.
  rewrite SFcompare_ord by auto using Prim2SF_valid, Prim2SF_num.
  destruct (Z.compare_spec (SFord (Prim2SF x)) (SFord (Prim2SF y)));
    symmetry; first [apply Z.leb_le; lia | apply Z.leb_gt; lia].
Qed.

Lemma eqb_ford (x y : float) :
  PrimFloat.is_nan x = false -> PrimFloat.is_nan y = false ->
  PrimFloat.eqb x y = (ford x =? ford y).
Proof.
  intros Hx Hy. rewrite eqb_spec. unfold SFeqb, ford.
  rewrite SFcompare_ord by auto using Prim2SF_valid, Prim2SF_num.
  destruct (Z.compare_spec (SFord (Prim2SF x)) (SFord (Prim2SF y)));
    symmetry; first [apply Z.eqb_eq; lia | apply Z.eqb_neq; lia].
Qed.

Lemma leb_nan_l (x y : float) :
  PrimFloat.is_nan x = true -> PrimFloat.leb x y = false.
Proof.
  intros H. rewrite leb_spec, (Prim2SF_nan x H). reflexivity.
Qed.

Lemma leb_nan_r (x y : float) :
  PrimFloat.is_nan y = true -> PrimFloat.leb x y = false.
Proof.
  intros H. rewrite leb_spec, (Prim2SF_nan y H).
  destruct (Prim2SF x); reflexivity.
Qed.

(** [x - y < 0] exactly when [x < y]: a comparator that subtracts two
    numbers orders them as [<] does. *)
Lemma sub_ltb_zero (x y : float) :
  PrimFloat.is_nan x = false -> PrimFloat.is_nan y = false ->
  PrimFloat.ltb (x - y) 0 = PrimFloat.ltb x y.
Proof.
  intros Hx Hy. rewrite (ltb_ford x y) by assumption.
  rewrite ltb_spec, sub_spec.
  change (Prim2SF 0) with (S754_zero false).
  apply SFsub_ltb_zero; auto using Prim2SF_valid, Prim2SF_num.
Qed.

(** ** Opposites *)

Lemma binary_round_aux_opp (s : bool) (m e : Z) (l : location) :
  binary_round_aux prec emax (negb s) m e l
  = SFopp (binary_round_aux prec emax s m e l).
Proof.
  unfold binary_round_aux.
  destruct (shr_fexp prec emax m e l) as [mrs' e'].
  destruct (shr_fexp prec emax _ e' loc_Exact) as [mrs'' e''].
  destruct (shr_m mrs''); try reflexivity.
  destruct (IntDef.Z.leb e'' (IntDef.Z.sub emax prec)); reflexivity.
Qed.

Lemma binary_round_opp (s : bool) (m : positive) (e : Z) :
  binary_round prec emax (negb s) m e = SFopp (binary_round prec emax s m e).
Proof.
  unfold binary_round. destruct (shl_align _ _ _) as [mz ez].
  apply binary_round_aux_opp.
Qed.

Lemma SFopp_involutive (x : spec_float) : SFopp (SFopp x) = x.
Proof. destruct x as [s|s| |s m e]; cbn [SFopp]; rewrite ?negb_involutive; reflexivity. Qed.

Lemma xorb_negb_l (a b : bool) : xorb (negb a) b = negb (xorb a b).
Proof. destruct a, b; reflexivity. Qed.

Lemma xorb_negb_r (a b : bool) : xorb a (negb b) = negb (xorb a b).
Proof. destruct a, b; reflexivity. Qed.

Lemma SFmul_opp_l (x y : spec_float) :
  SF64mul (SFopp x) y = SFopp (SF64mul x y).
Proof.
  destruct x as [sx|sx| |sx mx ex], y as [sy|sy| |sy my ey];
    cbn [SF64mul SFmul SFopp]; rewrite ?xorb_negb_l; try reflexivity.
  apply binary_round_aux_opp.
Qed.

Lemma SFmul_comm (x y : spec_float) : SF64mul x y = SF64mul y x.
Proof.
  destruct x as [sx|sx| |sx mx ex], y as [sy|sy| |sy my ey];
    cbn [SF64mul SFmul]; rewrite ?(xorb_comm sx sy); try reflexivity.
  zfold. rewrite (Pos.mul_comm mx my), (Z.add_comm ex ey). reflexivity.
Qed.

Lemma SFdiv_opp_l (x y : spec_float) :
  SF64div (SFopp x) y = SFopp (SF64div x y).
Proof.
  destruct x as [sx|sx| |sx mx ex], y as [sy|sy| |sy my ey];
    cbn [SF64div SFdiv SFopp]; rewrite ?xorb_negb_l; try reflexivity.
  destruct (SFdiv_core_binary _ _ _ _ _ _) as [[mz ez] lz].
  apply binary_round_aux_opp.
Qed.

Lemma binary_normalize_opp (m e : Z) :
  m <> 0 ->
  binary_normalize prec emax (- m) e false
  = SFopp (binary_normalize prec emax m e false).
Proof.
  destruct m as [|p|p]; intros H; [congruence| |]; cbn [Z.opp binary_normalize].
  - apply (binary_round_opp false).
  - rewrite (binary_round_opp false), SFopp_involutive. reflexivity.
Qed.

(** Swapping the operands of a difference negates it, or leaves it as it
    is (a zero of either sign, or [NaN]). *)
Lemma SFsub_swap (x y : spec_float) :
  SF64sub y x = SF64sub x y \/ SF64sub y x = SFopp (SF64sub x y).
Proof.
  destruct x as [sx|sx| |sx mx ex], y as [sy|sy| |sy my ey];
    cbn [SF64sub SFsub SFopp];
    try (destruct sx, sy; cbn [negb]; auto; fail);
    try (destruct sx; cbn [negb]; auto; fail);
    try (destruct sy; cbn [negb]; auto; fail);
    try (rewrite ?negb_involutive; auto; fail).
  zfold. rewrite (Z.min_comm ey ex).
  set (a := SpecFloat.cond_Zopp sx (Z.pos (fst (shl_align mx ex (Z.min ex ey))))).
  set (b := SpecFloat.cond_Zopp sy (Z.pos (fst (shl_align my ey (Z.min ex ey))))).
  destruct (Z.eq_dec (a - b) 0) as [H0|H0].
  - left. replace (b - a) with 0 by lia. rewrite H0. reflexivity.
  - right. replace (b - a) with (- (a - b)) by lia.
    apply binary_normalize_opp. assumption.
Qed.

Lemma mul_opp_l (x y : float) : (- x * y = - (x * y))%float.
Proof.
  apply Prim2SF_inj. rewrite mul_spec, !opp_spec, mul_spec. apply SFmul_opp_l.
Qed.

Lemma mul_comm (x y : float) : (x * y = y * x)%float.
Proof.
  apply Prim2SF_inj. rewrite !mul_spec. apply SFmul_comm.
Qed.

Lemma mul_opp_opp (x : float) : (- x * - x = x * x)%float.
Proof.
  rewrite mul_opp_l, (mul_comm x (- x)), mul_opp_l.
  apply Prim2SF_inj. rewrite !opp_spec. apply SFopp_involutive.
Qed.

Lemma div_opp_l (x y : float) : (- x / y = - (x / y))%float.
Proof.
  apply Prim2SF_inj. rewrite div_spec, !opp_spec, div_spec. apply SFdiv_opp_l.
Qed.

Lemma sub_swap (x y : float) :
  (y - x = x - y)%float \/ (y - x = - (x - y))%float.
Proof.
  destruct (SFsub_swap (Prim2SF x) (Prim2SF y)) as [H|H]; [left|right];
    apply Prim2SF_inj; rewrite ?opp_spec, !sub_spec; exact H.
Qed.

(** ** Finite numbers *)

Lemma SFsub_diag (x : spec_float) :
  SFfinite x = true -> SF64sub x x = S754_zero false.
Proof.
  destruct x as [s|s| |s m e]; try discriminate; intros _; cbn [SF64sub SFsub].
  - destruct s; reflexivity.
  - zfold. rewrite Z.sub_diag. reflexivity.
Qed.

Lemma SFleb_between_finite (lo x hi : spec_float) :
  SFfinite lo = true -> SFfinite hi = true ->
  SFleb lo x = true -> SFleb x hi = true -> SFfinite x = true.
Proof.
  destruct x as [s|s| |s m e]; try reflexivity;
    destruct lo as [sl|sl| |sl ml el]; try discriminate;
    destruct hi as [sh|sh| |sh mh eh]; try discriminate;
    destruct s; cbn; try discriminate; try reflexivity;
    try destruct sl; try destruct sh; discriminate.
Qed.

Lemma Zdigits2_le (m k : Z) :
  0 <= m < 2 ^ k -> 0 <= k -> Zdigits2 m <= k.
Proof.
  intros [H0 Hk] Hk0. destruct (Z.eq_dec m 0) as [->|Hm]; [simpl; lia|].
  pose proof (Zdigits2_bounds m ltac:(lia)) as [Hlo _].
  destruct (Z_le_gt_dec (Zdigits2 m) k) as [|Hgt]; [assumption|exfalso].
  assert (2 ^ k <= 2 ^ (Zdigits2 m - 1)) by (apply Z.pow_le_mono_r; lia).
  lia.
Qed.

Lemma shr_fexp_bounds (m e : Z) (l : location) :
  0 <= m ->
  0 <= shr_m (fst (shr_fexp prec emax m e l)) <= m
  /\ (snd (shr_fexp prec emax m e l) = e
      \/ snd (shr_fexp prec emax m e l) = fexp prec emax (Zdigits2 m + e)).
Proof.
  intros Hm. unfold shr_fexp, shr. zfold.
  destruct (fexp prec emax (Zdigits2 m + e) - e) as [|p|p] eqn:Hn;
    cbn [fst snd]; rewrite ?shr_record_of_loc_m; try (split; [lia | left; reflexivity]).
  rewrite iter_shr_1_m by (rewrite shr_record_of_loc_m; lia).
  rewrite shr_record_of_loc_m.
  assert (0 < 2 ^ Zpos p) by (apply Z.pow_pos_nonneg; lia).
  split; [|right; lia].
  split; [apply Z.div_pos; lia|].
  apply Z.div_le_upper_bound; [lia|]. nia.
Qed.

Lemma round_nearest_even_bounds (m : Z) (l : location) :
  0 <= m -> 0 <= round_nearest_even m l <= m + 1.
Proof.
  intros Hm. destruct l as [|[]]; cbn [round_nearest_even]; zfold;
    try destruct (Z.even m); lia.
Qed.

(** Rounding a product of two numbers of magnitude at most one cannot
    overflow. *)
Lemma binary_round_aux_small (s : bool) (m e : Z) (l : location) :
  0 <= m < 2 ^ 106 -> e <= -104 ->
  binary_round_aux prec emax s m e l = S754_zero s
  \/ exists m' e', binary_round_aux prec emax s m e l = S754_finite s m' e'.
Proof.
  intros [Hm0 Hm] He. unfold binary_round_aux.
  pose proof (shr_fexp_bounds m e l Hm0) as [H1 H2].
  destruct (shr_fexp prec emax m e l) as [mrs' e']. cbn [fst snd] in H1, H2.
  pose proof (round_nearest_even_bounds (shr_m mrs') (loc_of_shr_record mrs')
                ltac:(lia)) as Hr.
  set (m2 := round_nearest_even (shr_m mrs') (loc_of_shr_record mrs')) in *.
  pose proof (shr_fexp_bounds m2 e' loc_Exact ltac:(lia)) as [H3 H4].
  destruct (shr_fexp prec emax m2 e' loc_Exact) as [mrs'' e''].
  cbn [fst snd] in H3, H4.
  assert (Hd1 : Zdigits2 m <= 106) by (apply Zdigits2_le; lia).
  assert (Hd2 : Zdigits2 m2 <= 107).
  { apply Zdigits2_le; [|lia]. split; [lia|].
    change (2 ^ 107) with (2 * 2 ^ 106). lia. }
  assert (He' : e' <= -51).
  { destruct H2 as [->| ->]; [lia|].
    unfold fexp, SpecFloat.emin, prec, emax. zfold. lia. }
  assert (He'' : e'' <= 971).
  { destruct H4 as [->| ->]; [lia|].
    unfold fexp, SpecFloat.emin, prec, emax. zfold. lia. }
  destruct (shr_m mrs'') as [|q|q]; [left; reflexivity| |lia].
  right. exists q, e''. unfold prec, emax. zfold.
  replace (e'' <=? 1024 - 53) with true by (symmetry; apply Z.leb_le; lia).
  reflexivity.
Qed.

Lemma SFmul_square_zero (c : spec_float) :
  valid_binary c = true ->
  SFleb (SFabs c) (S754_finite false 4503599627370496 (-52)) = true ->
  SF64mul (SF64mul c c) (S754_zero false) = S754_zero false.
Proof.
  intros Vc Hc. destruct c as [s|s| |s m e]; try discriminate.
  - destruct s; reflexivity.
  - cbn [SFabs SFleb SFcompare] in Hc. zfold.
    assert (He : e <= -52).
    { destruct (Z.compare_spec e (-52)); first [lia | discriminate]. }
    destruct (valid_finite_inv _ _ _ Vc) as [_ [Hd _]].
    pose proof (digits2_pos_bounds m) as [_ Hm].
    assert (Hm53 : Zpos m < 2 ^ 53).
    { eapply Z.lt_le_trans; [exact Hm|]. apply Z.pow_le_mono_r; lia. }
    cbn [SF64mul SFmul]. rewrite xorb_nilpotent. zfold.
    destruct (binary_round_aux_small false (Zpos (m * m)) (e + e) loc_Exact)
      as [Hz|[m' [e' Hf]]].
    + rewrite Pos2Z.inj_mul. change (2 ^ 106) with (2 ^ 53 * 2 ^ 53). nia.
    + lia.
    + rewrite Hz. reflexivity.
    + rewrite Hf. reflexivity.
Qed.

Lemma sub_diag (x : float) :
  SFfinite (Prim2SF x) = true -> (x - x = 0)%float.
Proof.
  intros H. apply Prim2SF_inj. rewrite sub_spec, (SFsub_diag _ H). reflexivity.
Qed.

Lemma between_finite (lo x hi : float) :
  SFfinite (Prim2SF lo) = true -> SFfinite (Prim2SF hi) = true ->
  PrimFloat.leb lo x = true -> PrimFloat.leb x hi = true ->
  SFfinite (Prim2SF x) = true.
Proof.
  rewrite !leb_spec. apply SFleb_between_finite.
Qed.

Lemma mul_square_zero (c : float) :
  PrimFloat.leb (PrimFloat.abs c) 1 = true -> (c * c * 0 = 0)%float.
Proof.
  intros H. apply Prim2SF_inj. rewrite !mul_spec.
  change (Prim2SF 0) with (S754_zero false).
  apply SFmul_square_zero; [apply Prim2SF_valid|].
  rewrite leb_spec, abs_spec in H. exact H.
Qed.

(** ** Products and quotients that stay finite *)

(** Rounding a mantissa below [2^K] at an exponent [e] does not overflow
    as long as [e + 2K] stays below the largest exponent, and the exponent
    of the result exceeds [e] by less than [2K]. *)
Lemma binary_round_aux_bounded (s : bool) (m e : Z) (l : location) (K : Z) :
  0 <= m < 2 ^ K -> 53 <= K <= 200 -> e + 2 * K <= 1076 ->
  binary_round_aux prec emax s m e l = S754_zero s
  \/ exists m' e',
       binary_round_aux prec emax s m e l = S754_finite s m' e'
       /\ e' <= Z.max (e + 2 * K - 105) (-874).
Proof.
  intros [Hm0 Hm] HK He. unfold binary_round_aux.
  pose proof (shr_fexp_bounds m e l Hm0) as [H1 H2].
  destruct (shr_fexp prec emax m e l) as [mrs' e']. cbn [fst snd] in H1, H2.
  pose proof (round_nearest_even_bounds (shr_m mrs') (loc_of_shr_record mrs')
                ltac:(lia)) as Hr.
  set (m2 := round_nearest_even (shr_m mrs') (loc_of_shr_record mrs')) in *.
  pose proof (shr_fexp_bounds m2 e' loc_Exact ltac:(lia)) as [H3 H4].
  destruct (shr_fexp prec emax m2 e' loc_Exact) as [mrs'' e''].
  cbn [fst snd] in H3, H4.
  assert (Hd1 : Zdigits2 m <= K) by (apply Zdigits2_le; lia).
  assert (Hd2 : Zdigits2 m2 <= K + 1).
  { apply Zdigits2_le; [|lia]. split; [lia|].
    rewrite Z.pow_add_r by lia. change (2 ^ 1) with 2. lia. }
  assert (He' : e' <= Z.max (e + K - 53) (-1074)).
  { destruct H2 as [->| ->]; [lia|].
    unfold fexp, SpecFloat.emin, prec, emax. zfold. lia. }
  assert (He'' : e'' <= Z.max (e + 2 * K - 105) (-874)).
  { destruct H4 as [->| ->]; [lia|].
    unfold fexp, SpecFloat.emin, prec, emax. zfold. lia. }
  destruct (shr_m mrs'') as [|q|q]; [left; reflexivity| |lia].
  right. exists q, e''. unfold prec, emax. zfold.
  replace (e'' <=? 1024 - 53) with true by (symmetry; apply Z.leb_le; lia).
  split; [reflexivity | exact He''].
Qed.

Lemma valid_mantissa (s : bool) (m : positive) (e : Z) :
  valid_binary (S754_finite s m e) = true -> Zpos m < 2 ^ 53.
Proof.
  intros V. destruct (valid_finite_inv _ _ _ V) as [_ [Hd _]].
  pose proof (digits2_pos_bounds m) as [_ Hm].
  eapply Z.lt_le_trans; [exact Hm|]. apply Z.pow_le_mono_r; lia.
Qed.

Lemma SFmul_below (a b : spec_float) (Ea Eb : Z) :
  valid_binary a = true -> valid_binary b = true ->
  below Ea a -> below Eb b -> Ea + Eb <= 864 ->
  below (Z.max (Ea + Eb + 107) (-874)) (SF64mul a b).
Proof.
  intros Va Vb Ha Hb HE.
  destruct a as [sa|sa| |sa ma ea], b as [sb|sb| |sb mb eb];
    try contradiction; cbn [SF64mul SFmul below]; auto.
  cbn [below] in Ha, Hb.
  pose proof (valid_mantissa _ _ _ Va). pose proof (valid_mantissa _ _ _ Vb).
  zfold.
  destruct (binary_round_aux_bounded (xorb sa sb) (Zpos (ma * mb)) (ea + eb)
              loc_Exact 106) as [->|[m' [e' [-> He]]]]; cbn [below]; try lia.
  rewrite Pos2Z.inj_mul. change (2 ^ 106) with (2 ^ 53 * 2 ^ 53). nia.
Qed.

Lemma SFdiv_core_bounds (m1 m2 : positive) (e1 e2 : Z) :
  Zpos m1 < 2 ^ 53 -> Zpos m2 < 2 ^ 53 ->
  0 <= fst (fst (SFdiv_core_binary prec emax (Zpos m1) e1 (Zpos m2) e2))
    < 2 ^ 159
  /\ snd (fst (SFdiv_core_binary prec emax (Zpos m1) e1 (Zpos m2) e2))
     <= e1 - e2.
Proof.
  intros Hm1 Hm2. unfold SFdiv_core_binary.
  set (d1 := Zdigits2 (Zpos m1)). set (d2 := Zdigits2 (Zpos m2)).
  assert (Hd1 : 1 <= d1 <= 53).
  { unfold d1. split; [cbn [Zdigits2]; lia|].
    apply (Zdigits2_le (Zpos m1) 53); lia. }
  assert (Hd2 : 1 <= d2 <= 53).
  { unfold d2. split; [cbn [Zdigits2]; lia|].
    apply (Zdigits2_le (Zpos m2) 53); lia. }
  zfold.
  set (e' := Z.min (fexp prec emax (d1 + e1 - (d2 + e2))) (e1 - e2)).
  assert (He' : e' <= e1 - e2) by (unfold e'; lia).
  set (sh := e1 - e2 - e').
  assert (Hsh : sh <= 105).
  { unfold sh, e', fexp, SpecFloat.emin, prec, emax. zfold. lia. }
  set (m' := match sh with
             | Z.pos _ => Z.shiftl (Zpos m1) sh
             | 0 => Zpos m1
             | Z.neg _ => 0
             end).
  assert (Hm' : 0 <= m' < 2 ^ 159).
  { unfold m'. destruct sh as [|p|p].
    - split; [lia|]. eapply Z.lt_trans; [exact Hm1|].
      apply Z.pow_lt_mono_r; lia.
    - rewrite Z.shiftl_mul_pow2 by lia.
      assert (0 < 2 ^ Zpos p) by (apply Z.pow_pos_nonneg; lia).
      assert (2 ^ Zpos p <= 2 ^ 105) by (apply Z.pow_le_mono_r; lia).
      split; [lia|].
      replace 159 with (53 + 1 + 105) by lia.
      rewrite (Z.pow_add_r 2 (53 + 1) 105), (Z.pow_add_r 2 53 1) by lia.
      change (2 ^ 1) with 2.
      assert (Zpos m1 * 2 ^ Zpos p < 2 ^ 53 * 2 ^ 105).
      { apply Z.le_lt_trans with (Zpos m1 * 2 ^ 105).
        - apply Z.mul_le_mono_nonneg_l; lia.
        - apply Z.mul_lt_mono_pos_r; [apply Z.pow_pos_nonneg|]; lia. }
      assert (0 < 2 ^ 53 * 2 ^ 105) by (apply Z.mul_pos_pos; apply Z.pow_pos_nonneg; lia).
      lia.
    - split; [lia | apply Z.pow_pos_nonneg; lia]. }
  change (IntDef.Z.div_eucl m' (Zpos m2)) with (Z.div_eucl m' (Zpos m2)).
  pose proof (Z.div_eucl_eq m' (Zpos m2) ltac:(lia)) as Heq.
  pose proof (Z.mod_pos_bound m' (Zpos m2) ltac:(lia)) as Hmod.
  unfold Z.modulo in Hmod.
  destruct (Z.div_eucl m' (Zpos m2)) as [q r]. cbn [fst snd].
  split; [|exact He'].
  assert (0 <= q) by nia.
  assert (q <= m') by nia.
  lia.
Qed.

Lemma SFdiv_below (a b : spec_float) (Ea : Z) (sb : bool) (mb : positive)
  (eb : Z) :
  valid_binary a = true -> b = S754_finite sb mb eb ->
  valid_binary b = true ->
  below Ea a -> Ea - eb <= 758 ->
  SFfinite (SF64div a b) = true.
Proof.
  intros Va -> Vb Ha HE.
  destruct a as [sa|sa| |sa ma ea]; try contradiction;
    cbn [SF64div SFdiv]; [reflexivity|].
  cbn [below] in Ha.
  pose proof (valid_mantissa _ _ _ Va) as Hma.
  pose proof (valid_mantissa _ _ _ Vb) as Hmb.
  pose proof (SFdiv_core_bounds ma mb ea eb Hma Hmb) as [Hq He].
  destruct (SFdiv_core_binary prec emax (Zpos ma) ea (Zpos mb) eb)
    as [[q e'] l]. cbn [fst snd] in Hq, He.
  destruct (binary_round_aux_bounded (xorb sa sb) q e' l 159)
    as [->|[m' [e'' [-> _]]]]; try lia; reflexivity.
Qed.

(** A finite number, in the sense of [PrimFloat]. *)
Lemma SFfinite_is_finite (x : float) :
  SFfinite (Prim2SF x) = true -> PrimFloat.is_finite x = true.
Proof.
  intros H. unfold PrimFloat.is_finite, PrimFloat.is_nan, PrimFloat.is_infinity.
  rewrite !eqb_spec, abs_spec.
  change (Prim2SF infinity) with (S754_infinity false).
  destruct (Prim2SF x) as [s|s| |s m e]; try discriminate.
  - reflexivity.
  - unfold SFeqb. cbn [SFabs SFcompare]. zfold. rewrite Z.compare_refl.
    replace (Pos.compare_cont Eq m m) with Eq
      by (symmetry; apply Pos.compare_cont_refl).
    destruct s; reflexivity.
Qed.

End Binary64Facts.

(** ** Arrays *)

Module JsArrayFacts.

Local Open Scope Z_scope.

Lemma firstn_min_length {A : Type} (n : nat) (l : list A) :
  firstn (Nat.min n (List.length l)) l = firstn n l.
Proof.
  destruct (Nat.le_ge_cases n (List.length l)) as [H|H].
  - rewrite Nat.min_l by assumption. reflexivity.
  - rewrite Nat.min_r by assumption.
    rewrite firstn_all, firstn_all2 by assumption. reflexivity.
Qed.

(** A slice whose bounds are not negative. *)
Lemma slice_nonneg {A : Type} (l : list A) (a b : Z) :
  0 <= a -> 0 <= b ->
  JsArray.slice l a b = firstn (Z.to_nat b - Z.to_nat a) (skipn (Z.to_nat a) l).
Proof.
  intros Ha Hb. unfold JsArray.slice, JsArray.relativeIndex.
  replace (a <? 0) with false by (symmetry; apply Z.ltb_ge; lia).
  replace (b <? 0) with false by (symmetry; apply Z.ltb_ge; lia).
  set (len := List.length l).
  destruct (Z_le_gt_dec (Z.of_nat len) a) as [Hla|Hla].
  - rewrite !skipn_all2 by (fold len; lia). rewrite !firstn_nil. reflexivity.
  - rewrite (Z.min_l a) by lia.
    rewrite <- (firstn_min_length (Z.to_nat b - Z.to_nat a)).
    rewrite length_skipn. fold len. f_equal. lia.
Qed.

(** [arr.slice(0, n)] for a count [n]: the first [n] elements. *)
Lemma slice_prefix {A : Type} (l : list A) (n : Z) :
  0 <= n -> JsArray.slice l 0 n = firstn (Z.to_nat n) l.
Proof.
  intros Hn. rewrite slice_nonneg by lia. cbn [Z.to_nat skipn].
  rewrite Nat.sub_0_r. reflexivity.
Qed.

(** [arr.slice(0, limit)] with a negative limit leaves the last [-limit]
    elements out. *)
Lemma slice_negative_end {A : Type} (l : list A) (limit : Z) :
  limit < 0 ->
  JsArray.slice l 0 limit
  = firstn (List.length l - Z.to_nat (- limit)) l.
Proof.
  intros H. unfold JsArray.slice, JsArray.relativeIndex.
  replace (limit <? 0) with true by (symmetry; apply Z.ltb_lt; lia).
  cbn [Z.ltb Z.compare]. rewrite Z.min_l by lia. cbn [Z.to_nat skipn].
  f_equal. lia.
Qed.

Section SortByKey.

Context {A : Type} (cmp : A -> A -> float) (key : A -> Z).

Local Abbreviation keyed := (JsArray.keyed cmp key).

Lemma keyed_tail (x : A) (l : list A) : keyed (x :: l) -> keyed l.
Proof. intros H a b Ha Hb. apply H; right; assumption. Qed.

Lemma insert_Permutation (x : A) (l : list A) :
  Permutation (JsArray.insert cmp x l) (x :: l).
Proof.
  induction l as [|y l IH]; cbn [JsArray.insert]; [apply Permutation_refl|].
  destruct (PrimFloat.ltb (cmp y x) 0); [|apply Permutation_refl].
  eapply Permutation_trans; [apply perm_skip, IH | apply perm_swap].
Qed.

Lemma sort_Permutation (l : list A) : Permutation (JsArray.sort cmp l) l.
Proof.
  induction l as [|x l IH]; cbn [JsArray.sort fold_right]; [constructor|].
  eapply Permutation_trans; [apply insert_Permutation|].
  apply perm_skip, IH.
Qed.

Lemma sort_In (l : list A) (a : A) : In a (JsArray.sort cmp l) <-> In a l.
Proof.
  split; apply Permutation_in;
    [apply sort_Permutation | apply Permutation_sym, sort_Permutation].
Qed.

Lemma sort_length (l : list A) :
  List.length (JsArray.sort cmp l) = List.length l.
Proof. apply Permutation_length, sort_Permutation. Qed.

Lemma insert_sorted (x : A) (l : list A) :
  keyed (x :: l) ->
  StronglySorted (fun a b => key a <= key b) l ->
  StronglySorted (fun a b => key a <= key b) (JsArray.insert cmp x l).
Proof.
  intros Hk Hs. induction Hs as [|y l Hs IH Hy]; cbn [JsArray.insert].
  - repeat constructor.
  - rewrite (Hk y x) by (cbn; auto).
    destruct (Z.ltb_spec (key y) (key x)) as [Hlt|Hge].
    + constructor.
      * apply IH. intros a b Ha Hb. apply Hk; cbn in *; intuition.
      * apply Forall_forall. intros z Hz.
        apply (Permutation_in _ (insert_Permutation x l)) in Hz.
        destruct Hz as [<-|Hz]; [lia|].
        rewrite Forall_forall in Hy. auto.
    + constructor; [constructor; assumption|].
      constructor; [assumption|].
      apply Forall_forall. intros z Hz. rewrite Forall_forall in Hy.
      specialize (Hy z Hz). lia.
Qed.

Lemma sort_sorted (l : list A) :
  keyed l -> StronglySorted (fun a b => key a <= key b) (JsArray.sort cmp l).
Proof.
  induction l as [|x l IH]; intros Hk; cbn [JsArray.sort fold_right];
    [constructor|].
  apply insert_sorted.
  - intros a b Ha Hb. apply Hk.
    + destruct Ha as [<-|Ha]; [left; reflexivity | right; apply sort_In, Ha].
    + destruct Hb as [<-|Hb]; [left; reflexivity | right; apply sort_In, Hb].
  - apply IH, (keyed_tail x), Hk.
Qed.

(** Stability: the elements of one key stand in the order they came in. *)
Lemma insert_stable (x : A) (l : list A) (k : Z) :
  keyed (x :: l) ->
  filter (fun a => key a =? k) (JsArray.insert cmp x l)
  = filter (fun a => key a =? k) (x :: l).
Proof.
  intros Hk. induction l as [|y l IH]; cbn [JsArray.insert]; [reflexivity|].
  rewrite (Hk y x) by (cbn; auto).
  destruct (Z.ltb_spec (key y) (key x)) as [Hlt|Hge]; [|reflexivity].
  cbn [filter]. rewrite IH.
  - cbn [filter].
    destruct (Z.eqb_spec (key y) k), (Z.eqb_spec (key x) k);
      try reflexivity; lia.
  - intros a b Ha Hb. apply Hk; cbn in *; intuition.
Qed.

Lemma sort_stable (l : list A) (k : Z) :
  keyed l ->
  filter (fun a => key a =? k) (JsArray.sort cmp l)
  = filter (fun a => key a =? k) l.
Proof.
  induction l as [|x l IH]; intros Hk; cbn [JsArray.sort fold_right];
    [reflexivity|].
  rewrite insert_stable.
  - cbn [filter]. fold (JsArray.sort cmp l).
    rewrite IH by (apply (keyed_tail x), Hk). reflexivity.
  - intros a b Ha Hb. apply Hk.
    + destruct Ha as [<-|Ha]; [left; reflexivity | right; apply sort_In, Ha].
    + destruct Hb as [<-|Hb]; [left; reflexivity | right; apply sort_In, Hb].
Qed.

End SortByKey.

End JsArrayFacts.

(** ** Strings *)

Lemma includes_empty_l (sub : string) :
  JsString.truthy sub = true -> JsString.includes "" sub = false.
Proof.
  destruct sub as [|c sub]; simpl; [discriminate | reflexivity].
Qed.

Lemma toLowerCase_truthy (s : string) :
  JsString.truthy (JsString.toLowerCase s) = JsString.truthy s.
Proof. destruct s; reflexivity. Qed.

(** ** The match-reason generator *)

Lemma generateMatchReasons_rules (record : Preschool.t)
  (preferences : Preferences.t) :
  RecommendationService.generateMatchReasons record preferences
  = MatchReasonRules.reasons record preferences.
Proof.
  unfold RecommendationService.generateMatchReasons, MatchReasonRules.reasons,
    MatchReasonRules.fired, MatchReasonRules.ratingRule,
    MatchReasonRules.curriculumRule, MatchReasonRules.curriculumMatches,
    MatchReasonRules.reviewRule, MatchReasonRules.programRule,
    MatchReasonRules.isStateProgram, MatchReasonRules.featureRule,
    JsArray.push.
  destruct (4.5 <=? Preschool.rating record)%float;
    [| destruct (4.0 <=? Preschool.rating record)%float];
    destruct (Preferences.curriculum preferences) as [wanted|];
    destruct (Preschool.curriculum record) as [offered|];
    try (destruct (JsString.truthy wanted) eqn:Hw);
    try (destruct offered as [|c offered];
         [ simpl JsString.truthy; simpl JsString.toLowerCase;
           rewrite ?includes_empty_l by (now rewrite toLowerCase_truthy)
         | simpl JsString.truthy;
           destruct (JsString.includes
                       (JsString.toLowerCase (String c offered))
                       (JsString.toLowerCase wanted)) ]);
    cbn [andb];
    destruct (50 <? Preschool.reviewCount record)%float;
    destruct (match Preschool.program_type record with
              | Some tag => String.eqb tag "CSPP"
              | None => false
              end || JsString.startsWith (Preschool.id record) "CSPP_")%bool;
    destruct (Preschool.features record) as [[|first rest]|];
    reflexivity.
Qed.

(** C4.  The match-reason generator returns the reasons of the five rules
    in their fixed order (rating, curriculum, review count, state program,
    first feature), or the single fallback reason when no rule fired; its
    result is never empty, and on the specification's scenario it is the
    three listed reasons. *)
Theorem generateMatchReasons_spec :
  forall (record : Preschool.t) (preferences : Preferences.t),
    RecommendationService.generateMatchReasons record preferences
    = MatchReasonRules.reasons record preferences
    /\ RecommendationService.generateMatchReasons record preferences
       = (match
             (MatchReasonRules.ratingRule record
              ++ MatchReasonRules.curriculumRule record preferences
              ++ MatchReasonRules.reviewRule record
              ++ MatchReasonRules.programRule record
              ++ MatchReasonRules.featureRule record)%list
           with
           | [] => ["Matches your preferences"]
           | r :: rs => r :: rs
           end)
    /\ RecommendationService.generateMatchReasons record preferences <> []
    /\ RecommendationService.generateMatchReasons
         MatchReasonRules.scenario Preferences.empty
       = ["Top-rated preschool"; "Popular with many positive reviews";
          "Offers Organic meals"].
Proof.
  intros record preferences.
  rewrite generateMatchReasons_rules.
  split; [reflexivity | split; [| split]].
  - unfold MatchReasonRules.reasons, MatchReasonRules.fired.
    destruct (_ ++ _)%list; reflexivity.
  - unfold MatchReasonRules.reasons.
    destruct (MatchReasonRules.fired record preferences); discriminate.
  - vm_compute. reflexivity.
Qed.

(** ** The search filter *)

Lemma filter_filter {A : Type} (f g : A -> bool) (l : list A) :
  filter f (filter g l) = filter (fun x => g x && f x) l.
Proof.
  induction l as [|x l IH]; cbn [filter]; [reflexivity|].
  destruct (g x); cbn [filter andb]; [destruct (f x)|]; rewrite IH; reflexivity.
Qed.

Lemma filter_true {A : Type} (l : list A) : filter (fun _ => true) l = l.
Proof. induction l as [|x l IH]; cbn [filter]; [|rewrite IH]; reflexivity. Qed.

Lemma optLowerIncludes_folded (text : option string) (value : string) :
  JsString.truthy value = true ->
  JsString.optLowerIncludes text (JsString.toLowerCase value)
  = SearchCriteria.containsFolded text value.
Proof.
  intros Hv. destruct text as [[|c t]|]; cbn; try reflexivity.
  symmetry. apply includes_empty_l. now rewrite toLowerCase_truthy.
Qed.

Lemma optIncludes_contains (text : option string) (value : string) :
  JsString.truthy value = true ->
  JsString.optIncludes text value = SearchCriteria.contains text value.
Proof.
  intros Hv. destruct text as [[|c t]|]; cbn; try reflexivity.
  symmetry. apply includes_empty_l. assumption.
Qed.

(** One stage of the filter chain: a filter applied when its criterion is
    active. *)
Lemma stage_text (value : option string) (code test : string -> Preschool.t -> bool)
  (l : list Preschool.t) :
  (forall v r, JsString.truthy v = true -> code v r = test v r) ->
  match value with
  | Some v => if JsString.truthy v then filter (code v) l else l
  | None => l
  end
  = filter (fun r => SearchCriteria.whenText value (fun v => test v r)) l.
Proof.
  intros H. destruct value as [v|]; cbn [SearchCriteria.whenText].
  - destruct (JsString.truthy v) eqn:Hv; [|symmetry; apply filter_true].
    apply filter_ext. intros r. apply H, Hv.
  - symmetry. apply filter_true.
Qed.

Lemma stage_number (value : option float) (test : float -> Preschool.t -> bool)
  (l : list Preschool.t) :
  match value with
  | Some v => if JsNumber.truthy v then filter (test v) l else l
  | None => l
  end
  = filter (fun r => SearchCriteria.whenNumber value (fun v => test v r)) l.
Proof.
  destruct value as [v|]; cbn [SearchCriteria.whenNumber].
  - destruct (JsNumber.truthy v); [reflexivity | symmetry; apply filter_true].
  - symmetry. apply filter_true.
Qed.

Lemma applyFilters_satisfies (records : list Preschool.t)
  (query : option string) (filters : Filters.t) :
  PreschoolService.applyFilters records query filters
  = filter (SearchCriteria.satisfies query filters) records.
Proof.
  unfold PreschoolService.applyFilters, SearchCriteria.satisfies.
  rewrite (stage_text query
             (fun q => PreschoolService.queryMatches (JsString.toLowerCase q))
             SearchCriteria.matchesQuery).
  2:{ intros v r Hv.
      unfold SearchCriteria.matchesQuery, PreschoolService.queryMatches.
      rewrite optLowerIncludes_folded by assumption. reflexivity. }
  rewrite (stage_number (Filters.minRating filters)
             SearchCriteria.meetsMinRating).
  rewrite (stage_text (Filters.ageRange filters)
             PreschoolService.ageRangeIncludes SearchCriteria.inAgeRange).
  2:{ intros v r Hv. apply optIncludes_contains, Hv. }
  rewrite (stage_text (Filters.curriculum filters)
             PreschoolService.curriculumIncludes
             SearchCriteria.offersCurriculum).
  2:{ intros v r Hv. apply optLowerIncludes_folded, Hv. }
  rewrite (stage_text (Filters.priceRange filters)
             PreschoolService.tuitionIncludes SearchCriteria.inPriceRange).
  2:{ intros v r Hv. apply optIncludes_contains, Hv. }
  rewrite !filter_filter. apply filter_ext. intros r.
  rewrite !andb_assoc. reflexivity.
Qed.

(** C1, as the code has it.  The search filter returns the records that
    satisfy every active criterion, in the order of the record set: the
    text query, the minimum rating, the curriculum and the price range as
    the specification words them, and the age range as a containment that
    distinguishes letter case.  The search flow pages that list; on the
    specification's second scenario it keeps the records rated 4.7, 4.8
    and 4.6. *)
Theorem applyFilters_spec :
  forall (records : list Preschool.t) (query : option string)
         (filters : Filters.t),
    PreschoolService.applyFilters records query filters
    = filter (SearchCriteria.satisfies query filters) records
    /\ (forall r,
          In r (PreschoolService.applyFilters records query filters)
          <-> In r records /\ SearchCriteria.satisfies query filters r = true)
    /\ (forall californiaPreschools service page limit,
          PreschoolService.searchPreschools
            {| PreschoolService.recommendationService := Some service |}
            californiaPreschools query filters page limit
          = Normal
              (PreschoolService.paginate
                 (filter (SearchCriteria.satisfies query filters)
                    (RecommendationService.getMockPreschools
                       californiaPreschools))
                 page limit))
    /\ map Preschool.rating
         (PreschoolService.applyFilters SearchCriteria.fiveRatings None
            (SearchCriteria.atLeast 4.6))
       = [4.7; 4.8; 4.6]%float.
Proof.
  intros records query filters.
  split; [apply applyFilters_satisfies|split; [|split]].
  - intros r. rewrite applyFilters_satisfies. apply filter_In.
  - intros w service page limit. cbn [PreschoolService.searchPreschools
      PreschoolService.recommendationService].
    rewrite applyFilters_satisfies. reflexivity.
  - vm_compute. reflexivity.
Qed.

(** With the age range [Years] no built-in record passes the filter,
    whose test distinguishes letter case, while every one of them
    satisfies the criteria worded with a containment that does not. *)
Lemma applyFilters_age_range_counterexample :
  PreschoolService.applyFilters RecommendationService.fallbackPreschools None
    SearchCriteria.capitalYears = []
  /\ filter (SearchCriteria.satisfiesFolded None SearchCriteria.capitalYears)
       RecommendationService.fallbackPreschools
     = RecommendationService.fallbackPreschools.
Proof.
  split; vm_compute; reflexivity.
Qed.

(** ** Pagination *)

Lemma firstn_add_skipn {A : Type} (a c : nat) (l : list A) :
  firstn (a + c) l = (firstn a l ++ firstn c (skipn a l))%list.
Proof.
  revert l. induction a as [|a IH]; intros l; [reflexivity|].
  destruct l as [|x l]; cbn [Nat.add firstn skipn app].
  - rewrite firstn_nil. reflexivity.
  - rewrite IH. reflexivity.
Qed.

Lemma paginate_results (xs : list Preschool.t) (page limit : Z) :
  1 <= page -> 0 < limit ->
  SearchResult.results (PreschoolService.paginate xs page limit)
  = firstn (Z.to_nat limit) (skipn (Z.to_nat ((page - 1) * limit)) xs).
Proof.
  intros Hp Hl. cbn [PreschoolService.paginate SearchResult.results].
  rewrite JsArrayFacts.slice_nonneg by nia. f_equal. nia.
Qed.

Lemma upTo_firstn (xs : list Preschool.t) (limit : Z) (k : nat) :
  0 < limit ->
  Pages.upTo xs limit k = firstn (k * Z.to_nat limit) xs.
Proof.
  intros Hl. unfold Pages.upTo. induction k as [|k IH]; [reflexivity|].
  rewrite seq_S, map_app, concat_app, IH. cbn [map List.concat Nat.add].
  rewrite app_nil_r, paginate_results by lia.
  replace (Z.to_nat ((Z.of_nat (S k) - 1) * limit))
    with (k * Z.to_nat limit)%nat by nia.
  rewrite <- firstn_add_skipn. f_equal. lia.
Qed.

Lemma ceilDiv_pos (n limit : Z) :
  0 <= n -> 0 < limit ->
  exists T, PageCount.ceilDiv n limit = PageCount.Finite T
            /\ 0 <= T /\ (T - 1) * limit < n <= T * limit.
Proof.
  intros Hn Hl. unfold PageCount.ceilDiv.
  replace (limit =? 0) with false by (symmetry; apply Z.eqb_neq; lia).
  exists (- (- n / limit)). split; [reflexivity|].
  pose proof (Z.div_mod (- n) limit ltac:(lia)) as Hdm.
  pose proof (Z.mod_pos_bound (- n) limit Hl) as Hm.
  nia.
Qed.

(** C2.  For a positive limit, [totalPages] is the ceiling [T] of
    [totalCount / limit], where [totalCount] is the length of the sequence;
    the items of the pages 1 to [T], concatenated, are the sequence; and a
    page beyond [T] has no items and the same two counts.  The search flow
    returns these pages, and on the specification's fourth scenario the
    second page of two holds the third and fourth records, of five, in
    three pages. *)
Theorem paginate_spec :
  forall (sequence : list Preschool.t) (limit : Z),
    0 < limit ->
    exists T : Z,
      0 <= T
      /\ (T - 1) * limit < Z.of_nat (List.length sequence) <= T * limit
      /\ (forall page,
            SearchResult.totalPages
              (PreschoolService.paginate sequence page limit)
            = PageCount.Finite T
            /\ SearchResult.totalCount
                 (PreschoolService.paginate sequence page limit)
               = Z.of_nat (List.length sequence))
      /\ Pages.upTo sequence limit (Z.to_nat T) = sequence
      /\ (forall page,
            T < page ->
            SearchResult.results
              (PreschoolService.paginate sequence page limit) = [])
      /\ (forall californiaPreschools query filters page,
            PreschoolService.searchPreschools Pages.service
              californiaPreschools query filters page limit
            = Normal
                (PreschoolService.paginate
                   (PreschoolService.applyFilters
                      (RecommendationService.getMockPreschools
                         californiaPreschools) query filters)
                   page limit))
      /\ PreschoolService.paginate Pages.five 2 2
         = {| SearchResult.results :=
                [Preschool.minimal "r3" "" 4 0; Preschool.minimal "r4" "" 4 0];
              SearchResult.totalCount := 5;
              SearchResult.page := 2;
              SearchResult.totalPages := PageCount.Finite 3 |}.
Proof.
  intros xs limit Hl.
  destruct (ceilDiv_pos (Z.of_nat (List.length xs)) limit ltac:(lia) Hl)
    as [T [HT [HT0 Hceil]]].
  exists T. repeat (split; [first [exact HT0 | apply Hceil]|]).
  split; [|split; [|split; [|split]]].
  - intros page. cbn [PreschoolService.paginate SearchResult.totalPages
      SearchResult.totalCount]. split; [exact HT | reflexivity].
  - rewrite upTo_firstn by assumption. apply firstn_all2. nia.
  - intros page Hp. rewrite paginate_results by lia.
    rewrite skipn_all2 by nia. apply firstn_nil.
  - intros. reflexivity.
  - vm_compute. reflexivity.
Qed.

Lemma paginate_spec_witness :
  exists T : Z,
    (T - 1) * 4 < 6 <= T * 4
    /\ Pages.upTo RecommendationService.fallbackPreschools 4 (Z.to_nat T)
       = RecommendationService.fallbackPreschools.
Proof.
  destruct (paginate_spec RecommendationService.fallbackPreschools 4)
    as [T [_ [H1 [_ [H2 _]]]]].
  - lia.
  - exists T. split; [exact H1 | exact H2].
Defined.

(** C8, as the code has it.  Pagination has no failure: with a limit that
    is not positive the search flow completes normally, with the length of
    the filtered sequence as [totalCount].  With the limit [0] the page is
    empty and [totalPages] is [+Infinity], or [NaN] when the sequence is
    empty; with a negative limit [totalPages] is a Number that is not
    positive. *)
Theorem searchPreschools_nonpositive_limit :
  forall (service : RecommendationService.t)
         (californiaPreschools : option (list Preschool.t))
         (query : option string) (filters : Filters.t) (page limit : Z),
    limit <= 0 ->
    exists r : SearchResult.t,
      PreschoolService.searchPreschools
        {| PreschoolService.recommendationService := Some service |}
        californiaPreschools query filters page limit
      = Normal r
      /\ SearchResult.totalCount r
         = Z.of_nat
             (List.length
                (PreschoolService.applyFilters
                   (RecommendationService.getMockPreschools
                      californiaPreschools) query filters))
      /\ SearchResult.page r = page
      /\ (limit = 0 ->
          SearchResult.results r = []
          /\ SearchResult.totalPages r
             = if SearchResult.totalCount r =? 0 then PageCount.NotANumber
               else PageCount.PlusInfinity)
      /\ (limit < 0 ->
          exists T, SearchResult.totalPages r = PageCount.Finite T /\ T <= 0).
Proof.
  intros service w query filters page limit Hl.
  eexists. split; [reflexivity|].
  cbn [PreschoolService.paginate SearchResult.totalCount SearchResult.page
         SearchResult.results SearchResult.totalPages].
  set (filtered := PreschoolService.applyFilters _ query filters).
  split; [reflexivity|split; [reflexivity|split]].
  - intros ->. split.
    + rewrite !Z.mul_0_r. unfold JsArray.slice, JsArray.relativeIndex.
      cbn [Z.ltb Z.compare]. rewrite Z.sub_diag. reflexivity.
    + unfold PageCount.ceilDiv. cbn [Z.eqb].
      destruct (Z.of_nat (List.length filtered)) eqn:E; try reflexivity. lia.
  - intros Hneg. unfold PageCount.ceilDiv.
    replace (limit =? 0) with false by (symmetry; apply Z.eqb_neq; lia).
    eexists. split; [reflexivity|].
    pose proof (Z.div_mod (- Z.of_nat (List.length filtered)) limit ltac:(lia)).
    pose proof (Z.mod_neg_bound (- Z.of_nat (List.length filtered)) limit Hneg).
    nia.
Qed.

Lemma searchPreschools_nonpositive_limit_witness :
  exists r : SearchResult.t,
    PreschoolService.searchPreschools Pages.service None None Filters.empty 1 0
    = Normal r
    /\ SearchResult.totalCount r = 6.
Proof.
  destruct (searchPreschools_nonpositive_limit RecommendationService.Instance
              None None Filters.empty 1 0)
    as [r [H1 [H2 _]]].
  - lia.
  - exists r. split; [exact H1 | exact H2].
Defined.

(** With the limit [0] the search over the built-in records does not
    fail: it returns an empty page, the count 6 and [+Infinity] pages. *)
Lemma searchPreschools_limit_zero_counterexample :
  throws
    (PreschoolService.searchPreschools Pages.service None None Filters.empty
       1 0) = false
  /\ PreschoolService.searchPreschools Pages.service None None Filters.empty
       1 0
     = Normal
         {| SearchResult.results := [];
            SearchResult.totalCount := 6;
            SearchResult.page := 1;
            SearchResult.totalPages := PageCount.PlusInfinity |}.
Proof.
  split; vm_compute; reflexivity.
Qed.

(** ** The featured listing *)

Lemma StronglySorted_weaken {A : Type} (R R' : A -> A -> Prop) (l : list A) :
  (forall a b, In a l -> In b l -> R a b -> R' a b) ->
  StronglySorted R l -> StronglySorted R' l.
Proof.
  intros H Hs. induction Hs as [|x l Hs IH Hx]; constructor.
  - apply IH. intros a b Ha Hb. apply H; right; assumption.
  - rewrite Forall_forall in *. intros y Hy.
    apply H; [left; reflexivity | right; assumption | auto].
Qed.

Lemma forallb_In {A : Type} (f : A -> bool) (l : list A) (a : A) :
  forallb f l = true -> In a l -> f a = true.
Proof. intros H. rewrite forallb_forall in H. apply H. Qed.

(** The comparator of the featured listing orders records as the
    specification's score does, from the highest down. *)
Lemma byPopularityDesc_keyed (M : Math.t) (l : list Preschool.t) :
  PopularityScore.scored M l = true ->
  JsArray.keyed (RecommendationService.byPopularityDesc M)
    (fun p => - Binary64.ford (PopularityScore.score M p)) l.
Proof.
  intros H a b Ha Hb.
  apply (forallb_In _ _ a H) in Ha. apply (forallb_In _ _ b H) in Hb.
  apply negb_true_iff in Ha, Hb.
  unfold RecommendationService.byPopularityDesc,
    RecommendationService.popularity.
  fold (PopularityScore.score M a). fold (PopularityScore.score M b).
  rewrite Binary64Facts.sub_ltb_zero, Binary64Facts.ltb_ford by assumption.
  destruct (Z.ltb_spec (Binary64.ford (PopularityScore.score M b))
              (Binary64.ford (PopularityScore.score M a)));
    symmetry; [apply Z.ltb_lt | apply Z.ltb_ge]; lia.
Qed.

(** C3, as the code has it.  When no popularity score [rating *
    ln(reviewCount + 1)] of the record set is [NaN], there is a ranking of
    the record set, a rearrangement of it in which the scores never
    increase and in which the records that tie with any given record stand
    in their original order, such that the featured listing of a limit
    that is a count is the first [limit] records of the ranking.  The limit
    is not validated: for a negative limit [-k] the listing is the ranking
    without its last [k] records. *)
Theorem getFeaturedPreschools_ranked :
  forall (M : Math.t) (californiaPreschools : option (list Preschool.t)),
    PopularityScore.scored M
      (RecommendationService.getMockPreschools californiaPreschools) = true ->
    exists ranked : list Preschool.t,
      Permutation ranked
        (RecommendationService.getMockPreschools californiaPreschools)
      /\ StronglySorted
           (fun a b =>
              PrimFloat.leb (PopularityScore.score M b)
                (PopularityScore.score M a) = true)
           ranked
      /\ (forall p,
            In p (RecommendationService.getMockPreschools
                    californiaPreschools) ->
            filter (fun q =>
                      PrimFloat.eqb (PopularityScore.score M q)
                        (PopularityScore.score M p))
              ranked
            = filter (fun q =>
                        PrimFloat.eqb (PopularityScore.score M q)
                          (PopularityScore.score M p))
                (RecommendationService.getMockPreschools
                   californiaPreschools))
      /\ (forall limit,
            0 <= limit ->
            RecommendationService.getFeaturedPreschools M
              californiaPreschools limit
            = Normal (firstn (Z.to_nat limit) ranked))
      /\ (forall limit,
            limit < 0 ->
            RecommendationService.getFeaturedPreschools M
              californiaPreschools limit
            = Normal
                (firstn (List.length ranked - Z.to_nat (- limit)) ranked)).
Proof.
  intros M w Hnum.
  set (records := RecommendationService.getMockPreschools w) in *.
  pose proof (byPopularityDesc_keyed M records Hnum) as Hk.
  exists (JsArray.sort (RecommendationService.byPopularityDesc M) records).
  assert (Hn : forall a, In a records ->
                 PrimFloat.is_nan (PopularityScore.score M a) = false).
  { intros a Ha. apply negb_true_iff. apply (forallb_In _ _ a Hnum Ha). }
  split; [|split; [|split; [|split]]].
  - apply JsArrayFacts.sort_Permutation.
  - eapply StronglySorted_weaken;
      [|apply (JsArrayFacts.sort_sorted _ _ _ Hk)].
    intros a b Ha Hb Hab. cbv beta in Hab.
    apply JsArrayFacts.sort_In in Ha, Hb.
    rewrite Binary64Facts.leb_ford by auto. apply Z.leb_le. lia.
  - intros p Hp.
    rewrite (filter_ext_in
               (fun q => PrimFloat.eqb (PopularityScore.score M q)
                           (PopularityScore.score M p))
               (fun q =>
                  Z.eqb (- Binary64.ford (PopularityScore.score M q))
                    (- Binary64.ford (PopularityScore.score M p)))
               records).
    + rewrite <- (JsArrayFacts.sort_stable _ _ _ _ Hk).
      apply filter_ext_in. intros q Hq. apply JsArrayFacts.sort_In in Hq.
      rewrite Binary64Facts.eqb_ford by auto.
      destruct (Z.eqb_spec (Binary64.ford (PopularityScore.score M q))
                  (Binary64.ford (PopularityScore.score M p)));
        symmetry; [apply Z.eqb_eq | apply Z.eqb_neq]; lia.
    + intros q Hq. rewrite Binary64Facts.eqb_ford by auto.
      destruct (Z.eqb_spec (Binary64.ford (PopularityScore.score M q))
                  (Binary64.ford (PopularityScore.score M p)));
        symmetry; [apply Z.eqb_eq | apply Z.eqb_neq]; lia.
  - intros limit Hlimit.
    unfold RecommendationService.getFeaturedPreschools. fold records.
    rewrite JsArrayFacts.slice_prefix by assumption. reflexivity.
  - intros limit Hlimit.
    unfold RecommendationService.getFeaturedPreschools. fold records.
    rewrite JsArrayFacts.slice_negative_end by assumption. reflexivity.
Qed.

(** The theorem applies to the specification's third scenario, the record
    with the lower rating and the many reviews standing last in the set:
    with the first-order logarithm its score is the higher one, and it is
    the one featured. *)
Lemma getFeaturedPreschools_ranked_witness :
  exists ranked : list Preschool.t,
    Permutation ranked
      [PopularityScore.fewReviews; PopularityScore.manyReviews]
    /\ RecommendationService.getFeaturedPreschools Math.firstOrder
         (Some [PopularityScore.fewReviews; PopularityScore.manyReviews]) 1
       = Normal (firstn 1 ranked)
    /\ firstn 1 ranked = [PopularityScore.manyReviews].
Proof.
  destruct (getFeaturedPreschools_ranked Math.firstOrder
              (Some [PopularityScore.fewReviews; PopularityScore.manyReviews]))
    as [ranked [H1 [_ [_ [H2 _]]]]].
  - vm_compute. reflexivity.
  - exists ranked. split; [exact H1|]. split; [apply H2; lia|].
    specialize (H2 1 ltac:(lia)). vm_compute in H2.
    injection H2 as H2. symmetry. exact H2.
Defined.

(** Over the six built-in records the limit [-2] is not refused, and the
    listing is not empty: it holds four records. *)
Lemma getFeaturedPreschools_negative_limit_counterexample :
  exists listing : list Preschool.t,
    RecommendationService.getFeaturedPreschools Math.firstOrder None (-2)
    = Normal listing
    /\ List.length listing = 4%nat
    /\ firstn (Z.to_nat (-2)) listing = [].
Proof.
  eexists. split; [reflexivity|]. split; reflexivity.
Qed.
(** ** The nearby listing *)

Lemma leb_true_num (x y : float) :
  PrimFloat.leb x y = true ->
  PrimFloat.is_nan x = false /\ PrimFloat.is_nan y = false.
Proof.
  intros H. split.
  - destruct (PrimFloat.is_nan x) eqn:E; [|reflexivity].
    rewrite (Binary64Facts.leb_nan_l x y E) in H. discriminate.
  - destruct (PrimFloat.is_nan y) eqn:E; [|reflexivity].
    rewrite (Binary64Facts.leb_nan_r x y E) in H. discriminate.
Qed.

Lemma byDistance_keyed (maxDistance : float) (l : list Preschool.t) :
  JsArray.keyed Data.byDistance
    (fun p => Binary64.ford (Preschool.toNumber (Preschool.distance p)))
    (filter (Data.withinDistance maxDistance) l).
Proof.
  intros a b Ha Hb.
  apply filter_In in Ha, Hb. destruct Ha as [_ Ha], Hb as [_ Hb].
  apply leb_true_num in Ha, Hb. destruct Ha as [Ha _], Hb as [Hb _].
  unfold Data.byDistance.
  rewrite Binary64Facts.sub_ltb_zero, Binary64Facts.ltb_ford by assumption.
  reflexivity.
Qed.

(** C5, as the code has it.  When the limit is a count, the nearby listing
    is the first [limit] records of a ranking of the candidates.  A
    candidate is a copy of a warehouse record whose two coordinates are
    truthy (set, and neither zero nor [NaN]), carrying the distance from
    the origin rounded to one decimal, that rounded distance being at most
    the radius.  In the ranking the attached distances never decrease, and
    candidates whose attached distances are equal keep the order of the
    warehouse. *)
Theorem getNearbyPreschools_ranked :
  forall (M : Math.t) (californiaPreschools : option (list Preschool.t))
         (latitude longitude radius : float) (limit : Z),
    0 <= limit ->
    exists ranked : list Preschool.t,
      RecommendationService.getNearbyPreschools M californiaPreschools
        latitude longitude radius limit
      = Normal (firstn (Z.to_nat limit) ranked)
      /\ (forall q,
            In q ranked <->
            exists p,
              In p (Data.getAllPreschools californiaPreschools)
              /\ JsNumber.truthyOpt (Preschool.latitude p) = true
              /\ JsNumber.truthyOpt (Preschool.longitude p) = true
              /\ q = Data.attachDistance M latitude longitude p
              /\ Preschool.distance q
                 = Some (JsNumber.roundToOneDecimal
                           (Data.calculateDistance M latitude longitude
                              (JsNumber.parseFloat
                                 (Preschool.toNumber (Preschool.latitude p)))
                              (JsNumber.parseFloat
                                 (Preschool.toNumber (Preschool.longitude p)))))
              /\ PrimFloat.leb (Preschool.toNumber (Preschool.distance q))
                   radius = true)
      /\ Permutation ranked
           (filter (Data.withinDistance radius)
              (map (Data.attachDistance M latitude longitude)
                 (filter Data.hasCoordinates
                    (Data.getAllPreschools californiaPreschools))))
      /\ StronglySorted
           (fun a b =>
              PrimFloat.leb (Preschool.toNumber (Preschool.distance a))
                (Preschool.toNumber (Preschool.distance b)) = true)
           ranked
      /\ forall q,
           In q ranked ->
           filter (fun r =>
                     PrimFloat.eqb (Preschool.toNumber (Preschool.distance r))
                       (Preschool.toNumber (Preschool.distance q)))
             ranked
           = filter (fun r =>
                       PrimFloat.eqb (Preschool.toNumber (Preschool.distance r))
                         (Preschool.toNumber (Preschool.distance q)))
               (filter (Data.withinDistance radius)
                  (map (Data.attachDistance M latitude longitude)
                     (filter Data.hasCoordinates
                        (Data.getAllPreschools californiaPreschools)))).
Proof.
  intros M w lat lon radius limit Hlimit.
  set (candidates :=
         filter (Data.withinDistance radius)
           (map (Data.attachDistance M lat lon)
              (filter Data.hasCoordinates (Data.getAllPreschools w)))).
  pose proof (byDistance_keyed radius
                (map (Data.attachDistance M lat lon)
                   (filter Data.hasCoordinates (Data.getAllPreschools w))))
    as Hk.
  fold candidates in Hk.
  assert (Hnum : forall q, In q candidates ->
                   PrimFloat.is_nan (Preschool.toNumber (Preschool.distance q))
                   = false).
  { intros q Hq. apply filter_In in Hq. destruct Hq as [_ Hq].
    apply leb_true_num in Hq. apply Hq. }
  exists (JsArray.sort Data.byDistance candidates).
  split; [|split; [|split; [|split]]].
  - unfold RecommendationService.getNearbyPreschools,
      Data.getPreschoolsNearLocation. fold candidates.
    rewrite JsArrayFacts.slice_prefix by assumption. reflexivity.
  - intros q. rewrite JsArrayFacts.sort_In. unfold candidates.
    rewrite filter_In, in_map_iff. split.
    + intros [[p [Hq Hp]] Hd]. apply filter_In in Hp. destruct Hp as [Hp Hc].
      apply andb_true_iff in Hc. destruct Hc as [Hlat Hlon].
      exists p. subst q. repeat split; assumption.
    + intros [p [Hp [Hlat [Hlon [Hq [_ Hd]]]]]]. subst q. split; [|exact Hd].
      exists p. split; [reflexivity|]. apply filter_In. split; [assumption|].
      unfold Data.hasCoordinates. rewrite Hlat, Hlon. reflexivity.
  - apply JsArrayFacts.sort_Permutation.
  - eapply StronglySorted_weaken;
      [|apply (JsArrayFacts.sort_sorted _ _ _ Hk)].
    intros a b Ha Hb Hab. cbv beta in Hab.
    apply JsArrayFacts.sort_In in Ha, Hb.
    rewrite Binary64Facts.leb_ford by auto. apply Z.leb_le. exact Hab.
  - intros q Hq. apply JsArrayFacts.sort_In in Hq.
    rewrite (filter_ext_in
               (fun r => PrimFloat.eqb (Preschool.toNumber (Preschool.distance r))
                           (Preschool.toNumber (Preschool.distance q)))
               (fun r =>
                  Z.eqb (Binary64.ford (Preschool.toNumber (Preschool.distance r)))
                    (Binary64.ford (Preschool.toNumber (Preschool.distance q))))
               candidates)
      by (intros r Hr; apply Binary64Facts.eqb_ford; auto).
    rewrite <- (JsArrayFacts.sort_stable _ _ _ _ Hk).
    apply filter_ext_in. intros r Hr. apply JsArrayFacts.sort_In in Hr.
    apply Binary64Facts.eqb_ford; auto.
Qed.

Lemma getNearbyPreschools_ranked_witness :
  exists ranked : list Preschool.t,
    RecommendationService.getNearbyPreschools Math.firstOrder
      (Some [NearbyCriterion.fiveMilesNorth; NearbyCriterion.onEquator])
      37 (-122) 5 5
    = Normal (firstn 5 ranked).
Proof.
  destruct (getNearbyPreschools_ranked Math.firstOrder
              (Some [NearbyCriterion.fiveMilesNorth; NearbyCriterion.onEquator])
              37 (-122) 5 5 ltac:(lia))
    as [ranked [H _]].
  exists ranked. exact H.
Defined.

(** The criterion of the specification fails on both counts.  A record on
    the equator that lies at the origin has its coordinates set and is at
    distance zero, yet the listing is empty: its latitude [0] is falsy.
    A record 5.04 miles from the origin is beyond a radius of 5 miles, yet
    it is listed, at distance [5]: the distance is rounded before it is
    compared. *)
Lemma getNearbyPreschools_criterion_counterexample :
  (NearbyCriterion.decidesListing Math.firstOrder
     (Some [NearbyCriterion.onEquator]) 0 (-122) 5 5 = false
   /\ NearbyCriterion.qualifies Math.firstOrder 0 (-122) 5
        NearbyCriterion.onEquator = true
   /\ RecommendationService.getNearbyPreschools Math.firstOrder
        (Some [NearbyCriterion.onEquator]) 0 (-122) 5 5
      = Normal [])
  /\ (NearbyCriterion.decidesListing Math.firstOrder
        (Some [NearbyCriterion.fiveMilesNorth]) 37 (-122) 5 5 = false
      /\ NearbyCriterion.qualifies Math.firstOrder 37 (-122) 5
           NearbyCriterion.fiveMilesNorth = false
      /\ RecommendationService.getNearbyPreschools Math.firstOrder
           (Some [NearbyCriterion.fiveMilesNorth]) 37 (-122) 5 5
         = Normal [Preschool.withDistance NearbyCriterion.fiveMilesNorth 5]).
Proof.
  repeat split; vm_compute; reflexivity.
Qed.

(** ** The distance computation *)

Section Distance.

Local Open Scope float_scope.

Variable M : Math.t.
Hypothesis laws : Math.Laws M.

Lemma opp_involutive (x : float) : - - x = x.
Proof.
  apply Prim2SF_inj. rewrite !opp_spec. apply Binary64Facts.SFopp_involutive.
Qed.

Lemma mul_opp_r (x y : float) : x * - y = - (x * y).
Proof.
  rewrite (Binary64Facts.mul_comm x (- y)), Binary64Facts.mul_opp_l,
    (Binary64Facts.mul_comm y x).
  reflexivity.
Qed.

Lemma toRadians_opp (u : float) :
  Data.toRadians (- u) / 2 = - (Data.toRadians u / 2).
Proof.
  unfold Data.toRadians.
  rewrite Binary64Facts.mul_opp_l, !Binary64Facts.div_opp_l. reflexivity.
Qed.

(** The sine of a half angle enters the formula twice, as a square or as
    two successive factors: its sign does not matter. *)
Lemma half_sine_opp (u : float) :
  Math.sin M (Data.toRadians (- u) / 2) = - Math.sin M (Data.toRadians u / 2).
Proof. rewrite toRadians_opp. apply (Math.sin_odd M laws). Qed.

Lemma factor_twice_opp (c s : float) : c * - s * - s = c * s * s.
Proof.
  rewrite (mul_opp_r c s), Binary64Facts.mul_opp_l, mul_opp_r, opp_involutive.
  reflexivity.
Qed.

Lemma calculateDistance_sym (lat1 lon1 lat2 lon2 : float) :
  Data.calculateDistance M lat1 lon1 lat2 lon2
  = Data.calculateDistance M lat2 lon2 lat1 lon1.
Proof.
  unfold Data.calculateDistance.
  rewrite (Binary64Facts.mul_comm (Math.cos M (Data.toRadians lat2))
             (Math.cos M (Data.toRadians lat1))).
  destruct (Binary64Facts.sub_swap lat2 lat1) as [E|E];
    destruct (Binary64Facts.sub_swap lon2 lon1) as [F|F];
    rewrite E, F, ?half_sine_opp, ?factor_twice_opp,
      ?Binary64Facts.mul_opp_opp;
    reflexivity.
Qed.

Lemma valid_finite (latitude longitude : float) :
  Coordinates.valid latitude longitude = true ->
  Binary64.finite latitude = true /\ Binary64.finite longitude = true.
Proof.
  unfold Coordinates.valid, Coordinates.validLatitude,
    Coordinates.validLongitude.
  intros H. apply andb_true_iff in H. destruct H as [H1 H2].
  apply andb_true_iff in H1, H2. destruct H1 as [H1 H1'], H2 as [H2 H2'].
  split.
  - apply (Binary64Facts.between_finite (-90) latitude 90); auto.
  - apply (Binary64Facts.between_finite (-180) longitude 180); auto.
Qed.

(** The radians of a latitude in range are a finite number. *)
Lemma toRadians_finite (latitude : float) :
  Coordinates.validLatitude latitude = true ->
  PrimFloat.is_finite (Data.toRadians latitude) = true.
Proof.
  unfold Coordinates.validLatitude. intros H.
  apply andb_true_iff in H. destruct H as [Hlo Hhi].
  rewrite leb_spec in Hlo, Hhi.
  apply Binary64Facts.SFfinite_is_finite. unfold Data.toRadians.
  assert (Hb : Binary64.below (-46) (Prim2SF latitude)).
  { change (Prim2SF 90) with (S754_finite false 6333186975989760 (-46)) in Hhi.
    change (Prim2SF (-90)) with (S754_finite true 6333186975989760 (-46)) in Hlo.
    destruct (Prim2SF latitude) as [s|s| |s m e]; cbn [Binary64.below]; auto.
    - destruct s; discriminate.
    - discriminate.
    - unfold SFleb in Hlo, Hhi. cbn [SFcompare] in Hlo, Hhi. Binary64Facts.zfold.
      destruct s.
      + destruct (Z.compare_spec (-46) e); try lia; discriminate.
      + destruct (Z.compare_spec e (-46)); try lia; discriminate. }
  assert (Hpi : Binary64.below (-51) (Prim2SF JsNumber.PI)) by (cbn; lia).
  pose proof (Binary64Facts.SFmul_below (Prim2SF latitude) (Prim2SF JsNumber.PI) (-46) (-51)
                (Prim2SF_valid _) (Prim2SF_valid _) Hb Hpi ltac:(lia)) as Hmul.
  rewrite <- mul_spec in Hmul.
  rewrite div_spec.
  apply (Binary64Facts.SFdiv_below _ _ (Z.max (-46 + -51 + 107) (-874))%Z
           false 6333186975989760 (-45));
    [apply Prim2SF_valid | reflexivity | reflexivity | exact Hmul | lia].
Qed.

Lemma calculateDistance_diag (latitude longitude : float) :
  Coordinates.valid latitude longitude = true ->
  Data.calculateDistance M latitude longitude latitude longitude = 0.
Proof.
  intros H. destruct (valid_finite _ _ H) as [Hlat Hlon].
  unfold Data.calculateDistance.
  rewrite (Binary64Facts.sub_diag latitude Hlat),
    (Binary64Facts.sub_diag longitude Hlon).
  change (Data.toRadians 0 / 2) with 0.
  rewrite (Math.sin_zero M laws).
  rewrite Binary64Facts.mul_square_zero.
  2:{ apply (Math.cos_le_one M laws), toRadians_finite.
      unfold Coordinates.valid in H. apply andb_true_iff in H. apply H. }
  change (PrimFloat.sqrt (0 * 0 + 0 * 0)) with 0.
  change (PrimFloat.sqrt (1 - (0 * 0 + 0 * 0))) with 1.
  rewrite (Math.atan2_zero_one M laws). reflexivity.
Qed.

End Distance.


Lemma firstOrder_laws : Math.Laws Math.firstOrder.
Proof.
  constructor; intros; reflexivity.
Qed.


(** *** Where the distance is [NaN] *)

Lemma ltb_zero_sqrt_nan (x : float) :
  PrimFloat.ltb x 0 = true -> PrimFloat.sqrt x = nan.
Proof.
  intros H. apply Prim2SF_inj. rewrite sqrt_spec.
  rewrite ltb_spec in H. change (Prim2SF 0) with (S754_zero false) in H.
  destruct (Prim2SF x) as [s|s| |s m e]; try discriminate.
  - destruct s; [reflexivity | discriminate].
  - destruct s; [reflexivity | discriminate].
Qed.

Lemma mul_nan_r (x : float) : (x * nan)%float = nan.
Proof.
  apply Prim2SF_inj. rewrite mul_spec. change (Prim2SF nan) with S754_nan.
  destruct (Prim2SF x) as [s|s| |s m e]; reflexivity.
Qed.

(** When rounding lifts the haversine term above one, the distance is
    [NaN], on every implementation whose [atan2] of a [NaN] is [NaN], as
    ECMAScript prescribes. *)
Lemma calculateDistance_beyond_one (M : Math.t) (lat1 lon1 lat2 lon2 : float) :
  (forall y, Math.atan2 M y nan = nan) ->
  PrimFloat.ltb 1
    (Math.sin M (Data.toRadians (lat2 - lat1) / 2)
     * Math.sin M (Data.toRadians (lat2 - lat1) / 2)
     + Math.cos M (Data.toRadians lat1) * Math.cos M (Data.toRadians lat2)
       * Math.sin M (Data.toRadians (lon2 - lon1) / 2)
       * Math.sin M (Data.toRadians (lon2 - lon1) / 2))%float = true ->
  Data.calculateDistance M lat1 lon1 lat2 lon2 = nan.
Proof.
  intros Hatan H. unfold Data.calculateDistance.
  set (a := (_ + _)%float) in *.
  assert (Ha : PrimFloat.is_nan a = false).
  { destruct (PrimFloat.is_nan a) eqn:E; [|reflexivity].
    rewrite ltb_spec, (Binary64Facts.Prim2SF_nan a E) in H. discriminate. }
  assert (Hneg : PrimFloat.ltb (1 - a) 0 = true)
    by (rewrite Binary64Facts.sub_ltb_zero by (reflexivity || assumption);
        exact H).
  rewrite (ltb_zero_sqrt_nan _ Hneg), Hatan, !mul_nan_r. reflexivity.
Qed.

(** The points (81.71, 0) and (-81.71, 180) are in range and antipodal.
    With the sine and the cosines that are the Numbers nearest to the
    exact ones at the arguments the formula reaches, the haversine term is
    [1 + 2^-52], and the distance is [NaN]. *)
Lemma calculateDistance_antipodal_nan (M : Math.t) :
  (forall y, Math.atan2 M y nan = nan) ->
  Math.sin M (Data.toRadians (-81.71 - 81.71) / 2) = (-0x1.faa66cb25dae1p-1)%float ->
  Math.cos M (Data.toRadians 81.71) = 0x1.2749acf9e26bbp-3%float ->
  Math.cos M (Data.toRadians (-81.71)) = 0x1.2749acf9e26bbp-3%float ->
  Math.sin M (Data.toRadians (180 - 0) / 2) = 1%float ->
  Coordinates.valid 81.71 0 = true
  /\ Coordinates.valid (-81.71) 180 = true
  /\ Data.calculateDistance M 81.71 0 (-81.71) 180 = nan.
Proof.
  intros Hatan Hs1 Hc1 Hc2 Hs2.
  split; [reflexivity|]. split; [reflexivity|].
  apply calculateDistance_beyond_one; [exact Hatan|].
  rewrite Hs1, Hc1, Hc2, Hs2. reflexivity.
Qed.


(** C7, as the code has it.  The distance computation has no failure: the
    nearby flow completes normally for every origin, radius and limit, in
    range or not, with the listing [getPreschoolsNearLocation] computes. *)
Theorem getNearbyPreschools_never_throws :
  forall (M : Math.t) (californiaPreschools : option (list Preschool.t))
         (latitude longitude radius : float) (limit : Z),
    throws
      (RecommendationService.getNearbyPreschools M californiaPreschools
         latitude longitude radius limit) = false
    /\ RecommendationService.getNearbyPreschools M californiaPreschools
         latitude longitude radius limit
       = Normal
           (JsArray.slice
              (Data.getPreschoolsNearLocation M californiaPreschools
                 latitude longitude radius) 0 limit).
Proof.
  intros. split; reflexivity.
Qed.

(** A latitude of 91 degrees and a longitude of -200 degrees are out of
    range, and the flow returns a listing: the record 54 degrees to the
    south, at the distance computed for it. *)
Lemma getNearbyPreschools_out_of_range_counterexample :
  Coordinates.valid 91 (-200) = false
  /\ throws
       (RecommendationService.getNearbyPreschools Math.firstOrder
          (Some [NearbyCriterion.fiveMilesNorth]) 91 (-200) infinity 5) = false
  /\ exists d,
       RecommendationService.getNearbyPreschools Math.firstOrder
         (Some [NearbyCriterion.fiveMilesNorth]) 91 (-200) infinity 5
       = Normal [Preschool.withDistance NearbyCriterion.fiveMilesNorth d]
       /\ PrimFloat.is_nan d = false.
Proof.
  split; [reflexivity|split; [reflexivity|]].
  eexists. split; [vm_compute; reflexivity | reflexivity].
Qed.

(** ** The location filter of the recommendation flow *)

Lemma filterM_matchesLocation_no_city (location : string)
  (records : list Preschool.t) :
  forallb (fun p => match Preschool.city p with None => true | Some _ => false end)
    records = true ->
  filterM (RecommendationService.matchesLocation location) records
  = if forallb (LocationFilter.addressMatches location) records
    then Normal records
    else Throw LocationFilter.cityError.
Proof.
  induction records as [|p records IH]; intros Hc; [reflexivity|].
  cbn [forallb] in Hc. apply andb_true_iff in Hc. destruct Hc as [Hp Hc].
  cbn [filterM forallb]. unfold RecommendationService.matchesLocation at 1.
  fold (LocationFilter.addressMatches location p).
  destruct (Preschool.city p) as [c|]; [discriminate|].
  destruct (LocationFilter.addressMatches location p); cbn; [|reflexivity].
  rewrite (IH Hc).
  destruct (forallb (LocationFilter.addressMatches location) records);
    reflexivity.
Qed.

Lemma filterM_matchesLocation_total (location : string)
  (records : list Preschool.t) :
  forallb LocationFilter.hasCityAndZip records = true ->
  filterM (RecommendationService.matchesLocation location) records
  = Normal (filter (LocationFilter.matches location) records).
Proof.
  induction records as [|p records IH]; intros Hc; [reflexivity|].
  cbn [forallb] in Hc. apply andb_true_iff in Hc. destruct Hc as [Hp Hc].
  cbn [filterM filter]. rewrite (IH Hc).
  unfold RecommendationService.matchesLocation, LocationFilter.matches,
    LocationFilter.hasCityAndZip, LocationFilter.addressMatches in *.
  destruct (Preschool.city p) as [c|]; [|discriminate].
  destruct (Preschool.zip_code p) as [z|]; [|discriminate].
  cbn.
  destruct (JsString.includes (JsString.toLowerCase (Preschool.address p))
              (JsString.toLowerCase location)); cbn; [reflexivity|].
  destruct (JsString.includes (JsString.toLowerCase c)
              (JsString.toLowerCase location)); cbn; [reflexivity|].
  destruct (JsString.includes z location); reflexivity.
Qed.

Lemma getRecommendations_throws
  (californiaPreschools : option (list Preschool.t)) (userId : string)
  (preferences : Preferences.t) (limit : Z) (location : string) :
  Preferences.location preferences = Some location ->
  JsString.truthy location = true ->
  throws
    (RecommendationService.getRecommendations californiaPreschools userId
       preferences limit)
  = throws
      (filterM (RecommendationService.matchesLocation location)
         (RecommendationService.getMockPreschools californiaPreschools)).
Proof.
  intros Hloc Ht. unfold RecommendationService.getRecommendations.
  rewrite Hloc, Ht.
  destruct (filterM _ _); reflexivity.
Qed.

(** C10, as the code has it.  With a location preference, the
    recommendation flow completes normally when every record carries a city
    and a postal code.  Over the built-in records, which carry neither, it
    throws exactly when the address of some record does not contain the
    location, letter case apart, and the error is the [TypeError] of
    reading [toLowerCase] of the missing city; when every address contains
    the location, no city is read and the flow completes normally. *)
Theorem getRecommendations_location :
  forall (californiaPreschools : option (list Preschool.t))
         (userId : string) (preferences : Preferences.t) (limit : Z)
         (location : string),
    Preferences.location preferences = Some location ->
    JsString.truthy location = true ->
    (forallb LocationFilter.hasCityAndZip
       (RecommendationService.getMockPreschools californiaPreschools) = true ->
     throws
       (RecommendationService.getRecommendations californiaPreschools userId
          preferences limit) = false)
    /\ (Data.getAllPreschools californiaPreschools = [] ->
        throws
          (RecommendationService.getRecommendations californiaPreschools
             userId preferences limit)
        = negb
            (forallb (LocationFilter.addressMatches location)
               RecommendationService.fallbackPreschools)
        /\ (forallb (LocationFilter.addressMatches location)
              RecommendationService.fallbackPreschools = false ->
            RecommendationService.getRecommendations californiaPreschools
              userId preferences limit
            = Throw LocationFilter.cityError)).
Proof.
  intros w userId preferences limit location Hloc Ht. split.
  - intros Hall.
    rewrite (getRecommendations_throws w userId preferences limit location)
      by assumption.
    rewrite filterM_matchesLocation_total by assumption. reflexivity.
  - intros Hempty.
    assert (Hmock : RecommendationService.getMockPreschools w
                    = RecommendationService.fallbackPreschools).
    { unfold RecommendationService.getMockPreschools. rewrite Hempty.
      reflexivity. }
    split.
    + rewrite (getRecommendations_throws w userId preferences limit location)
        by assumption.
      rewrite Hmock, filterM_matchesLocation_no_city by reflexivity.
      destruct (forallb _ _); reflexivity.
    + intros Hsome. unfold RecommendationService.getRecommendations.
      rewrite Hloc, Ht, Hmock, filterM_matchesLocation_no_city by reflexivity.
      rewrite Hsome. reflexivity.
Qed.

Lemma getRecommendations_location_witness :
  RecommendationService.getRecommendations None "u1"
    (LocationFilter.near "Palo Alto") 5
  = Throw LocationFilter.cityError.
Proof.
  destruct (getRecommendations_location None "u1"
              (LocationFilter.near "Palo Alto") 5 "Palo Alto"
              eq_refl eq_refl) as [_ H].
  destruct (H eq_refl) as [_ H']. apply H'. reflexivity.
Defined.

(** With the location [CA], which every built-in address contains, the
    flow over the built-in records does not throw: it returns the five
    best rated of them. *)
Lemma getRecommendations_location_counterexample :
  throws
    (RecommendationService.getRecommendations None "u1"
       (LocationFilter.near "CA") 5) = false
  /\ (forallb (fun p => match Preschool.city p, Preschool.zip_code p with
                        | None, None => true
                        | _, _ => false
                        end)
        RecommendationService.fallbackPreschools = true)
  /\ match RecommendationService.getRecommendations None "u1"
             (LocationFilter.near "CA") 5 with
     | Normal l => map Preschool.id l
     | Throw _ => []
     end = ["p3"; "p1"; "p5"; "p2"; "p4"]%string.
Proof.
  repeat split; vm_compute; reflexivity.
Qed.

(** ** The store *)

Module StoreFacts.

Import Store.
Local Open Scope nat_scope.
Local Open Scope list_scope.
Local Open Scope store_scope.

Lemma unchanged_refl (h : t) : unchanged h h.
Proof. unfold unchanged. apply firstn_all. Qed.

Lemma unchanged_length (h0 h : t) :
  unchanged h0 h -> List.length h0 <= List.length h.
Proof.
  unfold unchanged. intros H.
  destruct (Nat.le_gt_cases (List.length h0) (List.length h)) as [|Hlt];
    [assumption|].
  rewrite firstn_all2 in H by lia. subst. lia.
Qed.

Lemma unchanged_app (h0 h ext : t) :
  unchanged h0 h -> unchanged h0 (h ++ ext).
Proof.
  intros H. pose proof (unchanged_length _ _ H). unfold unchanged in *.
  rewrite firstn_app.
  replace (List.length h0 - List.length h) with 0 by lia.
  cbn [firstn]. rewrite app_nil_r. exact H.
Qed.

Lemma firstn_put (h : t) (n a : nat) (c : cell) :
  n <= a -> firstn n (put h a c) = firstn n h.
Proof.
  revert n a. induction h as [|x h IH]; intros n a Hna; [reflexivity|].
  destruct a as [|a]; cbn [put].
  - replace n with 0 by lia. reflexivity.
  - destruct n as [|n]; [reflexivity|]. cbn [firstn]. rewrite IH by lia.
    reflexivity.
Qed.

Lemma unchanged_put (h0 h : t) (a : loc) (c : cell) :
  unchanged h0 h -> fresh h0 a -> unchanged h0 (put h a c).
Proof.
  unfold unchanged, fresh. intros H Ha. rewrite firstn_put by assumption.
  exact H.
Qed.

Lemma nth_error_put (h : t) (a l : nat) (c : cell) :
  nth_error (put h a c) l
  = if Nat.eqb l a
    then match nth_error h a with Some _ => Some c | None => None end
    else nth_error h l.
Proof.
  revert a l. induction h as [|x h IH]; intros a l.
  - cbn [put]. destruct (Nat.eqb l a); destruct l, a; reflexivity.
  - destruct a as [|a], l as [|l]; cbn [put nth_error Nat.eqb];
      try reflexivity.
    apply IH.
Qed.

Lemma object_put_array (h : t) (a l : loc) (e0 e : list loc) :
  array h a = Some e0 -> object (put h a (Arr e)) l = object h l.
Proof.
  unfold array, object. intros Ha. rewrite nth_error_put.
  destruct (Nat.eqb_spec l a) as [->|]; [|reflexivity].
  destruct (nth_error h a) as [[o|e1]|]; try discriminate. reflexivity.
Qed.

Lemma array_put_same (h : t) (a : loc) (e0 e : list loc) :
  array h a = Some e0 -> array (put h a (Arr e)) a = Some e.
Proof.
  unfold array. intros Ha. rewrite nth_error_put, Nat.eqb_refl.
  destruct (nth_error h a) as [[o|e1]|]; try discriminate. reflexivity.
Qed.

Lemma objects_ext (h h' : t) (elems : list loc) :
  (forall l, In l elems -> object h' l = object h l) ->
  objects h' elems = objects h elems.
Proof.
  induction elems as [|l elems IH]; intros H; [reflexivity|].
  cbn [objects]. rewrite H by (left; reflexivity).
  rewrite IH by (intros; apply H; right; assumption). reflexivity.
Qed.

Lemma object_app (h ext : t) (l : loc) (o : Preschool.t) :
  object h l = Some o -> object (h ++ ext) l = Some o.
Proof.
  unfold object. intros H.
  destruct (nth_error h l) as [c|] eqn:E; [|discriminate].
  rewrite nth_error_app1 by (apply nth_error_Some; congruence).
  rewrite E. exact H.
Qed.

Lemma array_app (h ext : t) (a : loc) (e : list loc) :
  array h a = Some e -> array (h ++ ext) a = Some e.
Proof.
  unfold array. intros H.
  destruct (nth_error h a) as [c|] eqn:E; [|discriminate].
  rewrite nth_error_app1 by (apply nth_error_Some; congruence).
  rewrite E. exact H.
Qed.

Lemma objects_app (h ext : t) (elems : list loc) (os : list Preschool.t) :
  objects h elems = Some os -> objects (h ++ ext) elems = Some os.
Proof.
  revert os. induction elems as [|l elems IH]; intros os H; [exact H|].
  cbn [objects] in *.
  destruct (object h l) as [o|] eqn:Eo; [|discriminate].
  destruct (objects h elems) as [os'|] eqn:Eos; [|discriminate].
  rewrite (object_app _ _ _ _ Eo), (IH _ eq_refl). exact H.
Qed.

Lemma view_app (h ext : t) (a : loc) (rs : list Preschool.t) :
  view h a = Some rs -> view (h ++ ext) a = Some rs.
Proof.
  unfold view. intros H. destruct (array h a) as [e|] eqn:E; [|discriminate].
  rewrite (array_app _ _ _ _ E). apply objects_app, H.
Qed.

Lemma array_new (h : t) (c : cell) :
  nth_error (h ++ [c]) (List.length h) = Some c.
Proof.
  rewrite nth_error_app2 by lia. rewrite Nat.sub_diag. reflexivity.
Qed.

Lemma view_new (h : t) (elems : list loc) (rs : list Preschool.t) :
  objects h elems = Some rs ->
  view (h ++ [Arr elems]) (List.length h) = Some rs.
Proof.
  intros H. unfold view, array. rewrite array_new. apply objects_app, H.
Qed.

Lemma objects_length (h : t) (elems : list loc) (os : list Preschool.t) :
  objects h elems = Some os -> List.length elems = List.length os.
Proof.
  revert os. induction elems as [|l elems IH]; intros os H; cbn [objects] in H.
  - inversion H. reflexivity.
  - destruct (object h l); [|discriminate].
    destruct (objects h elems) as [os'|]; [|discriminate].
    inversion H. cbn [List.length]. f_equal. apply IH. reflexivity.
Qed.

(** *** Rules *)

Lemma triple_ret {A : Type} (a : A) (Q : A -> t -> Prop) (E : error -> t -> Prop) :
  triple (Q a) (ret a) Q E.
Proof. intros h H. exact H. Qed.

Lemma triple_seq {A B : Type} (P : t -> Prop) (c : comp A) (k : A -> comp B)
  (Q : A -> t -> Prop) (R : B -> t -> Prop) (E : error -> t -> Prop) :
  triple P c Q E -> (forall a, triple (Q a) (k a) R E) ->
  triple P (andThen c k) R E.
Proof.
  intros Hc Hk h HP. unfold andThen. specialize (Hc h HP).
  destruct (c h) as [[a|e] h']; [apply Hk, Hc | exact Hc].
Qed.

Lemma triple_weaken {A : Type} (P P' : t -> Prop) (c : comp A)
  (Q Q' : A -> t -> Prop) (E E' : error -> t -> Prop) :
  triple P c Q E ->
  (forall h, P' h -> P h) ->
  (forall a h, Q a h -> Q' a h) ->
  (forall e h, E e h -> E' e h) ->
  triple P' c Q' E'.
Proof.
  intros Hc HP HQ HE h H. specialize (Hc h (HP h H)).
  destruct (c h) as [[a|e] h']; auto.
Qed.


Lemma triple_never {A : Type} (P : t -> Prop) (c : comp A)
  (Q : A -> t -> Prop) (E : error -> t -> Prop) :
  triple P c Q never -> triple P c Q E.
Proof.
  intros H. apply (triple_weaken _ _ _ _ _ _ _ H); auto.
  intros e h []. 
Qed.

Lemma triple_both {A : Type} (P P' : t -> Prop) (c : comp A)
  (Q Q' : A -> t -> Prop) (E : error -> t -> Prop) :
  triple P c Q E -> triple P' c Q' (fun _ _ => True) ->
  triple (fun h => P h /\ P' h) c (fun a h => Q a h /\ Q' a h) E.
Proof.
  intros H H' h [HP HP']. specialize (H h HP). specialize (H' h HP').
  destruct (c h) as [[a|e] h']; auto.
Qed.

Lemma triple_exists {A X : Type} (P : X -> t -> Prop) (c : comp A)
  (Q : A -> t -> Prop) (E : error -> t -> Prop) :
  (forall x, triple (P x) c Q E) -> triple (fun h => exists x, P x h) c Q E.
Proof. intros H h [x Hx]. apply (H x h Hx). Qed.

Lemma triple_assuming {A : Type} (F : Prop) (P : t -> Prop) (c : comp A)
  (Q : A -> t -> Prop) (E : error -> t -> Prop) :
  (F -> triple P c Q E) -> triple (fun h => F /\ P h) c Q E.
Proof. intros H h [HF HP]. apply (H HF h HP). Qed.

(** *** Arrays as lists of pairs *)

Lemma paired_objects (h : t) (es : list (loc * Preschool.t)) :
  paired h es -> objects h (map fst es) = Some (map snd es).
Proof.
  induction 1 as [|e es He _ IH]; [reflexivity|].
  cbn [map objects]. rewrite He, IH. reflexivity.
Qed.

Lemma objects_paired (h : t) (elems : list loc) (os : list Preschool.t) :
  objects h elems = Some os ->
  paired h (combine elems os)
  /\ map fst (combine elems os) = elems
  /\ map snd (combine elems os) = os.
Proof.
  revert os. induction elems as [|l elems IH]; intros os H; cbn [objects] in H.
  - inversion H. repeat split. constructor.
  - destruct (object h l) as [o|] eqn:Eo; [|discriminate].
    destruct (objects h elems) as [os'|] eqn:Eos; [|discriminate].
    inversion H. subst os. destruct (IH os' eq_refl) as [H1 [H2 H3]].
    cbn [combine map fst snd]. rewrite H2, H3.
    repeat split. constructor; assumption.
Qed.

Lemma paired_app (h ext : t) (es : list (loc * Preschool.t)) :
  paired h es -> paired (h ++ ext) es.
Proof.
  unfold paired. apply Forall_impl. intros e. apply object_app.
Qed.

Lemma forEach_readObject (h : t) (elems : list loc) (os : list Preschool.t) :
  objects h elems = Some os -> forEach readObject elems h = (Normal os, h).
Proof.
  revert os. induction elems as [|l elems IH]; intros os H; cbn [objects] in H.
  - inversion H. reflexivity.
  - destruct (object h l) as [o|] eqn:Eo; [|discriminate].
    destruct (objects h elems) as [os'|] eqn:Eos; [|discriminate].
    inversion H. cbn [forEach]. unfold andThen, readObject at 1.
    rewrite Eo, (IH os' eq_refl). reflexivity.
Qed.

(** What [elements] returns on an array that refers to [rs]. *)
Lemma elements_run (h : t) (a : loc) (rs : list Preschool.t) :
  view h a = Some rs ->
  exists es,
    elements a h = (Normal es, h)
    /\ array h a = Some (map fst es)
    /\ paired h es
    /\ map snd es = rs.
Proof.
  unfold view. intros H. destruct (array h a) as [elems|] eqn:Ea; [|discriminate].
  destruct (objects_paired _ _ _ H) as [H1 [H2 H3]].
  exists (combine elems rs). unfold elements, andThen, readArray.
  rewrite Ea, (forEach_readObject _ _ _ H), H2. auto.
Qed.

Lemma view_pairs (h : t) (a : loc) (es : list (loc * Preschool.t)) :
  array h a = Some (map fst es) -> paired h es ->
  view h a = Some (map snd es).
Proof.
  intros Ha Hp. unfold view. rewrite Ha. apply paired_objects, Hp.
Qed.

Lemma view_new_pairs (h : t) (es : list (loc * Preschool.t)) :
  paired h es ->
  view (h ++ [Arr (map fst es)]) (List.length h) = Some (map snd es).
Proof.
  intros Hp. apply view_new, paired_objects, Hp.
Qed.

(** *** The array operations *)

Section Operations.

Variable h0 : t.

Lemma refers_sees (rs : list Preschool.t) (a : loc) (h : t) :
  refers h0 rs a h -> sees h0 rs a h.
Proof. intros [H1 [_ H2]]. split; assumption. Qed.

Lemma new_array_refers (h : t) (es : list (loc * Preschool.t)) :
  unchanged h0 h -> paired h es ->
  refers h0 (map snd es) (List.length h) (h ++ [Arr (map fst es)]).
Proof.
  intros Hu Hp. split; [apply unchanged_app, Hu|split].
  - apply unchanged_length, Hu.
  - apply view_new_pairs, Hp.
Qed.

Lemma spread_triple (rs : list Preschool.t) (a : loc) :
  triple (sees h0 rs a) (spread a) (refers h0 rs) never.
Proof.
  intros h [Hu Hv]. destruct (elements_run _ _ _ Hv) as [es [_ [Ha [Hp <-]]]].
  unfold spread, andThen, readArray, new. rewrite Ha.
  apply new_array_refers; assumption.
Qed.

Lemma filterM_pairs (f : Preschool.t -> completion bool)
  (es : list (loc * Preschool.t)) :
  match filterM (fun e => f (snd e)) es, filterM f (map snd es) with
  | Normal kept, Normal rs => map snd kept = rs /\ incl kept es
  | Throw e, Throw e' => e = e'
  | _, _ => False
  end.
Proof.
  induction es as [|e es IH]; cbn [filterM map].
  - split; [reflexivity | apply incl_refl].
  - destruct (f (snd e)) as [b|err]; cbn [bind]; [|reflexivity].
    destruct (filterM (fun e => f (snd e)) es) as [kept|err1],
             (filterM f (map snd es)) as [rs|err2];
      cbn [bind]; try contradiction; [|exact IH].
    destruct IH as [IH1 IH2]. destruct b; cbn [map].
    + split; [f_equal; exact IH1|].
      intros x [<-|Hx]; [left; reflexivity | right; apply IH2, Hx].
    + split; [exact IH1 | intros x Hx; right; apply IH2, Hx].
Qed.

Lemma paired_incl (h : t) (es kept : list (loc * Preschool.t)) :
  paired h es -> incl kept es -> paired h kept.
Proof.
  unfold paired. rewrite !Forall_forall. intros H Hi e He. apply H, Hi, He.
Qed.

Lemma filterArray_triple (f : Preschool.t -> completion bool)
  (rs : list Preschool.t) (a : loc) :
  triple (sees h0 rs a) (filterArray f a)
    (fun a' h' => exists rs', filterM f rs = Normal rs' /\ refers h0 rs' a' h')
    (fun e h' => filterM f rs = Throw e /\ unchanged h0 h').
Proof.
  intros h [Hu Hv]. destruct (elements_run _ _ _ Hv) as [es [He [Ha [Hp <-]]]].
  unfold filterArray, andThen, lift, new. rewrite He.
  pose proof (filterM_pairs f es) as Hf.
  destruct (filterM (fun e => f (snd e)) es) as [kept|err],
           (filterM f (map snd es)) as [rs'|err']; try contradiction.
  - destruct Hf as [<- Hi]. exists (map snd kept). split; [reflexivity|].
    apply new_array_refers; [assumption|].
    apply (paired_incl h es); assumption.
  - subst. split; [reflexivity | assumption].
Qed.

Lemma filterM_pure {A : Type} (f : A -> bool) (l : list A) :
  filterM (fun x => Normal (f x)) l = Normal (filter f l).
Proof.
  induction l as [|x l IH]; [reflexivity|].
  cbn [filterM filter bind]. rewrite IH. cbn [bind].
  destruct (f x); reflexivity.
Qed.

Lemma filterArrayBy_triple (f : Preschool.t -> bool)
  (rs : list Preschool.t) (a : loc) :
  triple (sees h0 rs a) (filterArrayBy f a) (refers h0 (filter f rs)) never.
Proof.
  unfold filterArrayBy.
  apply (triple_weaken _ _ _ _ _ _ _
           (filterArray_triple (fun p => Normal (f p)) rs a)).
  - auto.
  - intros a' h' [rs' [H1 H2]]. rewrite filterM_pure in H1.
    inversion H1. subst. exact H2.
  - intros e h' [H _]. rewrite filterM_pure in H. discriminate.
Qed.

Lemma insert_map_snd (cmp : Preschool.t -> Preschool.t -> float)
  (e : loc * Preschool.t) (es : list (loc * Preschool.t)) :
  map snd (JsArray.insert (fun x y => cmp (snd x) (snd y)) e es)
  = JsArray.insert cmp (snd e) (map snd es).
Proof.
  induction es as [|y es IH]; cbn [JsArray.insert map]; [reflexivity|].
  destruct (PrimFloat.ltb (cmp (snd y) (snd e)) 0); cbn [map];
    [rewrite IH|]; reflexivity.
Qed.

Lemma sort_map_snd (cmp : Preschool.t -> Preschool.t -> float)
  (es : list (loc * Preschool.t)) :
  map snd (JsArray.sort (fun x y => cmp (snd x) (snd y)) es)
  = JsArray.sort cmp (map snd es).
Proof.
  induction es as [|e es IH]; cbn [JsArray.sort fold_right map];
    [reflexivity|].
  rewrite insert_map_snd. f_equal. exact IH.
Qed.

Lemma sortArray_triple (cmp : Preschool.t -> Preschool.t -> float)
  (rs : list Preschool.t) (a : loc) :
  triple (refers h0 rs a) (sortArray cmp a)
    (fun a' h' => a' = a /\ refers h0 (JsArray.sort cmp rs) a h') never.
Proof.
  intros h [Hu [Hf Hv]].
  destruct (elements_run _ _ _ Hv) as [es [He [Ha [Hp <-]]]].
  unfold sortArray, andThen, write, ret. rewrite He.
  split; [reflexivity|]. split; [apply unchanged_put; assumption|].
  split; [assumption|].
  rewrite <- sort_map_snd. apply view_pairs.
  - apply (array_put_same _ _ _ _ Ha).
  - unfold paired. apply Forall_forall. intros e Hin.
    rewrite (object_put_array _ _ _ _ _ Ha).
    unfold paired in Hp. rewrite Forall_forall in Hp. apply Hp.
    apply (JsArrayFacts.sort_In (fun x y => cmp (snd x) (snd y)) es e), Hin.
Qed.

Lemma slice_map {A B : Type} (f : A -> B) (l : list A) (a b : Z) :
  JsArray.slice (map f l) a b = map f (JsArray.slice l a b).
Proof.
  unfold JsArray.slice. rewrite length_map, skipn_map, firstn_map.
  reflexivity.
Qed.

Lemma In_firstn {A : Type} (n : nat) (l : list A) (x : A) :
  In x (firstn n l) -> In x l.
Proof.
  revert l. induction n as [|n IH]; intros l H; [contradiction|].
  destruct l as [|y l]; [contradiction|].
  destruct H as [H|H]; [left; exact H | right; apply IH, H].
Qed.

Lemma In_skipn {A : Type} (n : nat) (l : list A) (x : A) :
  In x (skipn n l) -> In x l.
Proof.
  revert l. induction n as [|n IH]; intros l H; [exact H|].
  destruct l as [|y l]; [contradiction|]. right. apply IH, H.
Qed.

Lemma slice_incl {A : Type} (l : list A) (a b : Z) :
  incl (JsArray.slice l a b) l.
Proof.
  unfold JsArray.slice. intros x Hx.
  apply In_firstn in Hx. apply In_skipn in Hx. exact Hx.
Qed.

Lemma sliceArray_triple (rs : list Preschool.t) (a : loc) (start end_ : Z) :
  triple (sees h0 rs a) (sliceArray a start end_)
    (refers h0 (JsArray.slice rs start end_)) never.
Proof.
  intros h [Hu Hv]. destruct (elements_run _ _ _ Hv) as [es [_ [Ha [Hp <-]]]].
  unfold sliceArray, andThen, readArray, new. rewrite Ha.
  rewrite !slice_map. apply new_array_refers; [assumption|].
  apply (paired_incl h es); [assumption | apply slice_incl].
Qed.


Lemma forEach_new {A : Type} (g : A -> Preschool.t) (xs : list A) (h : t) :
  forEach (fun x => new (Obj (g x))) xs h
  = (Normal (List.seq (List.length h) (List.length xs)),
     h ++ map (fun x => Obj (g x)) xs).
Proof.
  revert h. induction xs as [|x xs IH]; intros h; cbn [forEach].
  - unfold ret. cbn [map List.length List.seq]. rewrite app_nil_r. reflexivity.
  - unfold andThen, new at 1. rewrite IH. unfold ret.
    rewrite length_app. cbn [List.length map List.seq].
    rewrite <- app_assoc. cbn [app]. rewrite Nat.add_1_r. reflexivity.
Qed.

Lemma objects_block (h ext : t) (os : list Preschool.t) :
  objects (h ++ map Obj os ++ ext) (List.seq (List.length h) (List.length os))
  = Some os.
Proof.
  revert h. induction os as [|o os IH]; intros h; [reflexivity|].
  cbn [List.length List.seq map objects app].
  assert (Ho : object (h ++ Obj o :: map Obj os ++ ext) (List.length h) = Some o).
  { unfold object. rewrite nth_error_app2 by lia. rewrite Nat.sub_diag.
    reflexivity. }
  rewrite Ho.
  specialize (IH (h ++ [Obj o])). rewrite length_app in IH.
  cbn [List.length] in IH. rewrite <- app_assoc in IH. cbn [app] in IH.
  replace (S (List.length h)) with (List.length h + 1) by lia.
  rewrite IH. reflexivity.
Qed.

(** A block of new objects and the new array of them. *)
Lemma new_block_refers {A : Type} (g : A -> Preschool.t) (xs : list A) (h : t) :
  unchanged h0 h ->
  let h1 := h ++ map (fun x => Obj (g x)) xs in
  let elems := List.seq (List.length h) (List.length xs) in
  refers h0 (map g xs) (List.length h1) (h1 ++ [Arr elems])
  /\ array (h1 ++ [Arr elems]) (List.length h1) = Some elems
  /\ Forall (fresh h0) elems.
Proof.
  intros Hu h1 elems. pose proof (unchanged_length _ _ Hu) as Hl.
  assert (Ha : array (h1 ++ [Arr elems]) (List.length h1) = Some elems).
  { unfold array. rewrite array_new. reflexivity. }
  split; [split; [|split]|split].
  - apply unchanged_app, unchanged_app, Hu.
  - unfold fresh, h1. rewrite length_app. lia.
  - unfold view. rewrite Ha. unfold h1, elems. rewrite <- app_assoc.
    rewrite <- (map_map g Obj), <- (length_map g xs).
    apply objects_block.
  - exact Ha.
  - apply Forall_forall. intros l Hl'. apply in_seq in Hl'.
    unfold fresh. lia.
Qed.

Lemma mapArray_triple (f : Preschool.t -> Preschool.t)
  (rs : list Preschool.t) (a : loc) :
  triple (sees h0 rs a) (mapArray f a)
    (fun a' h' =>
       refers h0 (map f rs) a' h'
       /\ exists elems, array h' a' = Some elems /\ Forall (fresh h0) elems)
    never.
Proof.
  intros h [Hu Hv]. destruct (elements_run _ _ _ Hv) as [es [He [_ [_ <-]]]].
  unfold mapArray, andThen. rewrite He, forEach_new. unfold new.
  destruct (new_block_refers (fun e => f (snd e)) es h Hu) as [H1 [H2 H3]].
  rewrite map_map. split; [exact H1|]. eexists. split; [exact H2 | exact H3].
Qed.

Lemma literal_triple (os : list Preschool.t) :
  triple (unchanged h0) (literal os) (refers h0 os) never.
Proof.
  intros h Hu. unfold literal, andThen. rewrite forEach_new. unfold new.
  destruct (new_block_refers (fun o => o) os h Hu) as [H1 _].
  rewrite map_id in H1. exact H1.
Qed.

Lemma tryCatch_triple {A : Type} (P : t -> Prop) (c : comp A)
  (handler : error -> comp A) (Q : A -> t -> Prop) :
  triple P c Q never -> triple P (tryCatch c handler) Q never.
Proof.
  intros Hc h HP. unfold tryCatch. specialize (Hc h HP).
  destruct (c h) as [[x|e] h']; [exact Hc | contradiction].
Qed.

(** A filter applied when its criterion is active. *)
Lemma stage_triple {X : Type} (value : option X) (truthy : X -> bool)
  (f : X -> Preschool.t -> bool) (rs : list Preschool.t) (a : loc) :
  triple (refers h0 rs a)
    match value with
    | Some v => if truthy v then filterArrayBy (f v) a else ret a
    | None => ret a
    end
    (refers h0
       match value with
       | Some v => if truthy v then filter (f v) rs else rs
       | None => rs
       end)
    never.
Proof.
  destruct value as [v|]; [destruct (truthy v)|];
    try (intros h H; exact H).
  apply (triple_weaken _ _ _ _ _ _ _ (filterArrayBy_triple (f v) rs a));
    auto using refers_sees.
Qed.

(** *** The flows *)

Variable warehouse : option loc.
Variable californiaPreschools : option (list Preschool.t).
Hypothesis canonical : holds h0 warehouse californiaPreschools.

Lemma getAllPreschools_triple :
  triple (eq h0) (Store.getAllPreschools warehouse)
    (sees h0 (Data.getAllPreschools californiaPreschools)) never.
Proof.
  intros h <-. unfold holds in canonical.
  destruct warehouse as [a|], californiaPreschools as [records|];
    try contradiction; cbn.
  - split; [apply unchanged_refl | exact canonical].
  - split; [apply (unchanged_app h0 h0), unchanged_refl|].
    apply (view_new h0 [] []). reflexivity.
Qed.

Lemma getMockPreschools_triple :
  triple (eq h0) (Store.getMockPreschools warehouse)
    (sees h0 (RecommendationService.getMockPreschools californiaPreschools))
    never.
Proof.
  unfold Store.getMockPreschools, RecommendationService.getMockPreschools.
  eapply triple_seq; [apply getAllPreschools_triple|].
  intros a h [Hu Hv]. destruct (elements_run _ _ _ Hv) as [es [_ [Ha [_ Hrs]]]].
  unfold andThen, readArray. rewrite Ha, length_map.
  rewrite <- Hrs, length_map.
  destruct (0 <? Z.of_nat (List.length es))%Z.
  - split; [exact Hu | rewrite Hrs; exact Hv].
  - pose proof (literal_triple RecommendationService.fallbackPreschools h Hu)
      as Hl.
    destruct (literal RecommendationService.fallbackPreschools h)
      as [[a'|e] h']; [apply refers_sees, Hl | exact Hl].
Qed.


(** *** Arrays of copies *)

Lemma filterM_incl {A : Type} (f : A -> completion bool) (l kept : list A) :
  filterM f l = Normal kept -> incl kept l.
Proof.
  revert kept. induction l as [|x l IH]; intros kept H; cbn [filterM] in H.
  - inversion H. apply incl_refl.
  - destruct (f x) as [b|e]; cbn [bind] in H; [|discriminate].
    destruct (filterM f l) as [r|e]; cbn [bind] in H; [|discriminate].
    inversion H. specialize (IH r eq_refl).
    destruct b; intros y Hy.
    + destruct Hy as [<-|Hy]; [left; reflexivity | right; apply IH, Hy].
    + right. apply IH, Hy.
Qed.

Lemma elements_fst (h : t) (a : loc) (elems : list loc) :
  array h a = Some elems ->
  match elements a h with
  | (Normal es, h') => h' = h /\ incl (map fst es) elems
  | (Throw _, _) => True
  end.
Proof.
  intros Ha. unfold elements, andThen, readArray. rewrite Ha.
  assert (Hh : forall ls, match forEach readObject ls h with
                          | (Normal _, h') => h' = h
                          | (Throw _, _) => True
                          end).
  { induction ls as [|l ls IH]; cbn [forEach]; [reflexivity|].
    unfold andThen, readObject at 1. destruct (object h l); [|exact I].
    destruct (forEach readObject ls h) as [[os|e] h'']; [|exact I].
    exact IH. }
  specialize (Hh elems).
  destruct (forEach readObject elems h) as [[os|e] h']; [|exact I].
  unfold ret. split; [exact Hh|].
  intros l Hl. apply in_map_iff in Hl. destruct Hl as [[l' o] [<- Hin]].
  apply in_combine_l in Hin. exact Hin.
Qed.

Lemma Forall_incl {A : Type} (P : A -> Prop) (l l' : list A) :
  Forall P l -> incl l' l -> Forall P l'.
Proof.
  rewrite !Forall_forall. intros H Hi x Hx. apply H, Hi, Hx.
Qed.

Lemma filterArray_copies (f : Preschool.t -> completion bool) (a : loc) :
  triple (ofCopies h0 a) (filterArray f a) (ofCopies h0) (fun _ _ => True).
Proof.
  intros h [elems [Ha Hf]]. pose proof (elements_fst h a elems Ha) as He.
  unfold filterArray, andThen, lift. 
  destruct (elements a h) as [[es|e] h']; [|exact I].
  destruct He as [-> Hi].
  destruct (filterM (fun e => f (snd e)) es) as [kept|e] eqn:Ek; [|exact I].
  unfold new. exists (map fst kept). split.
  - unfold array. rewrite array_new. reflexivity.
  - apply (Forall_incl _ elems); [assumption|].
    intros l Hl. apply Hi. apply in_map_iff in Hl.
    destruct Hl as [e [<- He]]. apply in_map, (filterM_incl _ _ _ Ek), He.
Qed.

Lemma sortArray_copies (cmp : Preschool.t -> Preschool.t -> float) (a : loc) :
  triple (ofCopies h0 a) (sortArray cmp a)
    (fun a' h' => ofCopies h0 a h') (fun _ _ => True).
Proof.
  intros h [elems [Ha Hf]]. pose proof (elements_fst h a elems Ha) as He.
  unfold sortArray, andThen, write, ret.
  destruct (elements a h) as [[es|e] h']; [|exact I].
  destruct He as [-> Hi].
  eexists. split; [apply (array_put_same _ _ _ _ Ha)|].
  apply (Forall_incl _ elems); [assumption|].
  intros l Hl. apply Hi. apply in_map_iff in Hl.
  destruct Hl as [e [<- He]]. apply in_map.
  apply (JsArrayFacts.sort_In (fun x y => cmp (snd x) (snd y)) es e), He.
Qed.

Lemma sliceArray_copies (a : loc) (start end_ : Z) :
  triple (ofCopies h0 a) (sliceArray a start end_) (ofCopies h0)
    (fun _ _ => True).
Proof.
  intros h [elems [Ha Hf]]. unfold sliceArray, andThen, readArray, new.
  rewrite Ha. eexists. split.
  - unfold array. rewrite array_new. reflexivity.
  - apply (Forall_incl _ elems); [assumption | apply slice_incl].
Qed.


(** *** The four flows *)

Lemma getFeaturedPreschools_triple (M : Math.t) (limit : Z) :
  triple (eq h0) (Store.getFeaturedPreschools M warehouse limit)
    (refers h0
       (JsArray.slice
          (JsArray.sort (RecommendationService.byPopularityDesc M)
             (RecommendationService.getMockPreschools californiaPreschools))
          0 limit))
    never.
Proof.
  unfold Store.getFeaturedPreschools.
  eapply triple_seq; [apply getMockPreschools_triple|]. intros a.
  eapply triple_seq; [apply spread_triple|]. intros c.
  eapply triple_seq; [apply sortArray_triple|]. intros s h [-> Hr].
  apply sliceArray_triple, refers_sees, Hr.
Qed.

Lemma getPreschoolsNearLocation_triple (M : Math.t)
  (latitude longitude maxDistance : float) :
  triple (eq h0)
    (Store.getPreschoolsNearLocation M warehouse latitude longitude maxDistance)
    (fun a h =>
       refers h0
         (Data.getPreschoolsNearLocation M californiaPreschools
            latitude longitude maxDistance) a h
       /\ ofCopies h0 a h)
    never.
Proof.
  unfold Store.getPreschoolsNearLocation, Data.getPreschoolsNearLocation.
  set (all := Data.getAllPreschools californiaPreschools).
  set (located := filter Data.hasCoordinates all).
  set (measured := map (Data.attachDistance M latitude longitude) located).
  set (near := filter (Data.withinDistance maxDistance) measured).
  apply tryCatch_triple.
  eapply triple_seq; [apply getAllPreschools_triple|]. intros a.
  eapply triple_seq; [apply filterArrayBy_triple|]. intros b.
  eapply triple_seq.
  { apply (triple_weaken _ _ _ _ _ _ _
             (mapArray_triple (Data.attachDistance M latitude longitude)
                located b)).
    - apply refers_sees.
    - intros x h H. exact H.
    - auto. }
  intros c. cbv beta.
  eapply triple_seq.
  { apply (triple_weaken _ _ _ _ _ _ _
             (triple_both _ _ _ _ _ _
                (filterArrayBy_triple (Data.withinDistance maxDistance)
                   measured c)
                (filterArray_copies
                   (fun p => Normal (Data.withinDistance maxDistance p)) c))).
    - intros h [Hr Hc]. split; [apply refers_sees, Hr | exact Hc].
    - intros x h H. exact H.
    - auto. }
  intros d. cbv beta.
  apply (triple_weaken _ _ _ _ _ _ _
           (triple_both _ _ _ _ _ _
              (sortArray_triple Data.byDistance near d)
              (sortArray_copies Data.byDistance d))).
  - auto.
  - intros x h [[-> Hr] Hc]. split; assumption.
  - auto.
Qed.

Lemma getNearbyPreschools_triple (M : Math.t)
  (latitude longitude radius : float) (limit : Z) :
  triple (eq h0)
    (Store.getNearbyPreschools M warehouse latitude longitude radius limit)
    (fun a h =>
       refers h0
         (JsArray.slice
            (Data.getPreschoolsNearLocation M californiaPreschools
               latitude longitude radius) 0 limit) a h
       /\ ofCopies h0 a h)
    never.
Proof.
  unfold Store.getNearbyPreschools.
  eapply triple_seq; [apply getPreschoolsNearLocation_triple|]. intros a.
  cbv beta.
  apply (triple_weaken _ _ _ _ _ _ _
           (triple_both _ _ _ _ _ _
              (sliceArray_triple
                 (Data.getPreschoolsNearLocation M californiaPreschools
                    latitude longitude radius) a 0 limit)
              (sliceArray_copies a 0 limit)));
    auto.
  intros h [Hr Hc]. split; [apply refers_sees, Hr | exact Hc].
Qed.

Lemma getRecommendations_triple (userId : string)
  (preferences : Preferences.t) (limit : Z) :
  triple (eq h0)
    (Store.getRecommendations warehouse userId preferences limit)
    (fun a h =>
       exists rs,
         RecommendationService.getRecommendations californiaPreschools userId
           preferences limit = Normal rs
         /\ refers h0 rs a h /\ ofCopies h0 a h)
    (fun e h =>
       RecommendationService.getRecommendations californiaPreschools userId
         preferences limit = Throw e
       /\ unchanged h0 h).
Proof.
  unfold Store.getRecommendations, RecommendationService.getRecommendations.
  eapply triple_seq; [apply triple_never, getMockPreschools_triple|].
  intros a.
  eapply triple_seq; [apply triple_never, spread_triple|]. intros b.
  set (records := RecommendationService.getMockPreschools californiaPreschools).
  set (located :=
         match Preferences.location preferences with
         | Some location =>
             if JsString.truthy location
             then filterM (RecommendationService.matchesLocation location)
                    records
             else Normal records
         | None => Normal records
         end).
  eapply (triple_seq _ _ _
            (fun c h => exists rs, located = Normal rs /\ refers h0 rs c h)).
  - unfold located.
    destruct (Preferences.location preferences) as [location|];
      [destruct (JsString.truthy location)|].
    + apply (triple_weaken _ _ _ _ _ _ _
               (filterArray_triple
                  (RecommendationService.matchesLocation location) records b));
        [apply refers_sees | auto |].
      intros e h [-> Hu]. split; [reflexivity | exact Hu].
    + intros h Hr. exists records. split; [reflexivity | exact Hr].
    + intros h Hr. exists records. split; [reflexivity | exact Hr].
  - intros c. apply triple_exists. intros rs.
    apply triple_assuming. intros Hloc. rewrite Hloc. cbn [bind].
    apply triple_never.
    eapply triple_seq;
      [apply (stage_triple (Preferences.minRating preferences)
                JsNumber.truthy RecommendationService.ratingAtLeast)|].
    intros d.
    eapply triple_seq;
      [apply (stage_triple (Preferences.curriculum preferences)
                JsString.truthy RecommendationService.curriculumIncludes)|].
    intros e.
    eapply triple_seq; [apply sortArray_triple|]. intros s.
    eapply triple_seq.
    { eapply triple_weaken;
        [eapply (sliceArray_triple _ e 0 limit)
        | intros h [_ Hr]; apply refers_sees, Hr
        | intros x h H; exact H
        | auto]. }
    intros f.
    eapply triple_weaken;
      [eapply (mapArray_triple
                 (RecommendationService.attachReasons preferences) _ f)
      | apply refers_sees
      |
      | auto].
    intros x h [Hr Hc]. eexists. split; [reflexivity|]. split; assumption.
Qed.


Lemma searchPreschools_triple (service : RecommendationService.t)
  (query : option string) (filters : Filters.t) (page limit : Z) :
  triple (eq h0)
    (Store.searchPreschools
       {| PreschoolService.recommendationService := Some service |}
       warehouse query filters page limit)
    (fun pg h =>
       let r :=
         PreschoolService.paginate
           (PreschoolService.applyFilters
              (RecommendationService.getMockPreschools californiaPreschools)
              query filters) page limit in
       unchanged h0 h
       /\ view h (results pg) = Some (SearchResult.results r)
       /\ totalCount pg = SearchResult.totalCount r
       /\ pageNumber pg = SearchResult.page r
       /\ totalPages pg = SearchResult.totalPages r)
    never.
Proof.
  unfold Store.searchPreschools, PreschoolService.applyFilters.
  cbn [PreschoolService.recommendationService].
  eapply triple_seq; [apply getMockPreschools_triple|]. intros a.
  eapply triple_seq; [apply spread_triple|]. intros b.
  eapply triple_seq;
    [apply (stage_triple query JsString.truthy
              (fun q => PreschoolService.queryMatches (JsString.toLowerCase q)))|].
  intros c.
  eapply triple_seq;
    [apply (stage_triple (Filters.minRating filters) JsNumber.truthy
              PreschoolService.ratingAtLeast)|].
  intros d.
  eapply triple_seq;
    [apply (stage_triple (Filters.ageRange filters) JsString.truthy
              PreschoolService.ageRangeIncludes)|].
  intros e.
  eapply triple_seq;
    [apply (stage_triple (Filters.curriculum filters) JsString.truthy
              PreschoolService.curriculumIncludes)|].
  intros f.
  eapply triple_seq;
    [apply (stage_triple (Filters.priceRange filters) JsString.truthy
              PreschoolService.tuitionIncludes)|].
  intros g h Hr. pose proof (refers_sees _ _ _ Hr) as Hs.
  destruct Hs as [Hu Hv]. destruct (elements_run _ _ _ Hv) as [es [_ [Ha [_ Hrs]]]].
  unfold andThen at 1. unfold readArray at 1. rewrite Ha.
  pose proof (sliceArray_triple _ g ((page - 1) * limit) (page * limit) h
                (conj Hu Hv)) as Hsl.
  unfold andThen.
  destruct (sliceArray g ((page - 1) * limit) (page * limit) h)
    as [[p|err] h']; [|contradiction].
  destruct Hsl as [Hu' [_ Hv']]. unfold ret.
  cbn [results totalCount pageNumber totalPages PreschoolService.paginate
         SearchResult.results SearchResult.totalCount SearchResult.page
         SearchResult.totalPages].
  rewrite length_map, <- (length_map snd es), Hrs.
  repeat split; assumption.
Qed.

End Operations.

Lemma unchanged_split (h0 h : t) :
  unchanged h0 h -> h = h0 ++ skipn (List.length h0) h.
Proof.
  unfold unchanged. intros H.
  rewrite <- (firstn_skipn (List.length h0) h) at 1. rewrite H. reflexivity.
Qed.

Lemma holds_unchanged (h0 h : t) (warehouse : option loc)
  (californiaPreschools : option (list Preschool.t)) :
  holds h0 warehouse californiaPreschools -> unchanged h0 h ->
  holds h warehouse californiaPreschools.
Proof.
  unfold holds. intros H Hu.
  destruct warehouse as [a|], californiaPreschools as [rs|]; auto.
  rewrite (unchanged_split _ _ Hu). apply view_app, H.
Qed.

End StoreFacts.

(** C9.  From a store that holds the canonical record set, each of the
    four flows leaves every cell of that store as it was: the canonical
    array, and so the order of the set, and every canonical record.  Its
    result is the result of the flow on values, read through the store.
    The records the recommendation and nearby flows return, which carry
    [matchReasons] and [distance], are objects allocated by the flow. *)
Theorem flows_leave_store_unchanged :
  forall (h0 : Store.t) (warehouse : option Store.loc)
         (californiaPreschools : option (list Preschool.t)),
    Store.holds h0 warehouse californiaPreschools ->
    forall (M : Math.t) (service : RecommendationService.t)
           (query : option string) (filters : Filters.t) (page limit : Z)
           (userId : string) (preferences : Preferences.t)
           (latitude longitude radius : float),
      (let run :=
         Store.searchPreschools
           {| PreschoolService.recommendationService := Some service |}
           warehouse query filters page limit h0 in
       Store.agreesOnPage h0
         (PreschoolService.searchPreschools
            {| PreschoolService.recommendationService := Some service |}
            californiaPreschools query filters page limit) run
       /\ Store.holds (snd run) warehouse californiaPreschools)
      /\ (let run :=
            Store.getRecommendations warehouse userId preferences limit h0 in
          Store.agrees h0
            (RecommendationService.getRecommendations californiaPreschools
               userId preferences limit) run
          /\ Store.copies h0 run
          /\ Store.holds (snd run) warehouse californiaPreschools)
      /\ (let run := Store.getFeaturedPreschools M warehouse limit h0 in
          Store.agrees h0
            (RecommendationService.getFeaturedPreschools M
               californiaPreschools limit) run
          /\ Store.holds (snd run) warehouse californiaPreschools)
      /\ (let run :=
            Store.getNearbyPreschools M warehouse latitude longitude radius
              limit h0 in
          Store.agrees h0
            (RecommendationService.getNearbyPreschools M californiaPreschools
               latitude longitude radius limit) run
          /\ Store.copies h0 run
          /\ Store.holds (snd run) warehouse californiaPreschools).
Proof.
  intros h0 warehouse w Hh M service query filters page limit userId
    preferences latitude longitude radius.
  split; [|split; [|split]]; cbv zeta.
  - pose proof (StoreFacts.searchPreschools_triple h0 warehouse w Hh service
                  query filters page limit h0 eq_refl) as H.
    unfold Store.agreesOnPage.
    destruct (Store.searchPreschools _ warehouse query filters page limit h0)
      as [[pg|e] h]; [|contradiction].
    cbv zeta in H. destruct H as [Hu [Hv [H1 [H2 H3]]]]. cbn [fst snd].
    cbn [PreschoolService.searchPreschools
           PreschoolService.recommendationService].
    repeat split; try assumption.
    apply (StoreFacts.holds_unchanged h0); assumption.
  - pose proof (StoreFacts.getRecommendations_triple h0 warehouse w Hh userId
                  preferences limit h0 eq_refl) as H.
    unfold Store.agrees, Store.copies.
    destruct (Store.getRecommendations warehouse userId preferences limit h0)
      as [[a|e] h]; cbn [fst snd].
    + destruct H as [rs [-> [[Hu [_ Hv]] Hc]]].
      repeat split; try assumption.
      * destruct Hc as [elems [-> Hf]]. exact Hf.
      * apply (StoreFacts.holds_unchanged h0); assumption.
    + destruct H as [-> Hu]. repeat split; try assumption.
      apply (StoreFacts.holds_unchanged h0); assumption.
  - pose proof (StoreFacts.getFeaturedPreschools_triple h0 warehouse w Hh M
                  limit h0 eq_refl) as H.
    unfold Store.agrees.
    destruct (Store.getFeaturedPreschools M warehouse limit h0)
      as [[a|e] h]; [|contradiction]. cbn [fst snd].
    destruct H as [Hu [_ Hv]]. repeat split; try assumption.
    apply (StoreFacts.holds_unchanged h0); assumption.
  - pose proof (StoreFacts.getNearbyPreschools_triple h0 warehouse w Hh M
                  latitude longitude radius limit h0 eq_refl) as H.
    unfold Store.agrees, Store.copies.
    destruct (Store.getNearbyPreschools M warehouse latitude longitude radius
                limit h0) as [[a|e] h]; [|contradiction]. cbn [fst snd].
    destruct H as [[Hu [_ Hv]] Hc]. repeat split; try assumption.
    + destruct Hc as [elems [-> Hf]]. exact Hf.
    + apply (StoreFacts.holds_unchanged h0); assumption.
Qed.

(** The theorem applies to the store of two records, and to the nearby
    flow from the point (37, -122). *)
Lemma flows_leave_store_unchanged_witness :
  Store.holds Store.example (Some 2%nat)
    (Some [NearbyCriterion.fiveMilesNorth; NearbyCriterion.onEquator])
  /\ Store.unchanged Store.example
       (snd (Store.getNearbyPreschools Math.firstOrder (Some 2%nat)
               37 (-122) 5 5 Store.example)).
Proof.
  assert (H : Store.holds Store.example (Some 2%nat)
                (Some [NearbyCriterion.fiveMilesNorth;
                       NearbyCriterion.onEquator])) by reflexivity.
  split; [exact H|].
  destruct (flows_leave_store_unchanged Store.example (Some 2%nat) _ H
              Math.firstOrder RecommendationService.Instance None
              Filters.empty 1 5 "u1" Preferences.empty 37 (-122) 5)
    as [_ [_ [_ [[Hu _] _]]]].
  exact Hu.
Defined.

(* ================================================================== *)
(** * Part III: further properties of the services and the data module *)
(* ================================================================== *)

(** ** Records by county *)

Lemma filterM_total {A : Type} (f : A -> completion bool) (g : A -> bool)
  (l : list A) :
  (forall a, In a l -> f a = Normal (g a)) ->
  filterM f l = Normal (filter g l).
Proof.
  induction l as [|x l IH]; intros H; [reflexivity|].
  cbn [filterM filter]. rewrite (H x) by (left; reflexivity).
  rewrite IH by (intros a Ha; apply H; right; assumption).
  cbn. destruct (g x); reflexivity.
Qed.

Lemma filterM_none {A : Type} (f : A -> completion bool) (l : list A) :
  (forall a, In a l -> f a = Normal false \/ exists e, f a = Throw e) ->
  filterM f l = Normal [] \/ exists e, filterM f l = Throw e.
Proof.
  induction l as [|x l IH]; intros H; [left; reflexivity|].
  cbn [filterM].
  destruct (H x (or_introl eq_refl)) as [Hx|[e Hx]]; rewrite Hx; cbn.
  - destruct IH as [IH|[e IH]].
    + intros a Ha. apply H. right. assumption.
    + rewrite IH. left. reflexivity.
    + rewrite IH. right. exists e. reflexivity.
  - right. exists e. reflexivity.
Qed.

Lemma inCounty_sameCounty (county : string) (p : Preschool.t) :
  Data.inCounty (Some county) p
  = Normal (CountyCriterion.sameCounty county p).
Proof.
  unfold Data.inCounty, CountyCriterion.sameCounty.
  destruct (Preschool.county p) as [c|]; [|reflexivity].
  destruct (JsString.truthy c); reflexivity.
Qed.

(** X1.  [getPreschoolsByCounty] returns, in the order of the warehouse,
    the records that name a county equal to the one asked for, letter case
    apart; two spellings of a county that differ in letter case give the
    same records. *)
Theorem getPreschoolsByCounty_spec :
  forall (californiaPreschools : option (list Preschool.t)) (county : string),
    Data.getPreschoolsByCounty californiaPreschools (Some county)
    = filter (CountyCriterion.sameCounty county)
        (Data.getAllPreschools californiaPreschools)
    /\ (forall p,
          In p (Data.getPreschoolsByCounty californiaPreschools (Some county))
          <-> In p (Data.getAllPreschools californiaPreschools)
              /\ exists c,
                   Preschool.county p = Some c
                   /\ c <> ""
                   /\ JsString.toLowerCase c = JsString.toLowerCase county)
    /\ (forall spelling,
          JsString.toLowerCase spelling = JsString.toLowerCase county ->
          Data.getPreschoolsByCounty californiaPreschools (Some spelling)
          = Data.getPreschoolsByCounty californiaPreschools (Some county)).
Proof.
  intros w county.
  assert (H : forall c, Data.getPreschoolsByCounty w (Some c)
                        = filter (CountyCriterion.sameCounty c)
                            (Data.getAllPreschools w)).
  { intros c. unfold Data.getPreschoolsByCounty.
    rewrite (filterM_total _ (CountyCriterion.sameCounty c)); [reflexivity|].
    intros a _. apply inCounty_sameCounty. }
  split; [apply H|split].
  - intros p. rewrite H, filter_In. unfold CountyCriterion.sameCounty.
    split.
    + intros [Hin Hc]. split; [assumption|].
      destruct (Preschool.county p) as [c|]; [|discriminate].
      apply andb_true_iff in Hc. destruct Hc as [Ht He].
      exists c. split; [reflexivity|]. split.
      * intros ->. discriminate.
      * apply String.eqb_eq. assumption.
    + intros [Hin [c [Hc [Hne He]]]]. split; [assumption|].
      rewrite Hc. apply andb_true_iff. split.
      * destruct c; [contradiction|reflexivity].
      * apply String.eqb_eq. assumption.
  - intros spelling He. rewrite !H. apply filter_ext. intros p.
    unfold CountyCriterion.sameCounty. rewrite He. reflexivity.
Qed.

(** X2.  Asked for no county ([undefined]) or for the empty name,
    [getPreschoolsByCounty] returns the empty array: the [TypeError] of the
    missing name is caught, and a record whose county is the empty string
    is not one of the empty name. *)
Theorem getPreschoolsByCounty_no_county :
  forall californiaPreschools : option (list Preschool.t),
    Data.getPreschoolsByCounty californiaPreschools None = []
    /\ Data.getPreschoolsByCounty californiaPreschools (Some "") = [].
Proof.
  intros w. split.
  - unfold Data.getPreschoolsByCounty.
    destruct (filterM_none (Data.inCounty None) (Data.getAllPreschools w))
      as [H|[e H]]; [|rewrite H; reflexivity..].
    intros p _. unfold Data.inCounty.
    destruct (Preschool.county p) as [c|]; [|left; reflexivity].
    destruct (JsString.truthy c); [right|left; reflexivity].
    eexists. reflexivity.
  - unfold Data.getPreschoolsByCounty.
    rewrite (filterM_total _ (fun _ => false)).
    + induction (Data.getAllPreschools w) as [|x l IH]; [reflexivity|exact IH].
    + intros p _. rewrite inCounty_sameCounty.
      unfold CountyCriterion.sameCounty.
      destruct (Preschool.county p) as [c|]; [|reflexivity].
      destruct c as [|a c]; [reflexivity|]. reflexivity.
Qed.

(** ** Looking a record up by its identifier *)

Lemma find_first {A : Type} (f : A -> bool) (l : list A) (a : A) :
  find f l = Some a <->
  exists before after,
    l = (before ++ a :: after)%list /\ f a = true
    /\ forall b, In b before -> f b = false.
Proof.
  induction l as [|x l IH]; cbn [find].
  - split; [discriminate|]. intros [before [after [H _]]].
    destruct before; discriminate.
  - destruct (f x) eqn:E.
    + split.
      * intros [= <-]. exists [], l. cbn.
        split; [reflexivity|]. split; [assumption|]. intros b [].
      * intros [before [after [H [Ha Hb]]]].
        destruct before as [|b before]; cbn in H; injection H as -> ->.
        -- reflexivity.
        -- rewrite (Hb b (or_introl eq_refl)) in E. discriminate.
    + rewrite IH. split.
      * intros [before [after [-> [Ha Hb]]]].
        exists (x :: before), after. cbn. split; [reflexivity|].
        split; [assumption|]. intros b [<-|Hin]; auto.
      * intros [before [after [H [Ha Hb]]]].
        destruct before as [|b before]; cbn in H; injection H as -> ->.
        -- rewrite Ha in E. discriminate.
        -- exists before, after. split; [reflexivity|].
           split; [assumption|]. intros c Hc. apply Hb. right. assumption.
Qed.

Lemma find_unique {A : Type} (key : A -> string) (l : list A) (a : A) :
  NoDup (map key l) -> In a l ->
  find (fun b => String.eqb (key b) (key a)) l = Some a.
Proof.
  induction l as [|x l IH]; intros Hn Hin; [contradiction|].
  cbn [map] in Hn. inversion Hn as [|k ks Hx Hn']; subst.
  cbn [find]. destruct Hin as [->|Hin].
  - rewrite String.eqb_refl. reflexivity.
  - destruct (String.eqb_spec (key x) (key a)) as [E|E].
    + exfalso. apply Hx. rewrite E. apply in_map. assumption.
    + apply IH; assumption.
Qed.

Lemma find_some_key {A : Type} (key : A -> string) (l : list A) (a : A) :
  In a l ->
  exists b, find (fun b => String.eqb (key b) (key a)) l = Some b
            /\ In b l /\ key b = key a.
Proof.
  intros Hin.
  destruct (find (fun b => String.eqb (key b) (key a)) l) as [b|] eqn:E.
  - exists b. apply find_some in E as E'. destruct E' as [Hb He].
    apply String.eqb_eq in He. auto.
  - exfalso. apply (find_none _ _ E) in Hin.
    rewrite String.eqb_refl in Hin. discriminate.
Qed.

(** X3.  With the recommendation service injected, [getPreschoolDetails]
    returns a record exactly when it is the first record of the set with
    the identifier asked for, and throws the error that names the
    identifier exactly when no record has it. *)
Theorem getPreschoolDetails_spec :
  forall (service : RecommendationService.t)
         (californiaPreschools : option (list Preschool.t))
         (preschoolId : string),
    (forall p,
       PreschoolService.getPreschoolDetails
         {| PreschoolService.recommendationService := Some service |}
         californiaPreschools preschoolId = Normal p
       <-> exists before after,
             RecommendationService.getMockPreschools californiaPreschools
             = (before ++ p :: after)%list
             /\ Preschool.id p = preschoolId
             /\ forall q, In q before -> Preschool.id q <> preschoolId)
    /\ ((forall q,
           In q (RecommendationService.getMockPreschools californiaPreschools) ->
           Preschool.id q <> preschoolId)
        <-> PreschoolService.getPreschoolDetails
              {| PreschoolService.recommendationService := Some service |}
              californiaPreschools preschoolId
            = Throw (Error ("Preschool with ID " ++ preschoolId ++ " not found"))).
Proof.
  intros service w preschoolId.
  unfold PreschoolService.getPreschoolDetails.
  cbn [PreschoolService.recommendationService].
  set (records := RecommendationService.getMockPreschools w).
  split.
  - intros p. split.
    + intros H.
      destruct (find _ records) as [q|] eqn:E; [|discriminate].
      injection H as ->. apply find_first in E.
      destruct E as [before [after [H1 [H2 H3]]]].
      exists before, after. split; [assumption|]. split.
      * apply String.eqb_eq. assumption.
      * intros q Hq. apply String.eqb_neq. apply H3. assumption.
    + intros [before [after [H1 [H2 H3]]]].
      replace (find _ records) with (Some p); [reflexivity|].
      symmetry. apply find_first. exists before, after.
      split; [assumption|]. split.
      * apply String.eqb_eq. assumption.
      * intros q Hq. apply String.eqb_neq. apply H3. assumption.
  - split.
    + intros H.
      destruct (find _ records) as [q|] eqn:E; [|reflexivity].
      apply find_some in E. destruct E as [Hin He].
      apply String.eqb_eq in He. exfalso. apply (H q Hin He).
    + intros H q Hin He.
      destruct (find _ records) as [r|] eqn:E; [discriminate|].
      apply (find_none _ _ E) in Hin. cbv beta in Hin.
      rewrite He, String.eqb_refl in Hin. discriminate.
Qed.

(** ** From a listing back to the record *)

Lemma slice_subset {A : Type} (l : list A) (a b : Z) (x : A) :
  In x (JsArray.slice l a b) -> In x l.
Proof.
  unfold JsArray.slice. intros H.
  rewrite <- (firstn_skipn
                (Z.to_nat (JsArray.relativeIndex (Z.of_nat (List.length l)) a)) l).
  apply in_or_app. right.
  set (rest := skipn _ l) in *.
  rewrite <- (firstn_skipn
                (Z.to_nat
                   (JsArray.relativeIndex (Z.of_nat (List.length l)) b
                    - JsArray.relativeIndex (Z.of_nat (List.length l)) a))
                rest).
  apply in_or_app. left. exact H.
Qed.

Lemma filterM_subset {A : Type} (f : A -> completion bool) (l r : list A) :
  filterM f l = Normal r -> forall x, In x r -> In x l.
Proof.
  revert r. induction l as [|y l IH]; intros r H x Hx; cbn [filterM] in H.
  - injection H as <-. contradiction.
  - destruct (f y) as [b|e]; [|discriminate]. cbn [bind] in H.
    destruct (filterM f l) as [r'|e]; [|discriminate]. cbn [bind] in H.
    injection H as <-.
    destruct b; [destruct Hx as [<-|Hx]|];
      [left; reflexivity | right; eauto | right; eauto].
Qed.

Lemma applyFilters_subset (records : list Preschool.t)
  (query : option string) (filters : Filters.t) (p : Preschool.t) :
  In p (PreschoolService.applyFilters records query filters) -> In p records.
Proof.
  rewrite applyFilters_satisfies. intros H. apply filter_In in H. apply H.
Qed.

Lemma getPreschoolDetails_of_record (service : RecommendationService.t)
  (californiaPreschools : option (list Preschool.t)) (p : Preschool.t) :
  In p (RecommendationService.getMockPreschools californiaPreschools) ->
  exists q,
    PreschoolService.getPreschoolDetails
      {| PreschoolService.recommendationService := Some service |}
      californiaPreschools (Preschool.id p) = Normal q
    /\ In q (RecommendationService.getMockPreschools californiaPreschools)
    /\ Preschool.id q = Preschool.id p
    /\ (NoDup (map Preschool.id
                 (RecommendationService.getMockPreschools californiaPreschools)) ->
        q = p).
Proof.
  intros Hin. unfold PreschoolService.getPreschoolDetails.
  cbn [PreschoolService.recommendationService].
  destruct (find_some_key Preschool.id _ p Hin) as [q [Hq [Hq1 Hq2]]].
  exists q. rewrite Hq. split; [reflexivity|]. split; [assumption|].
  split; [assumption|].
  intros Hn. pose proof (find_unique Preschool.id _ p Hn Hin) as Hu.
  rewrite Hq in Hu. injection Hu as ->. reflexivity.
Qed.

(** X4.  Every record that the search flow, the featured listing or the
    favourites listing returns is found again by [getPreschoolDetails]
    under its identifier: the lookup returns a record with that
    identifier, and the listed record itself when no two records of the
    set share an identifier. *)
Theorem listed_record_is_found :
  forall (M : Math.t) (service : RecommendationService.t)
         (californiaPreschools : option (list Preschool.t))
         (query : option string) (filters : Filters.t) (page limit : Z)
         (p : Preschool.t),
    (exists r,
       PreschoolService.searchPreschools
         {| PreschoolService.recommendationService := Some service |}
         californiaPreschools query filters page limit = Normal r
       /\ In p (SearchResult.results r))
    \/ (exists l,
          RecommendationService.getFeaturedPreschools M californiaPreschools
            limit = Normal l
          /\ In p l)
    \/ (exists l,
          PreschoolService.getFavoritePreschools
            {| PreschoolService.recommendationService := Some service |}
            californiaPreschools = Normal l
          /\ In p l) ->
    exists q,
      PreschoolService.getPreschoolDetails
        {| PreschoolService.recommendationService := Some service |}
        californiaPreschools (Preschool.id p) = Normal q
      /\ Preschool.id q = Preschool.id p
      /\ (NoDup (map Preschool.id
                   (RecommendationService.getMockPreschools
                      californiaPreschools)) ->
          q = p).
Proof.
  intros M service w query filters page limit p H.
  assert (Hin : In p (RecommendationService.getMockPreschools w)).
  { destruct H as [[r [H Hp]]|[[l [H Hp]]|[l [H Hp]]]].
    - unfold PreschoolService.searchPreschools in H.
      cbn [PreschoolService.recommendationService] in H.
      injection H as <-. cbn [PreschoolService.paginate SearchResult.results] in Hp.
      apply slice_subset in Hp. apply applyFilters_subset in Hp. exact Hp.
    - unfold RecommendationService.getFeaturedPreschools in H.
      injection H as <-. apply slice_subset in Hp.
      apply JsArrayFacts.sort_In in Hp. exact Hp.
    - unfold PreschoolService.getFavoritePreschools in H.
      cbn [PreschoolService.recommendationService] in H.
      injection H as <-. apply slice_subset in Hp. exact Hp. }
  destruct (getPreschoolDetails_of_record service w p Hin) as [q [H1 [_ [H2 H3]]]].
  exists q. auto.
Qed.

(** The second page of a search over the built-in records, in pages of
    two, holds the third of them, which is found under its identifier. *)
Lemma listed_record_is_found_witness :
  PreschoolService.getPreschoolDetails
    {| PreschoolService.recommendationService :=
         Some RecommendationService.Instance |}
    None "p3" = Normal RecommendationService.mock_p3.
Proof.
  destruct (listed_record_is_found Math.firstOrder
              RecommendationService.Instance None None Filters.empty 2 2
              RecommendationService.mock_p3) as [q [H1 [_ H2]]].
  - left. eexists. split; [reflexivity|]. left. reflexivity.
  - rewrite <- H2; [exact H1|].
    repeat constructor; cbn; intuition discriminate.
Defined.

Lemma getRecommendations_from
  (californiaPreschools : option (list Preschool.t)) (userId : string)
  (preferences : Preferences.t) (limit : Z) (rs : list Preschool.t) :
  RecommendationService.getRecommendations californiaPreschools userId
    preferences limit = Normal rs ->
  forall p, In p rs ->
    exists q,
      In q (RecommendationService.getMockPreschools californiaPreschools)
      /\ p = RecommendationService.attachReasons preferences q.
Proof.
  unfold RecommendationService.getRecommendations. intros H p Hp.
  set (records := RecommendationService.getMockPreschools californiaPreschools) in *.
  match type of H with
  | bind ?c _ = _ => destruct c as [located|e] eqn:Hloc; [|discriminate]
  end.
  cbn [bind] in H. injection H as <-.
  apply in_map_iff in Hp. destruct Hp as [q [<- Hq]].
  exists q. split; [|reflexivity].
  apply slice_subset in Hq. apply JsArrayFacts.sort_In in Hq.
  assert (Hsub : forall x, In x located -> In x records).
  { destruct (Preferences.location preferences) as [location|].
    - destruct (JsString.truthy location).
      + apply (filterM_subset _ _ _ Hloc).
      + injection Hloc as <-. auto.
    - injection Hloc as <-. auto. }
  apply Hsub.
  destruct (Preferences.curriculum preferences) as [c|];
    [destruct (JsString.truthy c); [apply filter_In in Hq; destruct Hq as [Hq _]|]|];
    (destruct (Preferences.minRating preferences) as [m|];
     [destruct (JsNumber.truthy m); [apply filter_In in Hq; destruct Hq as [Hq _]|]|]);
    exact Hq.
Qed.

Lemma getPreschoolsNearLocation_from (M : Math.t)
  (californiaPreschools : option (list Preschool.t))
  (latitude longitude maxDistance : float) (p : Preschool.t) :
  In p (Data.getPreschoolsNearLocation M californiaPreschools latitude
          longitude maxDistance) ->
  exists q,
    In q (Data.getAllPreschools californiaPreschools)
    /\ p = Data.attachDistance M latitude longitude q.
Proof.
  unfold Data.getPreschoolsNearLocation. intros H.
  apply JsArrayFacts.sort_In in H. apply filter_In in H. destruct H as [H _].
  apply in_map_iff in H. destruct H as [q [<- Hq]].
  apply filter_In in Hq. exists q. split; [apply Hq | reflexivity].
Qed.

Lemma getMockPreschools_warehouse
  (californiaPreschools : option (list Preschool.t)) (q : Preschool.t) :
  In q (Data.getAllPreschools californiaPreschools) ->
  RecommendationService.getMockPreschools californiaPreschools
  = Data.getAllPreschools californiaPreschools.
Proof.
  unfold RecommendationService.getMockPreschools. intros H.
  destruct (Data.getAllPreschools californiaPreschools); [contradiction|].
  reflexivity.
Qed.

(** X5.  A record of the recommendation or of the nearby listing is a copy:
    [getPreschoolDetails], asked for its identifier, returns a record of
    the set with that identifier, and when no two records of the set share
    an identifier the listed record is that one with its match reasons
    attached, for a recommendation, and that one with its rounded distance
    from the origin attached, for a nearby record. *)
Theorem listed_copy_is_found :
  forall (M : Math.t) (service : RecommendationService.t)
         (californiaPreschools : option (list Preschool.t))
         (userId : string) (preferences : Preferences.t)
         (latitude longitude radius : float) (limit : Z) (p : Preschool.t),
    (forall rs,
       RecommendationService.getRecommendations californiaPreschools userId
         preferences limit = Normal rs ->
       In p rs ->
       exists q,
         PreschoolService.getPreschoolDetails
           {| PreschoolService.recommendationService := Some service |}
           californiaPreschools (Preschool.id p) = Normal q
         /\ Preschool.id q = Preschool.id p
         /\ (NoDup (map Preschool.id
                      (RecommendationService.getMockPreschools
                         californiaPreschools)) ->
             p = Preschool.withMatchReasons q
                   (RecommendationService.generateMatchReasons q
                      preferences)))
    /\ (forall rs,
          RecommendationService.getNearbyPreschools M californiaPreschools
            latitude longitude radius limit = Normal rs ->
          In p rs ->
          exists q,
            PreschoolService.getPreschoolDetails
              {| PreschoolService.recommendationService := Some service |}
              californiaPreschools (Preschool.id p) = Normal q
            /\ Preschool.id q = Preschool.id p
            /\ (NoDup (map Preschool.id
                         (RecommendationService.getMockPreschools
                            californiaPreschools)) ->
                p = Preschool.withDistance q
                      (JsNumber.roundToOneDecimal
                         (Data.calculateDistance M latitude longitude
                            (JsNumber.parseFloat
                               (Preschool.toNumber (Preschool.latitude q)))
                            (JsNumber.parseFloat
                               (Preschool.toNumber (Preschool.longitude q))))))).
Proof.
  intros M service w userId preferences latitude longitude radius limit p.
  split; intros rs H Hp.
  - destruct (getRecommendations_from w userId preferences limit rs H p Hp)
      as [q0 [Hq0 ->]].
    destruct (getPreschoolDetails_of_record service w q0 Hq0)
      as [q [H1 [_ [H2 H3]]]].
    exists q. split; [exact H1|]. split; [exact H2|].
    intros Hn. rewrite (H3 Hn). reflexivity.
  - unfold RecommendationService.getNearbyPreschools in H. injection H as <-.
    apply slice_subset in Hp.
    destruct (getPreschoolsNearLocation_from M w latitude longitude radius p Hp)
      as [q0 [Hq0 ->]].
    rewrite <- (getMockPreschools_warehouse w q0 Hq0) in Hq0.
    destruct (getPreschoolDetails_of_record service w q0 Hq0)
      as [q [H1 [_ [H2 H3]]]].
    exists q. split; [exact H1|]. split; [exact H2|].
    intros Hn. rewrite (H3 Hn). reflexivity.
Qed.

(** The first recommendation over the built-in records is the third of
    them with its match reasons, and the nearer of the two records east of
    the origin is listed with its distance: the lookup returns the record
    each was copied from. *)
Lemma listed_copy_is_found_witness :
  (exists q,
     PreschoolService.getPreschoolDetails Pages.service None "p3" = Normal q
     /\ RecommendationService.attachReasons Preferences.empty
          RecommendationService.mock_p3
        = Preschool.withMatchReasons q
            (RecommendationService.generateMatchReasons q Preferences.empty))
  /\ (exists q,
        PreschoolService.getPreschoolDetails Pages.service
          RadiusExample.warehouse "near" = Normal q
        /\ Preschool.distance
             (Data.attachDistance Math.firstOrder 0 0
                (Preschool.located (Preschool.minimal "near" "" 4 0) 1e-9 1))
           = Some
               (JsNumber.roundToOneDecimal
                  (Data.calculateDistance Math.firstOrder 0 0
                     (JsNumber.parseFloat
                        (Preschool.toNumber (Preschool.latitude q)))
                     (JsNumber.parseFloat
                        (Preschool.toNumber (Preschool.longitude q)))))).
Proof.
  split.
  - destruct (proj1 (listed_copy_is_found Math.firstOrder
                       RecommendationService.Instance None "u"
                       Preferences.empty 0 0 0 1
                       (RecommendationService.attachReasons Preferences.empty
                          RecommendationService.mock_p3))
                _ eq_refl (or_introl eq_refl)) as [q [H1 [_ H2]]].
    exists q. split; [exact H1|]. apply H2.
    repeat constructor; cbn; intuition discriminate.
  - destruct (proj2 (listed_copy_is_found Math.firstOrder
                       RecommendationService.Instance
                       RadiusExample.warehouse "u" Preferences.empty 0 0 100 1
                       (Data.attachDistance Math.firstOrder 0 0
                          (Preschool.located
                             (Preschool.minimal "near" "" 4 0) 1e-9 1)))
                _ eq_refl (or_introl eq_refl)) as [q [H1 [_ H2]]].
    exists q. split; [exact H1|]. rewrite H2 at 1; [reflexivity|].
    repeat constructor; cbn; intuition discriminate.
Defined.

(** ** Counts and limits *)

Lemma getMockPreschools_cases
  (californiaPreschools : option (list Preschool.t)) :
  (Data.getAllPreschools californiaPreschools = []
   /\ RecommendationService.getMockPreschools californiaPreschools
      = RecommendationService.fallbackPreschools)
  \/ (Data.getAllPreschools californiaPreschools <> []
      /\ RecommendationService.getMockPreschools californiaPreschools
         = Data.getAllPreschools californiaPreschools).
Proof.
  unfold RecommendationService.getMockPreschools.
  destruct (Data.getAllPreschools californiaPreschools) as [|p l].
  - left. split; reflexivity.
  - right. split; [discriminate | reflexivity].
Qed.

Lemma getMockPreschools_length
  (californiaPreschools : option (list Preschool.t)) :
  (1 <= List.length
          (RecommendationService.getMockPreschools californiaPreschools))%nat.
Proof.
  destruct (getMockPreschools_cases californiaPreschools) as [[_ ->]|[H ->]].
  - cbn. lia.
  - destruct (Data.getAllPreschools californiaPreschools);
      [contradiction | cbn; lia].
Qed.

Lemma firstn_subset {A : Type} (n : nat) (l : list A) (x : A) :
  In x (firstn n l) -> In x l.
Proof.
  intros H. rewrite <- (firstn_skipn n l). apply in_or_app. left. exact H.
Qed.

Lemma slice_whole {A : Type} (l : list A) (n : Z) :
  Z.of_nat (List.length l) <= n -> JsArray.slice l 0 n = l.
Proof.
  intros H. rewrite JsArrayFacts.slice_prefix by lia.
  apply firstn_all2. lia.
Qed.

(** X6.  The featured listing of a limit that is a count holds that many
    records, or the whole record set when the set is smaller; it is never
    empty when the limit is at least one, because an empty or missing
    warehouse is replaced by the six built-in records. *)
Theorem getFeaturedPreschools_count :
  forall (M : Math.t) (californiaPreschools : option (list Preschool.t))
         (limit : Z),
    0 <= limit ->
    exists featured,
      RecommendationService.getFeaturedPreschools M californiaPreschools limit
      = Normal featured
      /\ Z.of_nat (List.length featured)
         = Z.min limit
             (Z.of_nat
                (List.length
                   (RecommendationService.getMockPreschools
                      californiaPreschools)))
      /\ (1 <= limit -> featured <> [])
      /\ (forall p, In p featured ->
            In p (RecommendationService.getMockPreschools californiaPreschools))
      /\ (Data.getAllPreschools californiaPreschools = [] ->
          Z.of_nat (List.length featured) = Z.min limit 6).
Proof.
  intros M w limit Hl.
  unfold RecommendationService.getFeaturedPreschools.
  eexists. split; [reflexivity|].
  rewrite JsArrayFacts.slice_prefix by assumption.
  set (records := RecommendationService.getMockPreschools w).
  assert (Hlen : Z.of_nat
                   (List.length
                      (firstn (Z.to_nat limit)
                         (JsArray.sort (RecommendationService.byPopularityDesc M)
                            records)))
                 = Z.min limit (Z.of_nat (List.length records))).
  { rewrite length_firstn, JsArrayFacts.sort_length. lia. }
  pose proof (getMockPreschools_length w) as Hne. fold records in Hne.
  split; [exact Hlen|]. split; [|split].
  - intros H1 E. rewrite E in Hlen. cbn in Hlen. lia.
  - intros p Hp.
    apply (JsArrayFacts.sort_In (RecommendationService.byPopularityDesc M)).
    apply (firstn_subset (Z.to_nat limit)). exact Hp.
  - intros He. rewrite Hlen. unfold records.
    destruct (getMockPreschools_cases w) as [[_ ->]|[H _]];
      [reflexivity | contradiction].
Qed.

Lemma getFeaturedPreschools_count_witness :
  exists featured,
    RecommendationService.getFeaturedPreschools Math.firstOrder (Some []) 4
    = Normal featured
    /\ Z.of_nat (List.length featured) = 4.
Proof.
  destruct (getFeaturedPreschools_count Math.firstOrder (Some []) 4)
    as [featured [H1 [_ [_ [_ H2]]]]]; [lia|].
  exists featured. split; [exact H1 | apply (H2 eq_refl)].
Defined.

(** X7.  The favourites listing is the first three records of the record
    set, or all of them when there are fewer; it is never empty, and it is
    the first page of three of a search without criteria.  Without an
    injected service the method throws a [TypeError], where the search
    throws the error that asks for [setRecommendationService]. *)
Theorem getFavoritePreschools_first_three :
  forall (service : RecommendationService.t)
         (californiaPreschools : option (list Preschool.t)),
    (exists favourites rest,
       PreschoolService.getFavoritePreschools
         {| PreschoolService.recommendationService := Some service |}
         californiaPreschools = Normal favourites
       /\ RecommendationService.getMockPreschools californiaPreschools
          = (favourites ++ rest)%list
       /\ (1 <= List.length favourites <= 3)%nat
       /\ (List.length favourites < 3 -> rest = [])%nat
       /\ exists r,
            PreschoolService.searchPreschools
              {| PreschoolService.recommendationService := Some service |}
              californiaPreschools None Filters.empty 1 3 = Normal r
            /\ SearchResult.results r = favourites)
    /\ (exists msg,
          PreschoolService.getFavoritePreschools
            {| PreschoolService.recommendationService := None |}
            californiaPreschools = Throw (TypeError msg))
    /\ (exists msg,
          PreschoolService.searchPreschools
            {| PreschoolService.recommendationService := None |}
            californiaPreschools None Filters.empty 1 3 = Throw (Error msg)).
Proof.
  intros service w. split; [|split; eexists; reflexivity].
  unfold PreschoolService.getFavoritePreschools.
  cbn [PreschoolService.recommendationService].
  set (records := RecommendationService.getMockPreschools w).
  pose proof (getMockPreschools_length w) as Hne. fold records in Hne.
  exists (firstn 3 records), (skipn 3 records).
  split; [rewrite JsArrayFacts.slice_prefix by lia; reflexivity|].
  split; [symmetry; apply firstn_skipn|].
  rewrite length_firstn. split; [lia|]. split.
  - intros H. apply skipn_all2. lia.
  - eexists. split; [reflexivity|].
    cbn [PreschoolService.paginate SearchResult.results].
    fold records. change (PreschoolService.applyFilters records None Filters.empty)
      with records.
    change ((1 - 1) * 3) with 0. change (1 * 3) with 3.
    rewrite JsArrayFacts.slice_prefix by lia. reflexivity.
Qed.

(** X8.  A negative limit [-k] is not refused by the featured, nearby and
    recommendation listings: each returns its whole listing without the
    last [k] records. *)
Theorem negative_limit_drops_last :
  forall (M : Math.t) (californiaPreschools : option (list Preschool.t))
         (userId : string) (preferences : Preferences.t)
         (latitude longitude radius : float) (limit : Z),
    limit < 0 ->
    let all :=
      Z.of_nat
        (List.length
           (RecommendationService.getMockPreschools californiaPreschools)) in
    let withoutLast (whole : list Preschool.t) :=
      Normal (firstn (List.length whole - Z.to_nat (- limit)) whole) in
    RecommendationService.getFeaturedPreschools M californiaPreschools limit
    = bind (RecommendationService.getFeaturedPreschools M
              californiaPreschools all) withoutLast
    /\ RecommendationService.getNearbyPreschools M californiaPreschools
         latitude longitude radius limit
       = bind (RecommendationService.getNearbyPreschools M
                 californiaPreschools latitude longitude radius all)
           withoutLast
    /\ RecommendationService.getRecommendations californiaPreschools userId
         preferences limit
       = bind (RecommendationService.getRecommendations californiaPreschools
                 userId preferences all) withoutLast.
Proof.
  intros M w userId preferences latitude longitude radius limit Hl all
    withoutLast.
  set (records := RecommendationService.getMockPreschools w) in *.
  split; [|split].
  - unfold RecommendationService.getFeaturedPreschools. fold records.
    cbn [bind]. unfold withoutLast.
    rewrite JsArrayFacts.slice_negative_end by assumption.
    rewrite (slice_whole _ all)
      by (rewrite JsArrayFacts.sort_length; unfold all; lia).
    reflexivity.
  - unfold RecommendationService.getNearbyPreschools. cbn [bind].
    unfold withoutLast. rewrite JsArrayFacts.slice_negative_end by assumption.
    rewrite (slice_whole _ all); [reflexivity|].
    unfold Data.getPreschoolsNearLocation.
    rewrite JsArrayFacts.sort_length.
    etransitivity; [apply inj_le, filter_length_le|].
    rewrite length_map.
    etransitivity; [apply inj_le, filter_length_le|].
    unfold all, records.
    destruct (getMockPreschools_cases w) as [[-> _]|[_ ->]]; cbn; lia.
  - unfold RecommendationService.getRecommendations. fold records.
    destruct (match Preferences.location preferences with
              | Some location =>
                  if JsString.truthy location
                  then filterM (RecommendationService.matchesLocation location)
                         records
                  else Normal records
              | None => Normal records
              end) as [located|e] eqn:Hloc; [|reflexivity].
    cbn [bind]. unfold withoutLast.
    assert (Hlen : (List.length located <= List.length records)%nat).
    { destruct (Preferences.location preferences) as [location|].
      - destruct (JsString.truthy location).
        + clear - Hloc. revert located Hloc.
          induction records as [|x l IH]; intros located H; cbn [filterM] in H.
          * injection H as <-. cbn. lia.
          * destruct (RecommendationService.matchesLocation location x) as [b|];
              [|discriminate].
            cbn [bind] in H.
            destruct (filterM _ l) as [r|]; [|discriminate].
            cbn [bind] in H. injection H as <-.
            specialize (IH r eq_refl). destruct b; cbn; lia.
        + injection Hloc as <-. lia.
      - injection Hloc as <-. lia. }
    set (rated := match Preferences.minRating preferences with
                  | Some m => _ | None => _ end).
    assert (Hr : (List.length rated <= List.length located)%nat).
    { unfold rated. destruct (Preferences.minRating preferences) as [m|];
        [destruct (JsNumber.truthy m); [apply filter_length_le|]|]; lia. }
    set (taught := match Preferences.curriculum preferences with
                   | Some c => _ | None => _ end).
    assert (Ht : (List.length taught <= List.length rated)%nat).
    { unfold taught. destruct (Preferences.curriculum preferences) as [c|];
        [destruct (JsString.truthy c); [apply filter_length_le|]|]; lia. }
    rewrite JsArrayFacts.slice_negative_end by assumption.
    rewrite (slice_whole _ all)
      by (rewrite JsArrayFacts.sort_length; unfold all; lia).
    rewrite firstn_map, length_map. reflexivity.
Qed.

(** Over the six built-in records the limit [-2] leaves the four best. *)
Lemma negative_limit_drops_last_witness :
  RecommendationService.getFeaturedPreschools Math.firstOrder None (-2)
  = bind (RecommendationService.getFeaturedPreschools Math.firstOrder None 6)
      (fun whole => Normal (firstn (List.length whole - 2) whole)).
Proof.
  exact (proj1 (negative_limit_drops_last Math.firstOrder None ""
                  Preferences.empty 0 0 0 (-2) ltac:(lia))).
Defined.

(** ** Pages before the first *)

Lemma rev_block {A : Type} (l : list A) (a b : nat) :
  (a <= b <= List.length l)%nat ->
  rev (firstn (b - a) (skipn a (rev l)))
  = firstn (b - a) (skipn (List.length l - b) l).
Proof.
  intros H.
  rewrite (firstn_skipn_comm (b - a) a (rev l)).
  replace (a + (b - a))%nat with b by lia.
  rewrite firstn_rev, skipn_rev, rev_involutive.
  rewrite length_skipn.
  replace (List.length l - (List.length l - b) - a)%nat with (b - a)%nat by lia.
  reflexivity.
Qed.

(** X9.  Page numbers below one are not refused.  For a positive limit,
    page [0] is empty, and page [-k] holds the records that page [k + 1]
    would hold if pages were counted from the end of the sequence: the
    block of [limit] records that ends [k * limit] records before the
    end. *)
Theorem paginate_before_first_page :
  forall (sequence : list Preschool.t) (limit k : Z),
    0 < limit ->
    SearchResult.results (PreschoolService.paginate sequence 0 limit) = []
    /\ (0 < k ->
        SearchResult.results (PreschoolService.paginate sequence (- k) limit)
        = rev (SearchResult.results
                 (PreschoolService.paginate (rev sequence) (k + 1) limit))).
Proof.
  intros sequence limit k Hl.
  cbn [PreschoolService.paginate SearchResult.results]. split.
  - unfold JsArray.slice, JsArray.relativeIndex.
    replace ((0 - 1) * limit <? 0) with true by (symmetry; apply Z.ltb_lt; lia).
    replace (0 * limit <? 0) with false by (symmetry; apply Z.ltb_ge; lia).
    rewrite (Z.min_l (0 * limit)) by lia.
    replace (Z.to_nat _) with 0%nat by lia. reflexivity.
  - intros Hk.
    rewrite (JsArrayFacts.slice_nonneg (rev sequence)) by nia.
    unfold JsArray.slice, JsArray.relativeIndex.
    replace ((- k - 1) * limit <? 0) with true by (symmetry; apply Z.ltb_lt; nia).
    replace (- k * limit <? 0) with true by (symmetry; apply Z.ltb_lt; nia).
    set (len := List.length sequence).
    replace ((k + 1 - 1) * limit) with (k * limit) by lia.
    set (a := Nat.min (Z.to_nat (k * limit)) len).
    set (b := Nat.min (Z.to_nat ((k + 1) * limit)) len).
    assert (Hab : (a <= b <= len)%nat) by (unfold a, b; nia).
    assert (E1 : firstn (Z.to_nat ((k + 1) * limit) - Z.to_nat (k * limit))
                   (skipn (Z.to_nat (k * limit)) (rev sequence))
                 = firstn (b - a) (skipn a (rev sequence))).
    { destruct (Nat.le_gt_cases len (Z.to_nat (k * limit))) as [Hge|Hlt].
      - rewrite !skipn_all2 by (rewrite length_rev; fold len; unfold a; lia).
        rewrite !firstn_nil. reflexivity.
      - replace a with (Z.to_nat (k * limit)) by (unfold a; lia).
        rewrite <- (JsArrayFacts.firstn_min_length
                      (Z.to_nat ((k + 1) * limit) - Z.to_nat (k * limit))).
        rewrite length_skipn, length_rev. fold len. f_equal. unfold b. lia. }
    rewrite E1, (rev_block sequence a b Hab). fold len.
    f_equal; [unfold a, b; nia|]. f_equal. unfold b. nia.
Qed.

(** Of five records in pages of two, page [-1] holds the second and the
    third. *)
Lemma paginate_before_first_page_witness :
  SearchResult.results (PreschoolService.paginate Pages.five 0 2) = []
  /\ SearchResult.results (PreschoolService.paginate Pages.five (-1) 2)
     = [ Preschool.minimal "r2" "" 4 0; Preschool.minimal "r3" "" 4 0 ].
Proof.
  destruct (paginate_before_first_page Pages.five 2 1 ltac:(lia)) as [H0 H1].
  split; [exact H0|]. exact (H1 ltac:(lia)).
Defined.

(** ** The recommendation listing *)

Lemma byRatingDesc_keyed (l : list Preschool.t) :
  RecommendationCriteria.rated l = true ->
  JsArray.keyed RecommendationService.byRatingDesc
    (fun p => - Binary64.ford (Preschool.rating p)) l.
Proof.
  intros H a b Ha Hb.
  apply (forallb_In _ _ a H) in Ha. apply (forallb_In _ _ b H) in Hb.
  apply negb_true_iff in Ha, Hb.
  unfold RecommendationService.byRatingDesc.
  rewrite Binary64Facts.sub_ltb_zero, Binary64Facts.ltb_ford by assumption.
  destruct (Z.ltb_spec (Binary64.ford (Preschool.rating b))
              (Binary64.ford (Preschool.rating a)));
    symmetry; [apply Z.ltb_lt | apply Z.ltb_ge]; lia.
Qed.

Lemma rated_filter (f : Preschool.t -> bool) (l : list Preschool.t) :
  RecommendationCriteria.rated l = true ->
  RecommendationCriteria.rated (filter f l) = true.
Proof.
  unfold RecommendationCriteria.rated. rewrite !forallb_forall.
  intros H x Hx. apply H. apply filter_In in Hx. apply Hx.
Qed.

Lemma getRecommendations_filtered
  (californiaPreschools : option (list Preschool.t)) (userId : string)
  (preferences : Preferences.t) (limit : Z) :
  RecommendationCriteria.locationReadable preferences
    (RecommendationService.getMockPreschools californiaPreschools) = true ->
  RecommendationService.getRecommendations californiaPreschools userId
    preferences limit
  = Normal
      (map (RecommendationService.attachReasons preferences)
         (JsArray.slice
            (JsArray.sort RecommendationService.byRatingDesc
               (filter (RecommendationCriteria.satisfies preferences)
                  (RecommendationService.getMockPreschools
                     californiaPreschools)))
            0 limit)).
Proof.
  intros Hr. unfold RecommendationService.getRecommendations.
  set (records := RecommendationService.getMockPreschools californiaPreschools)
    in *.
  assert (Hloc :
            match Preferences.location preferences with
            | Some location =>
                if JsString.truthy location
                then filterM (RecommendationService.matchesLocation location)
                       records
                else Normal records
            | None => Normal records
            end
            = Normal
                (filter
                   (fun r =>
                      SearchCriteria.whenText (Preferences.location preferences)
                        (fun v => LocationFilter.matches v r))
                   records)).
  { unfold RecommendationCriteria.locationReadable in Hr.
    destruct (Preferences.location preferences) as [v|];
      cbn [SearchCriteria.whenText].
    - destruct (JsString.truthy v); cbn in Hr.
      + apply filterM_matchesLocation_total. exact Hr.
      + rewrite filter_true. reflexivity.
    - rewrite filter_true. reflexivity. }
  rewrite Hloc. cbn [bind].
  rewrite (stage_number (Preferences.minRating preferences)
             RecommendationService.ratingAtLeast).
  rewrite (stage_text (Preferences.curriculum preferences)
             RecommendationService.curriculumIncludes
             SearchCriteria.offersCurriculum)
    by (intros v r Hv; apply optLowerIncludes_folded, Hv).
  rewrite !filter_filter. do 4 f_equal.
  apply filter_ext. intros r. unfold RecommendationCriteria.satisfies.
  rewrite ?andb_assoc. reflexivity.
Qed.

(** X10.  When the location filter can read every record and no rating is
    [NaN], the recommendation listing of a limit that is a count is the
    first [limit] records of a ranking, each with its match reasons
    attached.  The ranking holds exactly the records of the set that meet
    every active preference; ratings never increase along it; and the
    records of one rating stand in the order of the record set. *)
Theorem getRecommendations_ranked :
  forall (californiaPreschools : option (list Preschool.t)) (userId : string)
         (preferences : Preferences.t) (limit : Z),
    0 <= limit ->
    RecommendationCriteria.locationReadable preferences
      (RecommendationService.getMockPreschools californiaPreschools) = true ->
    RecommendationCriteria.rated
      (RecommendationService.getMockPreschools californiaPreschools) = true ->
    exists ranked : list Preschool.t,
      RecommendationService.getRecommendations californiaPreschools userId
        preferences limit
      = Normal
          (map (fun p =>
                  Preschool.withMatchReasons p
                    (RecommendationService.generateMatchReasons p preferences))
             (firstn (Z.to_nat limit) ranked))
      /\ (forall r,
            In r ranked
            <-> In r (RecommendationService.getMockPreschools
                        californiaPreschools)
                /\ RecommendationCriteria.satisfies preferences r = true)
      /\ StronglySorted
           (fun a b =>
              PrimFloat.leb (Preschool.rating b) (Preschool.rating a) = true)
           ranked
      /\ forall p,
           In p (RecommendationService.getMockPreschools californiaPreschools) ->
           filter (fun q =>
                     PrimFloat.eqb (Preschool.rating q) (Preschool.rating p))
             ranked
           = filter (fun q =>
                       PrimFloat.eqb (Preschool.rating q) (Preschool.rating p))
               (filter (RecommendationCriteria.satisfies preferences)
                  (RecommendationService.getMockPreschools
                     californiaPreschools)).
Proof.
  intros w userId preferences limit Hlimit Hread Hnum.
  set (records := RecommendationService.getMockPreschools w) in *.
  set (candidates := filter (RecommendationCriteria.satisfies preferences) records).
  assert (Hcn : RecommendationCriteria.rated candidates = true)
    by (apply rated_filter, Hnum).
  pose proof (byRatingDesc_keyed candidates Hcn) as Hk.
  assert (Hn : forall a, In a records ->
                 PrimFloat.is_nan (Preschool.rating a) = false).
  { intros a Ha. apply negb_true_iff. apply (forallb_In _ _ a Hnum Ha). }
  assert (Hc : forall a, In a candidates -> In a records).
  { intros a Ha. apply filter_In in Ha. apply Ha. }
  exists (JsArray.sort RecommendationService.byRatingDesc candidates).
  split; [|split; [|split]].
  - rewrite (getRecommendations_filtered w userId preferences limit Hread).
    fold records. fold candidates.
    rewrite JsArrayFacts.slice_prefix by assumption. reflexivity.
  - intros r. rewrite JsArrayFacts.sort_In. apply filter_In.
  - eapply StronglySorted_weaken;
      [|apply (JsArrayFacts.sort_sorted _ _ _ Hk)].
    intros a b Ha Hb Hab. cbv beta in Hab.
    apply JsArrayFacts.sort_In in Ha, Hb.
    rewrite Binary64Facts.leb_ford by auto. apply Z.leb_le. lia.
  - intros p Hp.
    assert (E : forall l, (forall q, In q l -> In q records) ->
              filter (fun q => PrimFloat.eqb (Preschool.rating q)
                                 (Preschool.rating p)) l
              = filter (fun q => Z.eqb (- Binary64.ford (Preschool.rating q))
                                   (- Binary64.ford (Preschool.rating p))) l).
    { intros l Hl. apply filter_ext_in. intros q Hq.
      rewrite Binary64Facts.eqb_ford by auto.
      destruct (Z.eqb_spec (Binary64.ford (Preschool.rating q))
                  (Binary64.ford (Preschool.rating p)));
        symmetry; [apply Z.eqb_eq | apply Z.eqb_neq]; lia. }
    rewrite (E candidates Hc).
    rewrite <- (JsArrayFacts.sort_stable _ _ _ _ Hk).
    apply E. intros q Hq. apply JsArrayFacts.sort_In in Hq. auto.
Qed.

(** Over the built-in records, with ratings of at least 4.6 asked for, the
    first record, rated 4.7, is ranked, and the second, rated 4.5, is
    not. *)
Lemma getRecommendations_ranked_witness :
  exists ranked : list Preschool.t,
    RecommendationService.getRecommendations None "u"
      (RecommendationCriteria.atLeast 4.6) 2
    = Normal
        (map (fun p =>
                Preschool.withMatchReasons p
                  (RecommendationService.generateMatchReasons p
                     (RecommendationCriteria.atLeast 4.6)))
           (firstn 2 ranked))
    /\ (In RecommendationService.mock_p1 ranked
        /\ ~ In RecommendationService.mock_p2 ranked).
Proof.
  destruct (getRecommendations_ranked None "u"
              (RecommendationCriteria.atLeast 4.6) 2)
    as [ranked [H1 [H2 _]]].
  - lia.
  - reflexivity.
  - reflexivity.
  - exists ranked. split; [exact H1|]. split.
    + apply H2. split; [left; reflexivity | reflexivity].
    + intros H. apply H2 in H. destruct H as [_ H]. discriminate.
Defined.

(** ** How many match reasons *)

(** X11.  [generateMatchReasons] returns at least one reason and at most
    five, and the fallback reason stands alone: it is listed only when no
    rule contributed. *)
Theorem generateMatchReasons_count :
  forall (preschool : Preschool.t) (preferences : Preferences.t),
    (1 <= List.length
            (RecommendationService.generateMatchReasons preschool preferences)
     <= 5)%nat
    /\ (In "Matches your preferences"
          (RecommendationService.generateMatchReasons preschool preferences)
        <-> RecommendationService.generateMatchReasons preschool preferences
            = ["Matches your preferences"]).
Proof.
  intros preschool preferences.
  rewrite generateMatchReasons_rules.
  unfold MatchReasonRules.reasons, MatchReasonRules.fired,
    MatchReasonRules.ratingRule, MatchReasonRules.curriculumRule,
    MatchReasonRules.reviewRule, MatchReasonRules.programRule,
    MatchReasonRules.featureRule.
  destruct (PrimFloat.leb 4.5 (Preschool.rating preschool));
    [|destruct (PrimFloat.leb 4.0 (Preschool.rating preschool))];
    (destruct (MatchReasonRules.curriculumMatches preschool preferences);
     [destruct (Preschool.curriculum preschool) as [offered|]|]);
    destruct (PrimFloat.ltb 50 (Preschool.reviewCount preschool));
    destruct (MatchReasonRules.isStateProgram preschool);
    destruct (Preschool.features preschool) as [[|first rest]|];
    cbn [app List.length In];
    (split; [lia|]);
    (split; [|intros E; first [discriminate E | left; reflexivity]]);
    intros H; repeat (destruct H as [H|H]; [try discriminate H|]);
    try contradiction; reflexivity.
Qed.

(** ** The reasons of a recommendation *)

Lemma fired_not_fallback (record : Preschool.t) (preferences : Preferences.t) :
  ~ In "Matches your preferences" (MatchReasonRules.fired record preferences).
Proof.
  unfold MatchReasonRules.fired, MatchReasonRules.ratingRule,
    MatchReasonRules.curriculumRule, MatchReasonRules.reviewRule,
    MatchReasonRules.programRule, MatchReasonRules.featureRule.
  destruct (PrimFloat.leb 4.5 (Preschool.rating record));
    [|destruct (PrimFloat.leb 4.0 (Preschool.rating record))];
    (destruct (MatchReasonRules.curriculumMatches record preferences);
     [destruct (Preschool.curriculum record) as [offered|]|]);
    destruct (PrimFloat.ltb 50 (Preschool.reviewCount record));
    destruct (MatchReasonRules.isStateProgram record);
    destruct (Preschool.features record) as [[|first rest]|];
    cbn [app In];
    intros H; repeat (destruct H as [H|H]; [discriminate H|]);
    contradiction.
Qed.

Lemma getRecommendations_taught
  (californiaPreschools : option (list Preschool.t)) (userId : string)
  (preferences : Preferences.t) (limit : Z) (wanted : string)
  (rs : list Preschool.t) :
  Preferences.curriculum preferences = Some wanted ->
  JsString.truthy wanted = true ->
  RecommendationService.getRecommendations californiaPreschools userId
    preferences limit = Normal rs ->
  forall p, In p rs ->
    exists q,
      p = RecommendationService.attachReasons preferences q
      /\ RecommendationService.curriculumIncludes wanted q = true.
Proof.
  unfold RecommendationService.getRecommendations. intros Hc Hw H p Hp.
  match type of H with
  | bind ?c _ = _ => destruct c as [located|e]; [|discriminate]
  end.
  cbn [bind] in H. injection H as <-.
  apply in_map_iff in Hp. destruct Hp as [q [<- Hq]].
  exists q. split; [reflexivity|].
  apply slice_subset in Hq. apply JsArrayFacts.sort_In in Hq.
  rewrite Hc, Hw in Hq. apply filter_In in Hq. apply Hq.
Qed.

(** X12.  When a curriculum is asked for, every recommendation names it:
    the record's curriculum contains the one asked for, letter case apart,
    and its match reasons list ["Offers {curriculum} curriculum"] with the
    record's own curriculum text, and not the fallback reason. *)
Theorem recommendations_name_curriculum :
  forall (californiaPreschools : option (list Preschool.t)) (userId : string)
         (preferences : Preferences.t) (limit : Z) (wanted : string)
         (rs : list Preschool.t),
    Preferences.curriculum preferences = Some wanted ->
    JsString.truthy wanted = true ->
    RecommendationService.getRecommendations californiaPreschools userId
      preferences limit = Normal rs ->
    forall p, In p rs ->
      exists offered reasons,
        Preschool.curriculum p = Some offered
        /\ JsString.includes (JsString.toLowerCase offered)
             (JsString.toLowerCase wanted) = true
        /\ Preschool.matchReasons p = Some reasons
        /\ In ("Offers " ++ offered ++ " curriculum") reasons
        /\ ~ In "Matches your preferences" reasons.
Proof.
  intros w userId preferences limit wanted rs Hc Hw H p Hp.
  destruct (getRecommendations_taught w userId preferences limit wanted rs
              Hc Hw H p Hp) as [q [-> Hq]].
  unfold RecommendationService.curriculumIncludes, JsString.optLowerIncludes
    in Hq.
  destruct (Preschool.curriculum q) as [offered|] eqn:Eo; [|discriminate].
  apply andb_true_iff in Hq. destruct Hq as [Ht Hi].
  exists offered, (RecommendationService.generateMatchReasons q preferences).
  split; [exact Eo|]. split; [exact Hi|]. split; [reflexivity|].
  rewrite generateMatchReasons_rules. unfold MatchReasonRules.reasons.
  assert (Hin : In ("Offers " ++ offered ++ " curriculum")
                  (MatchReasonRules.fired q preferences)).
  { unfold MatchReasonRules.fired. apply in_or_app. right.
    apply in_or_app. left.
    unfold MatchReasonRules.curriculumRule, MatchReasonRules.curriculumMatches.
    rewrite Hc, Hw, Eo, Hi. left. reflexivity. }
  pose proof (fired_not_fallback q preferences) as Hnf.
  destruct (MatchReasonRules.fired q preferences) as [|r fired];
    [contradiction|].
  split; assumption.
Qed.

(** Over the built-in records, a Montessori curriculum asked for. *)
Lemma recommendations_name_curriculum_witness :
  exists p offered reasons,
    RecommendationService.getRecommendations None "u"
      RecommendationCriteria.montessori 1 = Normal [p]
    /\ Preschool.curriculum p = Some offered
    /\ Preschool.matchReasons p = Some reasons
    /\ In ("Offers " ++ offered ++ " curriculum") reasons.
Proof.
  eexists. 
  destruct (recommendations_name_curriculum None "u"
              RecommendationCriteria.montessori 1 "MONTESSORI" _
              eq_refl eq_refl eq_refl _ (or_introl eq_refl))
    as [offered [reasons [H1 [_ [H2 [H3 _]]]]]].
  exists offered, reasons. split; [reflexivity|].
  split; [exact H1|]. split; [exact H2 | exact H3].
Defined.

(** ** The radius of the nearby listing *)

Section SortThenFilter.

Context {A : Type} (cmp : A -> A -> float) (key : A -> Z) (f : A -> bool).

Lemma insert_head (x : A) (l : list A) :
  JsArray.keyed cmp key (x :: l) ->
  Forall (fun y => key x <= key y) l ->
  JsArray.insert cmp x l = x :: l.
Proof.
  intros Hk Hl. destruct l as [|y l]; [reflexivity|].
  cbn [JsArray.insert]. rewrite (Hk y x) by (cbn; auto).
  inversion Hl as [|? ? Hy _]; subst.
  replace (key y <? key x) with false by (symmetry; apply Z.ltb_ge; lia).
  reflexivity.
Qed.

Lemma filter_insert (x : A) (l : list A) :
  JsArray.keyed cmp key (x :: l) ->
  StronglySorted (fun a b => key a <= key b) l ->
  filter f (JsArray.insert cmp x l)
  = if f x then JsArray.insert cmp x (filter f l) else filter f l.
Proof.
  intros Hk Hs. induction Hs as [|y l Hs IH Hy]; cbn [JsArray.insert filter].
  - destruct (f x); reflexivity.
  - assert (Hk' : JsArray.keyed cmp key (x :: l)).
    { intros a b Ha Hb. apply Hk; cbn in *; intuition. }
    rewrite (Hk y x) by (cbn; auto).
    destruct (Z.ltb_spec (key y) (key x)) as [Hlt|Hge].
    + cbn [filter]. rewrite (IH Hk').
      destruct (f y), (f x); try reflexivity.
      cbn [JsArray.insert]. rewrite (Hk y x) by (cbn; auto).
      replace (key y <? key x) with true by (symmetry; apply Z.ltb_lt; lia).
      reflexivity.
    + cbn [filter]. destruct (f x); [|reflexivity].
      symmetry. apply insert_head.
      * intros a b Ha Hb. apply Hk.
        -- destruct Ha as [<-|Ha]; [left; reflexivity|].
           right. change (In a (filter f (y :: l))) in Ha.
           apply filter_In in Ha. apply Ha.
        -- destruct Hb as [<-|Hb]; [left; reflexivity|].
           right. change (In b (filter f (y :: l))) in Hb.
           apply filter_In in Hb. apply Hb.
      * apply Forall_forall. intros z Hz.
        change (In z (filter f (y :: l))) in Hz.
        apply filter_In in Hz. destruct Hz as [[<-|Hz] _]; [lia|].
        rewrite Forall_forall in Hy. specialize (Hy z Hz). lia.
Qed.

(** Filtering a sorted array gives the sorted filtered array. *)
Lemma filter_sort (l : list A) :
  JsArray.keyed cmp key l ->
  filter f (JsArray.sort cmp l) = JsArray.sort cmp (filter f l).
Proof.
  induction l as [|x l IH]; intros Hk; [reflexivity|].
  cbn [JsArray.sort fold_right]. fold (JsArray.sort cmp l).
  rewrite filter_insert.
  - rewrite (IH (JsArrayFacts.keyed_tail cmp key x l Hk)).
    cbn [filter]. destruct (f x); reflexivity.
  - intros a b Ha Hb. apply Hk.
    + destruct Ha as [<-|Ha];
        [left; reflexivity | right; apply (JsArrayFacts.sort_In cmp), Ha].
    + destruct Hb as [<-|Hb];
        [left; reflexivity | right; apply (JsArrayFacts.sort_In cmp), Hb].
  - apply JsArrayFacts.sort_sorted, (JsArrayFacts.keyed_tail cmp key x l Hk).
Qed.

End SortThenFilter.

Lemma leb_trans_true (x y z : float) :
  PrimFloat.leb x y = true -> PrimFloat.leb y z = true ->
  PrimFloat.leb x z = true.
Proof.
  intros Hxy Hyz.
  destruct (leb_true_num x y Hxy) as [Hx Hy].
  destruct (leb_true_num y z Hyz) as [_ Hz].
  rewrite Binary64Facts.leb_ford in * by assumption.
  apply Z.leb_le. apply Z.leb_le in Hxy, Hyz. lia.
Qed.

(** X13.  Enlarging the radius only adds records to the nearby candidates:
    for a radius that is at most another, the records
    [getPreschoolsNearLocation] returns are those it returns for the larger
    radius that lie within the smaller one, in the same order and with the
    same attached distances. *)
Theorem getPreschoolsNearLocation_radius :
  forall (M : Math.t) (californiaPreschools : option (list Preschool.t))
         (latitude longitude smaller larger : float),
    PrimFloat.leb smaller larger = true ->
    Data.getPreschoolsNearLocation M californiaPreschools latitude longitude
      smaller
    = filter (fun p =>
                PrimFloat.leb (Preschool.toNumber (Preschool.distance p))
                  smaller)
        (Data.getPreschoolsNearLocation M californiaPreschools latitude
           longitude larger).
Proof.
  intros M w latitude longitude smaller larger Hle.
  unfold Data.getPreschoolsNearLocation.
  set (candidates := map _ _).
  change (fun p => PrimFloat.leb (Preschool.toNumber (Preschool.distance p))
                     smaller)
    with (Data.withinDistance smaller).
  rewrite (filter_sort Data.byDistance
             (fun p => Binary64.ford (Preschool.toNumber (Preschool.distance p)))
             (Data.withinDistance smaller))
    by apply byDistance_keyed.
  f_equal. rewrite filter_filter. apply filter_ext. intros p.
  unfold Data.withinDistance.
  destruct (PrimFloat.leb (Preschool.toNumber (Preschool.distance p)) smaller)
    eqn:E.
  - rewrite (leb_trans_true _ _ _ E Hle). reflexivity.
  - symmetry. apply andb_false_r.
Qed.

(** Two records one and two degrees of longitude east of an origin on the
    equator: within 100 miles there is the first, within 200 both. *)
Lemma getPreschoolsNearLocation_radius_witness :
  Data.getPreschoolsNearLocation Math.firstOrder RadiusExample.warehouse 0 0 100
  = filter (fun p =>
              PrimFloat.leb (Preschool.toNumber (Preschool.distance p)) 100)
      (Data.getPreschoolsNearLocation Math.firstOrder RadiusExample.warehouse
         0 0 200)
  /\ List.length
       (Data.getPreschoolsNearLocation Math.firstOrder RadiusExample.warehouse
          0 0 100) = 1%nat
  /\ List.length
       (Data.getPreschoolsNearLocation Math.firstOrder RadiusExample.warehouse
          0 0 200) = 2%nat.
Proof.
  split; [|split; reflexivity].
  apply (getPreschoolsNearLocation_radius Math.firstOrder
           RadiusExample.warehouse 0 0 100 200).
  reflexivity.
Defined.

(** ** Nearby listings that are empty *)

Lemma filter_none {A : Type} (f : A -> bool) (l : list A) :
  (forall a, In a l -> f a = false) -> filter f l = [].
Proof.
  induction l as [|x l IH]; intros H; [reflexivity|].
  cbn [filter]. rewrite (H x (or_introl eq_refl)).
  apply IH. intros a Ha. apply H. right. assumption.
Qed.

(** X14.  The nearby listing is empty when the radius is [NaN], and when no
    record of the warehouse has both coordinates set: the built-in records,
    which replace an empty warehouse in the other flows, are not read, and
    would not be listed, as they carry no coordinates. *)
Theorem getNearbyPreschools_empty :
  forall (M : Math.t) (californiaPreschools : option (list Preschool.t))
         (latitude longitude radius : float) (limit : Z),
    PrimFloat.is_nan radius = true
    \/ (forall p, In p (Data.getAllPreschools californiaPreschools) ->
          Preschool.latitude p = None \/ Preschool.longitude p = None) ->
    RecommendationService.getNearbyPreschools M californiaPreschools latitude
      longitude radius limit = Normal [].
Proof.
  intros M w latitude longitude radius limit H.
  unfold RecommendationService.getNearbyPreschools. f_equal.
  replace (Data.getPreschoolsNearLocation M w latitude longitude radius)
    with (@nil Preschool.t);
    [unfold JsArray.slice; rewrite skipn_nil, firstn_nil; reflexivity|].
  symmetry. unfold Data.getPreschoolsNearLocation.
  destruct H as [H|H].
  - rewrite (filter_none (Data.withinDistance radius)); [reflexivity|].
    intros p _. apply Binary64Facts.leb_nan_r. exact H.
  - rewrite (filter_none Data.hasCoordinates); [reflexivity|].
    intros p Hp. unfold Data.hasCoordinates.
    destruct (H p Hp) as [E|E]; rewrite E; [reflexivity|apply andb_false_r].
Qed.

(** The six built-in records as a warehouse: none is near any origin. *)
Lemma getNearbyPreschools_empty_witness :
  RecommendationService.getNearbyPreschools Math.firstOrder
    (Some RecommendationService.fallbackPreschools) 37.4 (-122.1) 5000 10
  = Normal []
  /\ RecommendationService.getNearbyPreschools Math.firstOrder
       RadiusExample.warehouse 0 0 nan 10
     = Normal [].
Proof.
  split.
  - apply getNearbyPreschools_empty. right.
    intros p Hp. left. cbn in Hp.
    repeat (destruct Hp as [<-|Hp]; [reflexivity|]). contradiction.
  - apply getNearbyPreschools_empty. left. reflexivity.
Defined.

(** ** Letter case in a search *)

Lemma toLowerCase_same_truthy (a b : string) :
  JsString.toLowerCase a = JsString.toLowerCase b ->
  JsString.truthy a = JsString.truthy b.
Proof.
  intros H. rewrite <- (toLowerCase_truthy a), <- (toLowerCase_truthy b), H.
  reflexivity.
Qed.

(** X15.  The search flow reads the query and the curriculum filter letter
    case apart: two requests whose queries, and whose curriculum filters,
    differ only in letter case return the same page. *)
Theorem searchPreschools_letter_case :
  forall (this : PreschoolService.t)
         (californiaPreschools : option (list Preschool.t))
         (query query' curriculum curriculum' : string)
         (minRating : option float) (ageRange priceRange : option string)
         (page limit : Z),
    JsString.toLowerCase query = JsString.toLowerCase query' ->
    JsString.toLowerCase curriculum = JsString.toLowerCase curriculum' ->
    PreschoolService.searchPreschools this californiaPreschools (Some query)
      {| Filters.minRating := minRating; Filters.ageRange := ageRange;
         Filters.curriculum := Some curriculum;
         Filters.priceRange := priceRange |} page limit
    = PreschoolService.searchPreschools this californiaPreschools (Some query')
        {| Filters.minRating := minRating; Filters.ageRange := ageRange;
           Filters.curriculum := Some curriculum';
           Filters.priceRange := priceRange |} page limit.
Proof.
  intros this w query query' curriculum curriculum' minRating ageRange
    priceRange page limit Hq Hc.
  unfold PreschoolService.searchPreschools.
  destruct (PreschoolService.recommendationService this); [|reflexivity].
  do 2 f_equal. unfold PreschoolService.applyFilters.
  cbn [Filters.minRating Filters.ageRange Filters.curriculum
         Filters.priceRange].
  unfold PreschoolService.curriculumIncludes.
  rewrite (toLowerCase_same_truthy _ _ Hq), (toLowerCase_same_truthy _ _ Hc),
    Hq, Hc.
  reflexivity.
Qed.

Lemma searchPreschools_letter_case_witness :
  PreschoolService.searchPreschools Pages.service None (Some "GARDEN")
    {| Filters.minRating := None; Filters.ageRange := None;
       Filters.curriculum := Some "montessori";
       Filters.priceRange := None |} 1 10
  = PreschoolService.searchPreschools Pages.service None (Some "garden")
      {| Filters.minRating := None; Filters.ageRange := None;
         Filters.curriculum := Some "MONTESSORI";
         Filters.priceRange := None |} 1 10.
Proof.
  apply searchPreschools_letter_case; reflexivity.
Defined.

(** ** Mirror images *)

Module Binary64Mirror.

Import Binary64 Binary64Facts.

Lemma SFsub_opp_opp (x y : spec_float) :
  SF64sub (SFopp x) (SFopp y) = SF64sub x y
  \/ SF64sub (SFopp x) (SFopp y) = SFopp (SF64sub x y).
Proof.
  destruct x as [sx|sx| |sx mx ex], y as [sy|sy| |sy my ey];
    cbn [SF64sub SFsub SFopp];
    try (destruct sx, sy; cbn [negb]; auto; fail);
    try (destruct sx; cbn [negb]; auto; fail);
    try (destruct sy; cbn [negb]; auto; fail);
    try (rewrite ?negb_involutive; auto; fail).
  zfold.
  set (a := SpecFloat.cond_Zopp sx (Z.pos (fst (shl_align mx ex (Z.min ex ey))))).
  set (b := SpecFloat.cond_Zopp sy (Z.pos (fst (shl_align my ey (Z.min ex ey))))).
  replace (SpecFloat.cond_Zopp (negb sx)
             (Z.pos (fst (shl_align mx ex (Z.min ex ey))))) with (- a)
    by (unfold a; destruct sx; reflexivity).
  replace (SpecFloat.cond_Zopp (negb sy)
             (Z.pos (fst (shl_align my ey (Z.min ex ey))))) with (- b)
    by (unfold b; destruct sy; reflexivity).
  destruct (Z.eq_dec (a - b) 0) as [H0|H0].
  - left. replace (- a - - b) with 0 by lia. rewrite H0. reflexivity.
  - right. replace (- a - - b) with (- (a - b)) by lia.
    apply binary_normalize_opp. assumption.
Qed.

Lemma sub_opp_opp (x y : float) :
  (- x - - y = x - y)%float \/ (- x - - y = - (x - y))%float.
Proof.
  destruct (SFsub_opp_opp (Prim2SF x) (Prim2SF y)) as [H|H]; [left|right];
    apply Prim2SF_inj; rewrite ?opp_spec, !sub_spec, ?opp_spec; exact H.
Qed.

End Binary64Mirror.

(** X16.  The distance does not change when both points are mirrored in
    the prime meridian (both longitudes negated), on every implementation
    of [Math] whose sine is an odd function; nor when both are mirrored in
    the equator (both latitudes negated), if its cosine is an even function
    as well. *)
Theorem calculateDistance_mirror :
  forall (M : Math.t),
    (forall x, Math.sin M (- x)%float = (- Math.sin M x)%float) ->
    forall lat1 lon1 lat2 lon2 : float,
      Data.calculateDistance M lat1 (- lon1) lat2 (- lon2)
      = Data.calculateDistance M lat1 lon1 lat2 lon2
      /\ ((forall x, Math.cos M (- x)%float = Math.cos M x) ->
          Data.calculateDistance M (- lat1) lon1 (- lat2) lon2
          = Data.calculateDistance M lat1 lon1 lat2 lon2).
Proof.
  intros M Hodd lat1 lon1 lat2 lon2.
  assert (Hrad : forall u, (Data.toRadians (- u) = - Data.toRadians u)%float).
  { intros u. unfold Data.toRadians.
    rewrite Binary64Facts.mul_opp_l, Binary64Facts.div_opp_l. reflexivity. }
  assert (Hhalf : forall u,
            Math.sin M (Data.toRadians (- u) / 2)
            = (- Math.sin M (Data.toRadians u / 2))%float).
  { intros u. rewrite Hrad, Binary64Facts.div_opp_l. apply Hodd. }
  split.
  - unfold Data.calculateDistance.
    destruct (Binary64Mirror.sub_opp_opp lon2 lon1) as [E|E]; rewrite E;
      [reflexivity|].
    rewrite Hhalf, factor_twice_opp. reflexivity.
  - intros Heven. unfold Data.calculateDistance.
    rewrite !Hrad, !Heven.
    destruct (Binary64Mirror.sub_opp_opp lat2 lat1) as [E|E]; rewrite E;
      [reflexivity|].
    rewrite Hhalf, Binary64Facts.mul_opp_opp. reflexivity.
Qed.

(** Two points one and two degrees east of the prime meridian, and their
    mirror images west of it, with the first-order [Math]. *)
Lemma calculateDistance_mirror_witness :
  Data.calculateDistance Math.firstOrder 37 (PrimFloat.opp 1) 38
    (PrimFloat.opp 2)
  = Data.calculateDistance Math.firstOrder 37 1 38 2.
Proof.
  exact (proj1 (calculateDistance_mirror Math.firstOrder (fun x => eq_refl)
                  37 1 38 2)).
Defined.

(** ** Degrees to radians *)

(** X17.  [toRadians] is an odd function, and it is finite on every angle
    between -360 and 360 degrees, which covers the latitudes, the
    longitudes and their differences.  It is not finite on every finite
    Number: the product with [Math.PI] is taken before the quotient, and
    overflows for 1e308 degrees. *)
Theorem toRadians_odd_finite :
  forall degrees : float,
    Data.toRadians (PrimFloat.opp degrees)
    = PrimFloat.opp (Data.toRadians degrees)
    /\ (PrimFloat.leb (-360) degrees && PrimFloat.leb degrees 360 = true ->
        PrimFloat.is_finite (Data.toRadians degrees) = true)
    /\ Data.toRadians 1e308 = infinity.
Proof.
  intros degrees. split; [|split; [|reflexivity]].
  - unfold Data.toRadians.
    rewrite Binary64Facts.mul_opp_l, Binary64Facts.div_opp_l. reflexivity.
  - intros H. apply andb_true_iff in H. destruct H as [Hlo Hhi].
    rewrite leb_spec in Hlo, Hhi.
    apply Binary64Facts.SFfinite_is_finite. unfold Data.toRadians.
    assert (Hb : Binary64.below (-44) (Prim2SF degrees)).
    { change (Prim2SF 360) with (S754_finite false 6333186975989760 (-44)) in Hhi.
      change (Prim2SF (-360)) with (S754_finite true 6333186975989760 (-44)) in Hlo.
      destruct (Prim2SF degrees) as [s|s| |s m e]; cbn [Binary64.below]; auto.
      - destruct s; discriminate.
      - discriminate.
      - unfold SFleb in Hlo, Hhi. cbn [SFcompare] in Hlo, Hhi.
        Binary64Facts.zfold.
        destruct s.
        + destruct (Z.compare_spec (-44) e); try lia; discriminate.
        + destruct (Z.compare_spec e (-44)); try lia; discriminate. }
    assert (Hpi : Binary64.below (-51) (Prim2SF JsNumber.PI)) by (cbn; lia).
    pose proof (Binary64Facts.SFmul_below (Prim2SF degrees)
                  (Prim2SF JsNumber.PI) (-44) (-51)
                  (Prim2SF_valid _) (Prim2SF_valid _) Hb Hpi ltac:(lia))
      as Hmul.
    rewrite <- mul_spec in Hmul.
    rewrite div_spec.
    apply (Binary64Facts.SFdiv_below _ _ (Z.max (-44 + -51 + 107) (-874))%Z
             false 6333186975989760 (-45));
      [apply Prim2SF_valid | reflexivity | reflexivity | exact Hmul | lia].
Qed.

(** ** References to the canonical records *)

Module SharingFacts.

Import Store StoreFacts.

Local Open Scope list_scope.

Section Within.

Variable canonical : list loc.

Lemma spread_within (a : loc) :
  triple (within canonical a) (spread a) (within canonical)
    (fun _ _ => True).
Proof.
  intros h [elems [Ha Hi]]. unfold spread, andThen, readArray, new.
  rewrite Ha. exists elems. split; [|exact Hi].
  unfold array. rewrite array_new. reflexivity.
Qed.

Lemma filterArray_within (f : Preschool.t -> completion bool) (a : loc) :
  triple (within canonical a) (filterArray f a) (within canonical)
    (fun _ _ => True).
Proof.
  intros h [elems [Ha Hi]]. pose proof (elements_fst h a elems Ha) as He.
  unfold filterArray, andThen, lift.
  destruct (elements a h) as [[es|e] h']; [|exact I].
  destruct He as [-> Hes].
  destruct (filterM (fun e => f (snd e)) es) as [kept|e] eqn:Ek; [|exact I].
  unfold new. exists (map fst kept). split.
  - unfold array. rewrite array_new. reflexivity.
  - intros l Hl. apply Hi, Hes. apply in_map_iff in Hl.
    destruct Hl as [e [<- He]]. apply in_map, (filterM_incl _ _ _ Ek), He.
Qed.

Lemma stage_within {X : Type} (value : option X) (truthy : X -> bool)
  (f : X -> Preschool.t -> bool) (a : loc) :
  triple (within canonical a)
    match value with
    | Some v => if truthy v then filterArrayBy (f v) a else ret a
    | None => ret a
    end
    (within canonical) (fun _ _ => True).
Proof.
  destruct value as [v|]; [destruct (truthy v)|];
    try (intros h H; exact H).
  apply filterArray_within.
Qed.

Lemma sortArray_within (cmp : Preschool.t -> Preschool.t -> float) (a : loc) :
  triple (within canonical a) (sortArray cmp a) (within canonical)
    (fun _ _ => True).
Proof.
  intros h [elems [Ha Hi]]. pose proof (elements_fst h a elems Ha) as He.
  unfold sortArray, andThen, write, ret.
  destruct (elements a h) as [[es|e] h']; [|exact I].
  destruct He as [-> Hes].
  eexists. split; [apply (array_put_same _ _ _ _ Ha)|].
  intros l Hl. apply Hi, Hes. apply in_map_iff in Hl.
  destruct Hl as [e [<- He]]. apply in_map.
  apply (JsArrayFacts.sort_In (fun x y => cmp (snd x) (snd y)) es e), He.
Qed.

Lemma sliceArray_within (a : loc) (start end_ : Z) :
  triple (within canonical a) (sliceArray a start end_) (within canonical)
    (fun _ _ => True).
Proof.
  intros h [elems [Ha Hi]]. unfold sliceArray, andThen, readArray, new.
  rewrite Ha. eexists. split.
  - unfold array. rewrite array_new. reflexivity.
  - intros l Hl. apply Hi. apply (slice_subset _ _ _ _ Hl).
Qed.

End Within.

Section Canonical.

Variable h0 : t.
Variable a0 : loc.
Variable canonical : list loc.
Hypothesis warehouse : array h0 a0 = Some canonical.
Hypothesis stocked : canonical <> [].

(** With records in the warehouse, [getMockPreschools] returns the array
    of the warehouse itself. *)
Lemma getMockPreschools_alias :
  Store.getMockPreschools (Some a0) h0 = (Normal a0, h0).
Proof.
  unfold Store.getMockPreschools, Store.getAllPreschools, andThen, ret,
    readArray.
  rewrite warehouse.
  destruct canonical; [contradiction|]. reflexivity.
Qed.

Lemma getMockPreschools_within :
  triple (eq h0) (Store.getMockPreschools (Some a0)) (within canonical)
    (fun _ _ => True).
Proof.
  intros h <-. rewrite getMockPreschools_alias.
  exists canonical. split; [exact warehouse | apply incl_refl].
Qed.

Lemma getFeaturedPreschools_within (M : Math.t) (limit : Z) :
  triple (eq h0) (Store.getFeaturedPreschools M (Some a0) limit)
    (within canonical) (fun _ _ => True).
Proof.
  unfold Store.getFeaturedPreschools.
  eapply triple_seq; [apply getMockPreschools_within|]. intros a.
  eapply triple_seq; [apply spread_within|]. intros c.
  eapply triple_seq; [apply sortArray_within|]. intros s.
  apply sliceArray_within.
Qed.

Lemma getFavoritePreschools_within (service : RecommendationService.t) :
  triple (eq h0)
    (Store.getFavoritePreschools
       {| PreschoolService.recommendationService := Some service |} (Some a0))
    (within canonical) (fun _ _ => True).
Proof.
  unfold Store.getFavoritePreschools.
  cbn [PreschoolService.recommendationService].
  eapply triple_seq; [apply getMockPreschools_within|]. intros a.
  apply sliceArray_within.
Qed.

Lemma searchPreschools_within (service : RecommendationService.t)
  (query : option string) (filters : Filters.t) (page limit : Z) :
  triple (eq h0)
    (Store.searchPreschools
       {| PreschoolService.recommendationService := Some service |}
       (Some a0) query filters page limit)
    (fun pg h => within canonical (results pg) h) (fun _ _ => True).
Proof.
  unfold Store.searchPreschools.
  cbn [PreschoolService.recommendationService].
  eapply triple_seq; [apply getMockPreschools_within|]. intros a.
  eapply triple_seq; [apply spread_within|]. intros b.
  eapply triple_seq;
    [apply (stage_within canonical query JsString.truthy
              (fun q => PreschoolService.queryMatches (JsString.toLowerCase q)))|].
  intros c.
  eapply triple_seq;
    [apply (stage_within canonical (Filters.minRating filters) JsNumber.truthy
              PreschoolService.ratingAtLeast)|].
  intros d.
  eapply triple_seq;
    [apply (stage_within canonical (Filters.ageRange filters) JsString.truthy
              PreschoolService.ageRangeIncludes)|].
  intros e.
  eapply triple_seq;
    [apply (stage_within canonical (Filters.curriculum filters) JsString.truthy
              PreschoolService.curriculumIncludes)|].
  intros f.
  eapply triple_seq;
    [apply (stage_within canonical (Filters.priceRange filters) JsString.truthy
              PreschoolService.tuitionIncludes)|].
  intros g h Hw. pose proof Hw as [elems [Ha Hi]].
  unfold andThen at 1. unfold readArray at 1. rewrite Ha.
  pose proof (sliceArray_within canonical g ((page - 1) * limit)
                (page * limit) h Hw) as Hsl.
  unfold andThen.
  destruct (sliceArray g ((page - 1) * limit) (page * limit) h)
    as [[p|err] h']; [|exact I].
  exact Hsl.
Qed.

End Canonical.

End SharingFacts.

Lemma find_pairs {A B : Type} (f : B -> bool) (es : list (A * B)) :
  find f (map snd es)
  = option_map snd (find (fun e => f (snd e)) es).
Proof.
  induction es as [|e es IH]; [reflexivity|].
  cbn [map find]. destruct (f (snd e)); [reflexivity | exact IH].
Qed.

Lemma holds_canonical (h0 : Store.t) (a0 : Store.loc)
  (records : list Preschool.t) :
  Store.holds h0 (Some a0) (Some records) -> records <> [] ->
  exists canonical,
    Store.array h0 a0 = Some canonical /\ canonical <> [].
Proof.
  unfold Store.holds, Store.view. intros H Hne.
  destruct (Store.array h0 a0) as [canonical|]; [|discriminate].
  exists canonical. split; [reflexivity|].
  pose proof (StoreFacts.objects_length _ _ _ H) as Hl.
  intros ->. destruct records; [contradiction | discriminate].
Qed.

Lemma getFavoritePreschools_triple (h0 : Store.t)
  (warehouse : option Store.loc)
  (californiaPreschools : option (list Preschool.t))
  (service : RecommendationService.t) :
  Store.holds h0 warehouse californiaPreschools ->
  Store.triple (eq h0)
    (Store.getFavoritePreschools
       {| PreschoolService.recommendationService := Some service |} warehouse)
    (Store.refers h0
       (JsArray.slice
          (RecommendationService.getMockPreschools californiaPreschools) 0 3))
    Store.never.
Proof.
  intros Hh. unfold Store.getFavoritePreschools.
  cbn [PreschoolService.recommendationService].
  eapply StoreFacts.triple_seq;
    [apply (StoreFacts.getMockPreschools_triple h0 warehouse
              californiaPreschools Hh)|].
  intros a. apply StoreFacts.sliceArray_triple.
Qed.

(** X18.  From a store whose warehouse holds records, the search flow, the
    featured listing and the favourites listing return arrays whose
    elements are references to the canonical record objects, not copies of
    them, and [getMockPreschools] returns the canonical array itself. *)
Theorem listings_share_records :
  forall (h0 : Store.t) (a0 : Store.loc) (records : list Preschool.t),
    Store.holds h0 (Some a0) (Some records) ->
    records <> [] ->
    exists canonical,
      Store.array h0 a0 = Some canonical
      /\ Store.getMockPreschools (Some a0) h0 = (Normal a0, h0)
      /\ forall (M : Math.t) (service : RecommendationService.t)
                (query : option string) (filters : Filters.t)
                (page limit : Z),
           (exists pg h r,
              Store.searchPreschools
                {| PreschoolService.recommendationService := Some service |}
                (Some a0) query filters page limit h0 = (Normal pg, h)
              /\ PreschoolService.searchPreschools
                   {| PreschoolService.recommendationService := Some service |}
                   (Some records) query filters page limit = Normal r
              /\ Store.view h (Store.results pg)
                 = Some (SearchResult.results r)
              /\ Store.within canonical (Store.results pg) h)
           /\ (exists a h l,
                 Store.getFeaturedPreschools M (Some a0) limit h0
                 = (Normal a, h)
                 /\ RecommendationService.getFeaturedPreschools M
                      (Some records) limit = Normal l
                 /\ Store.view h a = Some l
                 /\ Store.within canonical a h)
           /\ (exists a h l,
                 Store.getFavoritePreschools
                   {| PreschoolService.recommendationService := Some service |}
                   (Some a0) h0 = (Normal a, h)
                 /\ PreschoolService.getFavoritePreschools
                      {| PreschoolService.recommendationService := Some service |}
                      (Some records) = Normal l
                 /\ Store.view h a = Some l
                 /\ Store.within canonical a h).
Proof.
  intros h0 a0 records Hh Hne.
  destruct (holds_canonical h0 a0 records Hh Hne) as [canonical [Ha Hc]].
  exists canonical. split; [exact Ha|].
  split; [apply (SharingFacts.getMockPreschools_alias h0 a0 canonical Ha Hc)|].
  intros M service query filters page limit. split; [|split].
  - pose proof (StoreFacts.searchPreschools_triple h0 (Some a0) (Some records)
                  Hh service query filters page limit h0 eq_refl) as H1.
    pose proof (SharingFacts.searchPreschools_within h0 a0 canonical Ha Hc
                  service query filters page limit h0 eq_refl) as H2.
    destruct (Store.searchPreschools _ (Some a0) query filters page limit h0)
      as [[pg|e] h]; [|contradiction].
    cbv zeta in H1. destruct H1 as [_ [Hv _]].
    exists pg, h. eexists. split; [reflexivity|].
    split; [reflexivity|]. split; [exact Hv | exact H2].
  - pose proof (StoreFacts.getFeaturedPreschools_triple h0 (Some a0)
                  (Some records) Hh M limit h0 eq_refl) as H1.
    pose proof (SharingFacts.getFeaturedPreschools_within h0 a0 canonical Ha Hc
                  M limit h0 eq_refl) as H2.
    destruct (Store.getFeaturedPreschools M (Some a0) limit h0)
      as [[a|e] h]; [|contradiction].
    destruct H1 as [_ [_ Hv]].
    exists a, h. eexists. split; [reflexivity|].
    split; [reflexivity|]. split; [exact Hv | exact H2].
  - pose proof (getFavoritePreschools_triple h0 (Some a0) (Some records)
                  service Hh h0 eq_refl) as H1.
    pose proof (SharingFacts.getFavoritePreschools_within h0 a0 canonical Ha Hc
                  service h0 eq_refl) as H2.
    destruct (Store.getFavoritePreschools _ (Some a0) h0)
      as [[a|e] h]; [|contradiction].
    destruct H1 as [_ [_ Hv]].
    exists a, h. eexists. split; [reflexivity|].
    split; [reflexivity|]. split; [exact Hv | exact H2].
Qed.

(** The theorem applies to the store of two records. *)
Lemma listings_share_records_witness :
  exists canonical,
    Store.array Store.example 2%nat = Some canonical
    /\ Store.getMockPreschools (Some 2%nat) Store.example
       = (Normal 2%nat, Store.example)
    /\ exists a h,
         Store.getFeaturedPreschools Math.firstOrder (Some 2%nat) 1
           Store.example = (Normal a, h)
         /\ Store.within canonical a h.
Proof.
  destruct (listings_share_records Store.example 2%nat
              [NearbyCriterion.fiveMilesNorth; NearbyCriterion.onEquator])
    as [canonical [H1 [H2 H3]]].
  - reflexivity.
  - discriminate.
  - exists canonical. split; [exact H1|]. split; [exact H2|].
    destruct (H3 Math.firstOrder RecommendationService.Instance None
                Filters.empty 1 1) as [_ [[a [h [l [Ha [_ [_ Hw]]]]]] _]].
    exists a, h. split; assumption.
Defined.

(** X19.  From a store whose warehouse holds records,
    [getPreschoolDetails] allocates nothing and returns a reference to a
    canonical record object, the one the lookup on values returns; it
    throws the same error as the lookup on values. *)
Theorem getPreschoolDetails_shares_record :
  forall (h0 : Store.t) (a0 : Store.loc) (records : list Preschool.t),
    Store.holds h0 (Some a0) (Some records) ->
    records <> [] ->
    exists canonical,
      Store.array h0 a0 = Some canonical
      /\ forall (service : RecommendationService.t) (preschoolId : string),
           match
             Store.getPreschoolDetails
               {| PreschoolService.recommendationService := Some service |}
               (Some a0) preschoolId h0,
             PreschoolService.getPreschoolDetails
               {| PreschoolService.recommendationService := Some service |}
               (Some records) preschoolId
           with
           | (Normal l, h), Normal p =>
               h = h0 /\ In l canonical /\ Store.object h0 l = Some p
           | (Throw e, h), Throw e' => h = h0 /\ e = e'
           | _, _ => False
           end.
Proof.
  intros h0 a0 records Hh Hne.
  destruct (holds_canonical h0 a0 records Hh Hne) as [canonical [Ha Hc]].
  exists canonical. split; [exact Ha|].
  intros service preschoolId.
  unfold Store.getPreschoolDetails, PreschoolService.getPreschoolDetails.
  cbn [PreschoolService.recommendationService].
  unfold Store.andThen at 1.
  rewrite (SharingFacts.getMockPreschools_alias h0 a0 canonical Ha Hc).
  destruct (StoreFacts.elements_run h0 a0 records Hh)
    as [es [He [Hes [Hp Hs]]]].
  unfold Store.andThen. rewrite He.
  replace (RecommendationService.getMockPreschools (Some records))
    with records
    by (destruct records; [contradiction | reflexivity]).
  rewrite <- Hs, find_pairs.
  rewrite Ha in Hes. injection Hes as ->.
  destruct (find _ es) as [e|] eqn:Ef; cbn [option_map].
  - unfold Store.ret. apply find_some in Ef. destruct Ef as [Hin _].
    split; [reflexivity|]. split; [apply in_map, Hin|].
    unfold Store.paired in Hp. rewrite Forall_forall in Hp. apply Hp, Hin.
  - unfold Store.lift. split; reflexivity.
Qed.

(** In the store of two records, the lookup of the second returns its
    location. *)
Lemma getPreschoolDetails_shares_record_witness :
  exists canonical,
    Store.array Store.example 2%nat = Some canonical
    /\ match
         Store.getPreschoolDetails Pages.service (Some 2%nat)
           (Preschool.id NearbyCriterion.onEquator) Store.example
       with
       | (Normal l, _) => In l canonical
       | (Throw _, _) => False
       end.
Proof.
  destruct (getPreschoolDetails_shares_record Store.example 2%nat
              [NearbyCriterion.fiveMilesNorth; NearbyCriterion.onEquator])
    as [canonical [H1 H2]].
  - reflexivity.
  - discriminate.
  - exists canonical. split; [exact H1|].
    specialize (H2 RecommendationService.Instance
                  (Preschool.id NearbyCriterion.onEquator)).
    vm_compute in H2. vm_compute. apply H2.
Defined.

(** ** A shorter listing is the head of a longer one *)

Lemma slice_prefix_of_prefix {A : Type} (l : list A) (limit limit' : Z) :
  0 <= limit <= limit' ->
  JsArray.slice l 0 limit
  = firstn (Z.to_nat limit) (JsArray.slice l 0 limit').
Proof.
  intros H. rewrite !JsArrayFacts.slice_prefix by lia.
  rewrite firstn_firstn. f_equal. lia.
Qed.

(** X20.  The featured, nearby and recommendation listings of a limit are
    the first [limit] records of their listings of any larger limit: the
    three best of five are the best three. *)
Theorem shorter_listing_is_prefix :
  forall (M : Math.t) (californiaPreschools : option (list Preschool.t))
         (userId : string) (preferences : Preferences.t)
         (latitude longitude radius : float) (limit limit' : Z),
    0 <= limit <= limit' ->
    let first (longer : list Preschool.t) :=
      Normal (firstn (Z.to_nat limit) longer) in
    RecommendationService.getFeaturedPreschools M californiaPreschools limit
    = bind (RecommendationService.getFeaturedPreschools M
              californiaPreschools limit') first
    /\ RecommendationService.getNearbyPreschools M californiaPreschools
         latitude longitude radius limit
       = bind (RecommendationService.getNearbyPreschools M
                 californiaPreschools latitude longitude radius limit') first
    /\ RecommendationService.getRecommendations californiaPreschools userId
         preferences limit
       = bind (RecommendationService.getRecommendations californiaPreschools
                 userId preferences limit') first.
Proof.
  intros M w userId preferences latitude longitude radius limit limit' H first.
  unfold first. split; [|split].
  - unfold RecommendationService.getFeaturedPreschools. cbn [bind].
    rewrite (slice_prefix_of_prefix _ limit limit' H). reflexivity.
  - unfold RecommendationService.getNearbyPreschools. cbn [bind].
    rewrite (slice_prefix_of_prefix _ limit limit' H). reflexivity.
  - unfold RecommendationService.getRecommendations.
    match goal with
    | |- bind ?c _ = _ => destruct c as [located|e]; [|reflexivity]
    end.
    cbn [bind]. rewrite (slice_prefix_of_prefix _ limit limit' H).
    rewrite firstn_map. reflexivity.
Qed.

(** Over the built-in records, the two featured records are the first two
    of the four. *)
Lemma shorter_listing_is_prefix_witness :
  RecommendationService.getFeaturedPreschools Math.firstOrder None 2
  = bind (RecommendationService.getFeaturedPreschools Math.firstOrder None 4)
      (fun longer => Normal (firstn 2 longer)).
Proof.
  exact (proj1 (shorter_listing_is_prefix Math.firstOrder None ""
                  Preferences.empty 0 0 0 2 4 ltac:(lia))).
Defined.

